(** * Stevens Connect integration: a shallow embedding of [app/actions]

    The development follows the three source modules

    - [app/actions/client.py]          (module [Client]),
    - [app/actions/configurations.py]  (module [Configurations]),
    - [app/actions/handlers.py]        (module [Handlers]),

    preceded by a small model of the Python values they manipulate
    (module [Py]) and of [datetime] (module [Datetime]); the window
    generator of the handlers has a module of its own ([Windows]), and
    [Examples] holds the concrete inputs the statements are tried on.
    Definitions come first; the statements about them follow in the
    second half. *)

From Stdlib Require Import ZArith Lia.
From Stdlib Require Import Floats.SpecFloat.
From stdpp Require Import base option list strings pretty gmap.

Local Open Scope Z_scope.

(* ===================================================================== *)
(** * Datetime: aware and naive [datetime], [timedelta]                      *)
(* ===================================================================== *)

Module Datetime.

(** An aware UTC [datetime] is the number of microseconds between the
    Unix epoch and the instant it denotes; a [timedelta] is a number of
    microseconds.  Not every number is a [datetime]: the years run from 1
    to 9999 ([datetime_min], [datetime_max] below), and [sub_days] is the
    subtraction that checks it. *)
Definition instant := Z.

Definition microseconds_per_day : Z := 86400 * 1000000.

(** [timedelta(days=n)] *)
Definition timedelta_days (n : Z) : Z := n * microseconds_per_day.
Definition timedelta_hours (n : Z) : Z := n * 3600 * 1000000.

(** Days between 1970-01-01 and the civil date [y]-[m]-[d] of the
    proleptic Gregorian calendar. *)
Definition days_from_civil (y m d : Z) : Z :=
  let y' := if m <=? 2 then y - 1 else y in
  let era := y' / 400 in
  let yoe := y' - era * 400 in
  let mp := if m >? 2 then m - 3 else m + 9 in
  let doy := (153 * mp + 2) / 5 + d - 1 in
  let doe := yoe * 365 + yoe / 4 - yoe / 100 + doy in
  era * 146097 + doe - 719468.

(** [datetime(y, m, d, hh, mm, ss, tzinfo=timezone.utc)] *)
Definition utc (y m d hh mm ss : Z) : instant :=
  (days_from_civil y m d * 86400 + hh * 3600 + mm * 60 + ss) * 1000000.

(** [datetime.min] and [datetime.max], read as UTC:
    0001-01-01T00:00:00 and 9999-12-31T23:59:59.999999. *)
Definition datetime_min : instant := utc 1 1 1 0 0 0.
Definition datetime_max : instant := utc 9999 12 31 23 59 59 + 999999.

(** The largest number of days a [timedelta] holds. *)
Definition timedelta_max_days : Z := 999999999.

(** [d - timedelta(days=n)], [None] for [OverflowError]: the constructor
    raises it for more than 999999999 days either way, and the
    subtraction for a result outside of [[datetime.min, datetime.max]]. *)
Definition sub_days (d : instant) (n : Z) : option instant :=
  if (Z.abs n <=? timedelta_max_days)
     && (datetime_min <=? d - timedelta_days n)
     && (d - timedelta_days n <=? datetime_max)
  then Some (d - timedelta_days n)
  else None.

(** A [datetime] as [dateparser.parse] returns it: the wall-clock fields
    (microseconds between 1970-01-01T00:00:00 and the wall-clock reading)
    and the zone, [None] for a naive value, [Some off] for an aware one
    whose UTC offset is [off] microseconds. *)
Record datetime := mk_datetime { wall : Z; tzinfo : option Z }.

(** [d.replace(tzinfo=timezone.utc)]: the wall-clock fields are kept and
    the zone is overwritten; no conversion takes place. *)
Definition replace_tzinfo_utc (d : datetime) : datetime :=
  {| wall := wall d; tzinfo := Some 0 |}.

(** The instant an aware [datetime] denotes. *)
Definition aware_instant (d : datetime) : option instant :=
  match tzinfo d with
  | Some off => Some (wall d - off)
  | None => None
  end.

(** The instant of a value read as UTC when it carries no zone. *)
Definition instant_assuming_utc (d : datetime) : instant :=
  match tzinfo d with
  | Some off => wall d - off
  | None => wall d
  end.

End Datetime.

(* ===================================================================== *)
(** * handlers.py, part 1: date windows                                  *)
(* ===================================================================== *)

Module Windows.
Import Datetime.

Definition MAX_DAYS_PER_QUERY : Z := 2.

(** How a generator stops: by running off its end, or with the
    [OverflowError] of a date that leaves [datetime]'s range. *)
Inductive Ending :=
| StopIteration
| OverflowError.

(** [generate_date_pairs]: the generator's [while] loop, unrolled at most
    [fuel] times; [None] when the loop is still running after that.  The
    result lists the windows yielded, in order, and tells how the
    generator stops after them.  The subtraction is evaluated for the
    window before the window is yielded, so that a date out of range ends
    the generator before that window.

    <<
    def generate_date_pairs(lower_date, upper_date, interval=MAX_DAYS_PER_QUERY):
        while upper_date > lower_date:
            yield max(lower_date, upper_date - timedelta(days=interval)), upper_date
            upper_date -= timedelta(days=interval)
    >> *)
Fixpoint generate_date_pairs_checked (fuel : nat)
    (lower_date upper_date : instant) (interval : Z)
    : option (list (instant * instant) * Ending) :=
  if upper_date >? lower_date then
    match fuel with
    | O => None
    | S fuel' =>
        match sub_days upper_date interval with
        | None => Some ([], OverflowError)
        | Some earlier =>
            match generate_date_pairs_checked fuel' lower_date earlier interval with
            | Some (windows, ending) =>
                Some ((Z.max lower_date earlier, upper_date) :: windows, ending)
            | None => None
            end
        end
    end
  else Some ([], StopIteration).

(** The same loop on the instants alone, for dates that no subtraction
    takes out of [datetime]'s range: the windows it lists are those
    [generate_date_pairs_checked] yields as long as that is so. *)
Fixpoint generate_date_pairs_fuel (fuel : nat)
    (lower_date upper_date : instant) (interval : Z)
    : option (list (instant * instant)) :=
  if upper_date >? lower_date then
    match fuel with
    | O => None
    | S fuel' =>
        cons (Z.max lower_date (upper_date - timedelta_days interval), upper_date)
          <$> generate_date_pairs_fuel fuel' lower_date
                (upper_date - timedelta_days interval) interval
    end
  else Some [].

(** The width of a window at the default interval. *)
Definition window_width : Z := timedelta_days MAX_DAYS_PER_QUERY.

(** Number of iterations that suffices when the interval is positive. *)
Definition enough_fuel (lower_date upper_date : instant) : nat :=
  S (Z.to_nat ((upper_date - lower_date) / timedelta_days MAX_DAYS_PER_QUERY)).

(** The windows of the generator at its default interval, as the handler
    iterates over them; the handler's dates are readings of the clock, a
    lookback of at most 15 days before one, or a stored watermark. *)
Definition generate_date_pairs (lower_date upper_date : instant)
    : list (instant * instant) :=
  default [] (generate_date_pairs_fuel (enough_fuel lower_date upper_date)
                lower_date upper_date MAX_DAYS_PER_QUERY).

(** What it means for a list of windows to cut [[start, stop)] into
    consecutive pieces of at most [width], latest piece first. *)
Fixpoint backward_partition (width : Z) (start stop : instant)
    (ws : list (instant * instant)) : Prop :=
  match ws with
  | [] => stop <= start
  | (lo, hi) :: rest =>
      hi = stop /\ start <= lo /\ lo < hi /\ hi - lo <= width
      /\ backward_partition width start lo rest
  end.

End Windows.

(* ===================================================================== *)
(** * Python values, exceptions and dictionaries                         *)
(* ===================================================================== *)

Module Py.

(** ** Exceptions *)

(** The exception classes that occur in the three modules.  The two
    [httpx] classes stand for the [httpx.HTTPError] hierarchy:
    [HTTPStatusError] carries [e.response.status_code], and
    [TransportError] is every other [httpx.HTTPError] (time-outs,
    connection failures).  The three [StevensConnect...] classes derive
    from [Exception] and carry their [status_code] attribute. *)
Inductive exn :=
| HTTPStatusError (status_code : Z)
| TransportError
| StevensConnectNotFoundException (status_code : Z)
| StevensConnectBadRequestException (status_code : Z)
| StevensConnectUnauthorizedException (status_code : Z)
| ValidationError
| JSONDecodeError
| KeyError (key : string)
| IndexError
| TypeError
| AttributeError.

(** [isinstance(e, httpx.HTTPError)] *)
Definition is_httpx_HTTPError (e : exn) : bool :=
  match e with
  | HTTPStatusError _ | TransportError => true
  | _ => false
  end.

(** [isinstance(e, StevensConnectUnauthorizedException)] *)
Definition is_Unauthorized (e : exn) : bool :=
  match e with
  | StevensConnectUnauthorizedException _ => true
  | _ => false
  end.

(** A call either returns a value or raises. *)
Inductive result (A : Type) :=
| Return (a : A)
| Raise (e : exn).
Arguments Return {A} a.
Arguments Raise {A} e.

Definition result_bind {A B} (f : A -> result B) (r : result A) : result B :=
  match r with
  | Return a => f a
  | Raise e => Raise e
  end.

Definition result_map {A B} (f : A -> B) (r : result A) : result B :=
  match r with
  | Return a => Return (f a)
  | Raise e => Raise e
  end.

#[global] Instance result_fmap : FMap result := @result_map.
#[global] Instance result_ret : MRet result := @Return.
#[global] Instance result_mbind : MBind result := @result_bind.

(** [try: body except ...: raise h(e)]: every exception of the body goes
    through the handler. *)
Definition try_except {A} (body : result A) (handler : exn -> exn) : result A :=
  match body with
  | Return a => Return a
  | Raise e => Raise (handler e)
  end.

(** ** Dictionaries *)

(** A [dict] keeps its keys in insertion order; assigning to a key that
    is present overwrites the value in place. *)
Section Dict.
Context {K V : Type} `{EqDecision K}.

Fixpoint dict_get (d : list (K * V)) (k : K) : option V :=
  match d with
  | [] => None
  | (k', v) :: d' => if decide (k = k') then Some v else dict_get d' k
  end.

Fixpoint dict_set (d : list (K * V)) (k : K) (v : V) : list (K * V) :=
  match d with
  | [] => [(k, v)]
  | (k', v') :: d' =>
      if decide (k = k') then (k, v) :: d' else (k', v') :: dict_set d' k v
  end.

(** [d.update(other)] *)
Definition dict_update (d other : list (K * V)) : list (K * V) :=
  fold_left (fun acc kv => dict_set acc kv.1 kv.2) other d.

Definition dict_keys (d : list (K * V)) : list K := d.*1.
Definition dict_values (d : list (K * V)) : list V := d.*2.
End Dict.

(** [d[k].append(x)] on a [defaultdict(list)] *)
Definition defaultdict_append {K A : Type} `{EqDecision K}
    (d : list (K * list A)) (k : K) (x : A) : list (K * list A) :=
  dict_set d k (default [] (dict_get d k) ++ [x]).

(** ** Parsed JSON *)

(** What [response.json()] returns, and what a [dict] field of a pydantic
    model holds.  A Python [float] is an IEEE 754 binary64 value. *)
#[local] Unset Elimination Schemes.
Inductive json :=
| JNull
| JBool (b : bool)
| JInt (z : Z)
| JFloat (f : spec_float)
| JStr (s : string)
| JArr (items : list json)
| JObj (members : list (string * json)).
#[local] Set Elimination Schemes.

(** [bool(x)] *)
Definition truthy (x : json) : bool :=
  match x with
  | JNull => false
  | JBool b => b
  | JInt z => negb (z =? 0)
  | JFloat (S754_zero _) => false
  | JFloat _ => true
  | JStr s => negb (String.eqb s "")
  | JArr items => match items with [] => false | _ => true end
  | JObj members => match members with [] => false | _ => true end
  end.

(** [x[key]] for a string key *)
Definition subscript (x : json) (key : string) : result json :=
  match x with
  | JObj members =>
      match dict_get members key with
      | Some v => Return v
      | None => Raise (KeyError key)
      end
  | _ => Raise TypeError
  end.

(** [x.get(key)]; only a [dict] has the method, and a missing key gives
    [None]. *)
Definition get_method (x : json) (key : string) : result json :=
  match x with
  | JObj members => Return (default JNull (dict_get members key))
  | _ => Raise AttributeError
  end.

(** [f > n] for a float [f] and an int [n]; Python compares the two
    exactly. *)
Definition float_gt_int (f : spec_float) (n : Z) : bool :=
  match f with
  | S754_zero _ => 0 >? n
  | S754_infinity negative => negb negative
  | S754_nan => false
  | S754_finite negative m e =>
      let v := if negative then Z.neg m else Z.pos m in
      if 0 <=? e then v * 2 ^ e >? n else v >? n * 2 ^ (- e)
  end.

(** [x > n] for an int [n]; [bool] is a subclass of [int], and the other
    types do not order against [int]. *)
Definition gt_int (x : json) (n : Z) : result bool :=
  match x with
  | JInt z => Return (z >? n)
  | JBool b => Return ((if b then 1 else 0) >? n)
  | JFloat f => Return (float_gt_int f n)
  | _ => Raise TypeError
  end.

(** ** Strings *)

(** [s.startswith(p)] *)
Fixpoint startswith (p s : string) : bool :=
  match p, s with
  | EmptyString, _ => true
  | String a p', String b s' => if Ascii.eqb a b then startswith p' s' else false
  | String _ _, EmptyString => false
  end.

(** [s.replace(old, new)] for a non-empty [old]: the occurrences of [old]
    are found from left to right without overlap and each is replaced.
    [skip] counts the characters of the current occurrence that are still
    to be dropped. *)
Fixpoint replace_from (old new : string) (skip : nat) (s : string) : string :=
  match s with
  | EmptyString => EmptyString
  | String c s' =>
      match skip with
      | S k => replace_from old new k s'
      | O =>
          if startswith old s
          then new +:+ replace_from old new (String.length old - 1) s'
          else String c (replace_from old new O s')
      end
  end.

Definition str_replace (s old new : string) : string :=
  replace_from old new O s.

(** The functions of the Python runtime and of third-party packages that
    the code calls and whose text is not part of the repository. *)
Class Runtime := {
  (** [str(x)] for a [float] *)
  float_str : spec_float -> string;
  (** [str(x)] for a [list] or a [dict] *)
  container_str : json -> string;
  (** [int(s)] for a [str], as pydantic's [int] validator applies it *)
  int_of_str : string -> option Z;
  (** [dateparser.parse(s)]; [None] when the text is not a date *)
  dateparser_parse : string -> option Datetime.datetime;
}.

(** [str(x)], which is what an f-string inserts *)
Definition py_str `{RT : Runtime} (x : json) : string :=
  match x with
  | JNull => "None"
  | JBool true => "True"
  | JBool false => "False"
  | JInt z => pretty z
  | JFloat f => float_str f
  | JStr s => s
  | JArr _ | JObj _ => container_str x
  end.

End Py.

(* ===================================================================== *)
(** * client.py                                                          *)
(* ===================================================================== *)

Module Client.
Import Py.

(** ** The pydantic models *)

Record Channel := {
  Channel_id : string;
  Channel_name : string;
  Channel_unit_id : string;
  Channel_channel_health : list (string * json);
}.

Record Sensor := {
  Sensor_id : string;
  Sensor_name : string;
  Sensor_channels : list Channel;
}.

Record Station := {
  Station_name : string;
  Station_latitude : spec_float;
  Station_longitude : spec_float;
  Station_sensors : list Sensor;
}.

Record Project := {
  Project_id : string;
  Project_name : string;
  Project_stations : list Station;
}.

(** [timestamp] is aware after the model's validator ([tzinfo] set to UTC
    when absent), so it is kept as the instant it denotes: that is what
    equality and hashing of aware datetimes look at. *)
Record ChannelReading := {
  ChannelReading_channel_id : string;
  ChannelReading_reading : spec_float;
  ChannelReading_timestamp : Datetime.instant;
}.

Record Unit := {
  Unit_id : Z;
  Unit_name : string;
  Unit_unit : string;
}.

Record ChannelReadingsResponse := {
  readings : list (string * list ChannelReading);
  paging : list (string * json);
}.

Record ProjectResponse := {
  ProjectResponse_projects : list Project;
  ProjectResponse_units : list Unit;
}.

(** ** HTTP *)

(** An [httpx.Response]; [json_body] is the value the body decodes to,
    [None] when the body is not JSON. *)
Record Response := {
  status_code : Z;
  text : string;
  json_body : option json;
}.

(** [response.json()] *)
Definition response_json (r : Response) : result json :=
  match json_body r with
  | Some value => Return value
  | None => Raise JSONDecodeError
  end.

(** [response.is_success] *)
Definition is_success (r : Response) : bool :=
  (200 <=? status_code r) && (status_code r <=? 299).

(** [response.raise_for_status()] *)
Definition raise_for_status (r : Response) : result unit :=
  if is_success r then Return tt else Raise (HTTPStatusError (status_code r)).

(** What awaiting [session.post] or [session.get] comes to: a response,
    or an exception raised by the transport. *)
Inductive Outcome :=
| Responded (r : Response)
| Failed (e : exn).

Definition await_response (o : Outcome) : result Response :=
  match o with
  | Responded r => Return r
  | Failed e => Raise e
  end.

(** ** [stamina.retry] *)

(** The three decorators read
    [@stamina.retry(on=..., wait_initial=4.0, wait_jitter=5.0, wait_max=32.0)]
    and leave [attempts] and [timeout] at stamina's defaults, 10 and 45
    seconds.  After a failed attempt stamina gives up when the attempts
    are used up or when [timeout] has passed since the first attempt
    began; otherwise it sleeps
    [min(wait_max, wait_initial * 2 ** (attempt_number - 1) + jitter)],
    with [jitter] drawn from [[0, wait_jitter]], and calls again.  Times
    are in microseconds. *)
Definition seconds (n : Z) : Z := n * 1000000.

Definition wait_initial : Z := seconds 4.
Definition wait_jitter : Z := seconds 5.
Definition wait_max : Z := seconds 32.
Definition stamina_default_timeout : Z := seconds 45.
Definition stamina_default_attempts : nat := 10.

(** What a run takes: [took i] is the time the [i]-th call lasts (calls
    are counted from 0) and [jitter i] the jitter drawn for the wait that
    follows it. *)
Record Timing := {
  took : nat -> Z;
  jitter : nat -> Z;
}.

Definition timing_ok (timing : Timing) : Prop :=
  forall i, 0 <= took timing i /\ 0 <= jitter timing i <= wait_jitter.

(** The wait after the failed attempt number [attempt_number] (from 1). *)
Definition backoff (attempt_number : nat) (jitter : Z) : Z :=
  Z.min wait_max (wait_initial * 2 ^ Z.of_nat (attempt_number - 1) + jitter).

(** The time since the first attempt began at which call [i] ends. *)
Fixpoint finished_at (timing : Timing) (i : nat) : Z :=
  match i with
  | O => took timing O
  | S i' =>
      finished_at timing i' + backoff (S i') (jitter timing i') + took timing (S i')
  end.

(** stamina's stop condition after call [i] has failed. *)
Definition stop_after (timing : Timing) (i : nat) : bool :=
  (stamina_default_attempts <=? S i)%nat
  || (stamina_default_timeout <=? finished_at timing i).

(** The first call, from call [i] on and among the next [fuel], after
    which the stop condition holds. *)
Fixpoint first_stop (timing : Timing) (fuel i : nat) : nat :=
  match fuel with
  | O => i
  | S fuel' => if stop_after timing i then i else first_stop timing fuel' (S i)
  end.

(** The number of calls the stop condition allows in a run: the calls
    made when every one of them fails with a selected exception. *)
Definition stamina_calls_allowed (timing : Timing) : nat :=
  S (first_stop timing stamina_default_attempts O).

(** The decorated function is called again while it raises an exception
    selected by [on] and the stop condition allows another call; any
    other exception, and the last selected one, leaves the wrapper.
    [call i] is what the [i]-th call of the function does; the second
    component counts the calls made.  [attempts] counts the calls that
    the stop condition still allows after this one. *)
Fixpoint retry_from {A} (on : exn -> bool) (attempts : nat)
    (call : nat -> option (result A)) (i : nat) : option (result A) * nat :=
  match attempts with
  | O => (call i, S i)
  | S attempts' =>
      match call i with
      | Some (Raise e) =>
          if on e then retry_from on attempts' call (S i)
          else (Some (Raise e), S i)
      | r => (r, S i)
      end
  end.

(** The wrapper in a run whose stop condition allows [attempts] calls:
    [stamina_calls_allowed timing] for the timing of the run, which is
    never more than 5 at the waits of the decorators.  At least one call
    is always made.  A call is [None] when it does not come back. *)
Definition stamina_retry {A} (on : exn -> bool) (attempts : nat)
    (call : nat -> option (result A)) : option (result A) * nat :=
  retry_from on (attempts - 1) call O.

(** ** [get_token] *)

(** The [except httpx.HTTPStatusError] clause of [get_token]. *)
Definition get_token_except (e : exn) : exn :=
  match e with
  | HTTPStatusError code =>
      if code =? 400 then StevensConnectBadRequestException 400
      else if code =? 404 then StevensConnectNotFoundException 404
      else e
  | _ => e
  end.

(** One call of the undecorated [get_token]; [post] is what the
    [/authenticate] request comes to.  The value returned is a Python
    value: the token as found in the envelope, or the body text. *)
Definition get_token_call (post : Outcome) : result json :=
  try_except
    (response ← await_response post;
     _ ← raise_for_status response;
     parsed_response ← response_json response;
     if truthy parsed_response then
       data ← subscript parsed_response "data";
       get_method data "token"
     else
       Return (JStr (text response)))
    get_token_except.

(** [get_token] as decorated with
    [@stamina.retry(on=httpx.HTTPError, ...)], in a run whose stop
    condition allows [attempts] calls. *)
Definition get_token (attempts : nat) (post : nat -> Outcome)
    : option (result json) * nat :=
  stamina_retry is_httpx_HTTPError attempts
    (fun i => Some (get_token_call (post i))).

(** ** [get_sensor_readings] *)

(** The [except httpx.HTTPStatusError] clause of [get_projects] and of
    [get_sensor_readings]. *)
Definition readings_except (e : exn) : exn :=
  match e with
  | HTTPStatusError code =>
      if code =? 401 then StevensConnectUnauthorizedException 401
      else if code =? 404 then StevensConnectNotFoundException 404
      else e
  | _ => e
  end.

(** What one turn of the [while has_data] loop decides. *)
Inductive PageStep :=
| ReturnText (body : string)
| NextPage (page_readings : list (list ChannelReading))
| LastPage (page_readings : list (list ChannelReading)).

(** The [try] block of the loop for the page [current_page].
    [parse_obj] is [ChannelReadingsResponse.parse_obj]. *)
Definition page_step
    (parse_obj : json -> result ChannelReadingsResponse)
    (get : Outcome) (current_page : Z) : result PageStep :=
  try_except
    (response ← await_response get;
     _ ← raise_for_status response;
     parsed_response ← response_json response;
     if truthy parsed_response then
       data ← get_method parsed_response "data";
       rs ← parse_obj data;
       last_page ← match dict_get (paging rs) "last_page" with
                   | Some v => Return v
                   | None => Raise (KeyError "last_page")
                   end;
       more ← gt_int last_page current_page;
       Return (if more : bool then NextPage (dict_values (readings rs))
               else LastPage (dict_values (readings rs)))
     else
       Return (ReturnText (text response)))
    readings_except.

(** The grouping that ends [get_sensor_readings]. *)
Definition group_by_timestamp (total_readings : list (list ChannelReading))
    : list (Datetime.instant * list ChannelReading) :=
  fold_left
    (fun grouped channel_readings =>
       fold_left
         (fun grouped reading =>
            defaultdict_append grouped (ChannelReading_timestamp reading) reading)
         channel_readings grouped)
    total_readings [].

(** What [get_sensor_readings] returns: the body text of a page whose
    JSON was falsy, or the readings grouped by timestamp. *)
Inductive ReadingsReturn :=
| BodyText (body : string)
| Grouped (grouped_readings : list (Datetime.instant * list ChannelReading)).

(** The [while has_data] loop, run for at most [fuel] turns.  [get page]
    is what the request for [page] comes to.  The first component lists
    the pages requested, in order; the second is [None] when the loop is
    still running after [fuel] turns. *)
Fixpoint paginate (parse_obj : json -> result ChannelReadingsResponse)
    (fuel : nat) (get : Z -> Outcome) (current_page : Z)
    (total_readings : list (list ChannelReading))
    : list Z * option (result ReadingsReturn) :=
  match fuel with
  | O => ([], None)
  | S fuel' =>
      match page_step parse_obj (get current_page) current_page with
      | Raise e => ([current_page], Some (Raise e))
      | Return (ReturnText body) =>
          ([current_page], Some (Return (BodyText body)))
      | Return (LastPage rs) =>
          ([current_page],
           Some (Return (Grouped (group_by_timestamp (total_readings ++ rs)))))
      | Return (NextPage rs) =>
          let '(pages, r) :=
            paginate parse_obj fuel' get (current_page + 1) (total_readings ++ rs) in
          (current_page :: pages, r)
      end
  end.

(** One call of the undecorated [get_sensor_readings]: [token] is what
    awaiting [get_token] comes to (outside the [try], so its exception
    propagates unchanged). *)
Definition get_sensor_readings_call
    (parse_obj : json -> result ChannelReadingsResponse)
    (fuel : nat) (token : result json) (get : Z -> Outcome)
    : list Z * option (result ReadingsReturn) :=
  match token with
  | Raise e => ([], Some (Raise e))
  | Return _ => paginate parse_obj fuel get 1 []
  end.

(** [get_sensor_readings] as decorated with
    [@stamina.retry(on=StevensConnectUnauthorizedException, ...)], in a
    run whose stop condition allows [attempts] calls:
    [token i] and [get i] are what the [i]-th call meets. *)
Definition get_sensor_readings
    (parse_obj : json -> result ChannelReadingsResponse)
    (attempts fuel : nat) (token : nat -> result json)
    (get : nat -> Z -> Outcome) : option (result ReadingsReturn) * nat :=
  stamina_retry is_Unauthorized attempts
    (fun i => (get_sensor_readings_call parse_obj fuel (token i) (get i)).2).

(** The pages requested by the first [calls] calls, in order. *)
Definition pages_requested
    (parse_obj : json -> result ChannelReadingsResponse)
    (fuel : nat) (token : nat -> result json)
    (get : nat -> Z -> Outcome) (calls : nat) : list Z :=
  concat ((fun i => (get_sensor_readings_call parse_obj fuel (token i) (get i)).1)
            <$> seq 0 calls).

(** The number of readings held by a grouped result. *)
Definition total_count {K} (grouped : list (K * list ChannelReading)) : nat :=
  sum_list (length <$> dict_values grouped).

(** The number of readings a page holds, over all its channels. *)
Definition page_count (rs : ChannelReadingsResponse) : nat :=
  sum_list (length <$> dict_values (readings rs)).

(** The per-channel reading lists of a sequence of pages, in the order
    the loop accumulates them. *)
Definition page_values (pages : list ChannelReadingsResponse)
    : list (list ChannelReading) :=
  concat ((fun rs => dict_values (readings rs)) <$> pages).

(** The request came to an HTTP success whose body is truthy JSON and
    whose ["data"] member parses to [rs]. *)
Definition page_parses (parse_obj : json -> result ChannelReadingsResponse)
    (o : Outcome) (rs : ChannelReadingsResponse) : Prop :=
  exists r parsed_response,
    o = Responded r /\ is_success r = true
    /\ json_body r = Some parsed_response /\ truthy parsed_response = true
    /\ (get_method parsed_response "data" ≫= parse_obj) = Return rs.

(** The request came to an HTTP success whose body is truthy JSON. *)
Definition truthy_page (o : Outcome) : Prop :=
  exists r parsed_response,
    o = Responded r /\ json_body r = Some parsed_response
    /\ truthy parsed_response = true.

(** The integer under ["last_page"] in the paging metadata. *)
Definition last_page_is (rs : ChannelReadingsResponse) (n : Z) : Prop :=
  dict_get (paging rs) "last_page" = Some (JInt n).

(** [pages] are the answers to the requests for pages [first],
    [first + 1], ... and every one of them but the last announces a
    [last_page] beyond its own number, the last one announcing exactly
    its own. *)
Definition paged_upstream (parse_obj : json -> result ChannelReadingsResponse)
    (get : Z -> Outcome) (first : nat) (pages : list ChannelReadingsResponse)
    : Prop :=
  forall i rs, pages !! i = Some rs ->
    page_parses parse_obj (get (Z.of_nat (first + i))) rs
    /\ exists last_page, last_page_is rs last_page
       /\ ((S i < length pages)%nat -> last_page > Z.of_nat (first + i))
       /\ ((S i = length pages)%nat -> last_page = Z.of_nat (first + i)).

(** As [paged_upstream], for pages that all announce more to come. *)
Definition more_pages_upstream (parse_obj : json -> result ChannelReadingsResponse)
    (get : Z -> Outcome) (first : nat) (pages : list ChannelReadingsResponse)
    : Prop :=
  forall i rs, pages !! i = Some rs ->
    page_parses parse_obj (get (Z.of_nat (first + i))) rs
    /\ exists last_page, last_page_is rs last_page
       /\ last_page > Z.of_nat (first + i).

(** The HTTP error status a request came to, if any. *)
Definition error_status (o : Outcome) : option Z :=
  match o with
  | Responded r => if is_success r then None else Some (status_code r)
  | Failed (HTTPStatusError code) => Some code
  | Failed _ => None
  end.

End Client.

(* ===================================================================== *)
(** * configurations.py                                                  *)
(* ===================================================================== *)

Module Configurations.
Import Py Client.

Record AuthenticateConfig := {
  email : string;
  password : string;
}.

Record PullObservationsConfig := {
  default_lookback_days : Z;
  PullObservationsConfig_sensor_featured_properties : option (list string);
}.

(** [PullObservationsConfig(...)]: [default_lookback_days] defaults to 7
    and is validated against [ge=1, le=15]; the optional field defaults
    to [None]. *)
Definition PullObservationsConfig_init
    (default_lookback_days : option Z)
    (sensor_featured_properties : option (list string))
    : result PullObservationsConfig :=
  match default_lookback_days with
  | None =>
      Return {| default_lookback_days := 7;
                PullObservationsConfig_sensor_featured_properties :=
                  sensor_featured_properties |}
  | Some days =>
      if (1 <=? days) && (days <=? 15)
      then Return {| default_lookback_days := days;
                     PullObservationsConfig_sensor_featured_properties :=
                       sensor_featured_properties |}
      else Raise ValidationError
  end.

(** The [station] dictionary the handler builds. *)
Record StationInfo := {
  station_name : string;
  station_longitude : spec_float;
  station_latitude : spec_float;
}.

(** <<
    class PullSensorObservationsPerStationConfig(InternalActionConfiguration):
        start: datetime
        stop: datetime
        project_id: int
        station: dict
        sensor_featured_properties: list
        sensor: Any
        units: Any
    >> *)
Record PullSensorObservationsPerStationConfig := {
  start : Datetime.datetime;
  stop : Datetime.datetime;
  project_id : Z;
  station : StationInfo;
  sensor_featured_properties : list string;
  sensor : option Sensor;
  units : option (list Unit);
}.

(** The validator of [start]:
    <<
    if not v.tzinfo:
        return v.replace(tzinfo=timezone.utc)
    return v
    >> *)
Definition parse_time_string (v : Datetime.datetime) : Datetime.datetime :=
  match Datetime.tzinfo v with
  | None => Datetime.replace_tzinfo_utc v
  | Some _ => v
  end.

(** The keyword arguments of a constructor call; [None] for a keyword
    that the call does not pass. *)
Record PerStationKeywords := {
  kw_start : option Datetime.datetime;
  kw_stop : option Datetime.datetime;
  kw_project_id : option string;
  kw_station : option StationInfo;
  kw_sensor_featured_properties : option (list string);
  kw_sensor : option Sensor;
  kw_units : option (list Unit);
}.

(** [PullSensorObservationsPerStationConfig(...)] on keyword arguments.  A pydantic
    field declared with neither a default nor [Optional] is required,
    and the constructor raises [ValidationError] when its keyword is
    missing; a field annotated [Any] is [None] when missing.  The [str]
    given for [project_id] is coerced with [int]. *)
Definition PullSensorObservationsPerStationConfig_init `{RT : Runtime}
    (kw : PerStationKeywords) : result PullSensorObservationsPerStationConfig :=
  match kw_start kw, kw_stop kw, kw_project_id kw, kw_station kw,
        kw_sensor_featured_properties kw with
  | Some start, Some stop, Some project_id, Some station, Some featured =>
      match int_of_str project_id with
      | Some n =>
          Return {| start := parse_time_string start;
                    stop := stop;
                    project_id := n;
                    station := station;
                    sensor_featured_properties := featured;
                    sensor := kw_sensor kw;
                    units := kw_units kw |}
      | None => Raise ValidationError
      end
  | _, _, _, _, _ => Raise ValidationError
  end.

End Configurations.

(* ===================================================================== *)
(** * handlers.py                                                        *)
(* ===================================================================== *)

Module Handlers.
Import Py Client Configurations.
Export Windows.

Definition STEVENS_CONNECT_BASE_URL : string := "https://api.stevens-connect.com".

(** ** [transform] *)

(** The observation dictionary [transform] returns; its [type] and
    [subtype] entries are the two constants. *)
Record Observation := {
  source_name : string;
  source : string;
  type_ : string;
  subtype : string;
  recorded_at : Datetime.instant;
  location_lat : spec_float;
  location_lon : spec_float;
  additional : list (string * string);
}.

(** [next((channel for channel in channels if channel['id'] == channel_id), None)] *)
Definition find_channel (channels : list Channel) (channel_id : string)
    : option Channel :=
  List.find (fun channel => bool_decide (Channel_id channel = channel_id)) channels.

(** [next((unit['unit'] for unit in units if str(unit['id']) == unit_id), '')] *)
Definition unit_symbol (units : list Unit) (unit_id : string) : string :=
  default ""
    (Unit_unit <$>
       List.find (fun unit => bool_decide (pretty (Unit_id unit) = unit_id)) units).

(** The dictionary built for one reading.  [None] for [channel_info]
    makes the first subscript raise [TypeError], and so does iterating
    over [units] when it is [None]. *)
Definition reading_additional `{RT : Runtime} (station_sensor_sensor : Sensor)
    (station_sensor_units : option (list Unit)) (reading : ChannelReading)
    : result (list (string * string)) :=
  match find_channel (Sensor_channels station_sensor_sensor)
          (ChannelReading_channel_id reading) with
  | None => Raise TypeError
  | Some channel_info =>
      match station_sensor_units with
      | None => Raise TypeError
      | Some units =>
          Return
            (dict_set
               (dict_set []
                  (Channel_name channel_info)
                  (float_str (ChannelReading_reading reading) +:+ " "
                     +:+ unit_symbol units (Channel_unit_id channel_info)))
               (Channel_name channel_info +:+ " Health")
               (py_str (default JNull
                          (dict_get (Channel_channel_health channel_info) "health"))
                  +:+ "%"))
      end
  end.

(** The [for reading in readings] loop. *)
Fixpoint readings_loop `{RT : Runtime} (station_sensor_sensor : Sensor)
    (station_sensor_units : option (list Unit))
    (readings : list ChannelReading) (readings_additional : list (string * string))
    : result (list (string * string)) :=
  match readings with
  | [] => Return readings_additional
  | reading :: readings' =>
      one ← reading_additional station_sensor_sensor station_sensor_units reading;
      readings_loop station_sensor_sensor station_sensor_units readings'
        (dict_update readings_additional one)
  end.

Definition transform `{RT : Runtime}
    (station_sensor : PullSensorObservationsPerStationConfig)
    (timestamp : Datetime.instant) (readings : list ChannelReading)
    : result Observation :=
  match sensor station_sensor with
  | None => Raise TypeError
  | Some the_sensor =>
      let source_name :=
        station_name (station station_sensor) +:+ " - Sensor '"
          +:+ Sensor_name the_sensor +:+ "'" in
      readings_additional ←
        readings_loop the_sensor (units station_sensor) readings [];
      Return {| source_name := source_name;
                source := Sensor_id the_sensor;
                type_ := "stationary-object";
                subtype := "weather_station";
                recorded_at := timestamp;
                location_lat := station_latitude (station station_sensor);
                location_lon := station_longitude (station station_sensor);
                additional := readings_additional |}
  end.

(** The identifiers of the channels of a sensor snapshot. *)
Definition channel_ids (the_sensor : Sensor) : list string :=
  Channel_id <$> Sensor_channels the_sensor.

(** The display names of the channels that the readings resolve to, one
    per reading whose [channel_id] is known. *)
Definition channel_names (the_sensor : Sensor) (readings : list ChannelReading)
    : list string :=
  omap (fun reading =>
          Channel_name <$>
            find_channel (Sensor_channels the_sensor)
              (ChannelReading_channel_id reading))
       readings.

(** No channel name is another channel name followed by [" Health"]. *)
Definition health_keys_apart (names : list string) : Prop :=
  forall n1 n2, n1 ∈ names -> n2 ∈ names -> n1 <> n2 +:+ " Health".

(** ** [action_pull_observations] *)

Record Integration := {
  Integration_id : string;
  Integration_base_url : option string;
}.

(** The calls the action makes on its collaborators. *)
Inductive Call :=
| get_state (integration_id action_id source_id : string)
| set_state (integration_id action_id source_id : string)
            (state : list (string * json))
| trigger_action (integration_id action_id : string)
                 (config : PullSensorObservationsPerStationConfig).

(** A call together with the sensor whose loop iteration makes it. *)
Record Event := { Event_sensor : Sensor; Event_call : Call }.

(** What the action reads and changes: the number of readings of the
    clock so far, the state store, and the calls made so far. *)
Record World := {
  ticks : nat;
  store : gmap (string * string * string) (list (string * json));
  trace : list Event;
}.

(** The action's computations: state passing, with exceptions. *)
Definition M (A : Type) : Type := World -> result A * World.

Definition M_ret {A} (a : A) : M A := fun w => (Return a, w).
Definition M_bind {A B} (f : A -> M B) (m : M A) : M B :=
  fun w =>
    match m w with
    | (Return a, w') => f a w'
    | (Raise e, w') => (Raise e, w')
    end.
#[global] Instance M_mret : MRet M := @M_ret.
#[global] Instance M_mbind : MBind M := @M_bind.

Definition lift {A} (r : result A) : M A := fun w => (r, w).

Definition record (sensor : Sensor) (call : Call) (w : World) : World :=
  {| ticks := ticks w; store := store w;
     trace := trace w ++ [ {| Event_sensor := sensor; Event_call := call |} ] |}.

(** The loop [for x in xs: acc = body(acc, x)]. *)
Fixpoint for_each {A S} (body : S -> A -> M S) (xs : list A) (acc : S) : M S :=
  match xs with
  | [] => mret acc
  | x :: xs' => acc' ← body acc x; for_each body xs' acc'
  end.

(** [not device_state] *)
Definition state_falsy (device_state : option (list (string * json))) : bool :=
  match device_state with
  | None | Some [] => true
  | Some (_ :: _) => false
  end.

(** [sensor.name not in ["Statistics", "Diagnostic Parameters"]] *)
Definition not_excluded (sensor : Sensor) : bool :=
  bool_decide (Sensor_name sensor ∉ ["Statistics"; "Diagnostic Parameters"]).

(** What [get_projects] returns: the body text or the parsed catalog. *)
Inductive ProjectsReturn :=
| ProjectsText (body : string)
| ProjectsParsed (response : ProjectResponse).

Section Action.
Context `{RT : Runtime}.

(** [clock i] is the value of the [i]-th [datetime.now(timezone.utc)]. *)
Variable clock : nat -> Datetime.instant.

Definition datetime_now : M Datetime.instant :=
  fun w =>
    (Return (clock (ticks w)),
     {| ticks := S (ticks w); store := store w; trace := trace w |}).

Definition state_manager_get_state (sensor : Sensor)
    (integration_id action_id source_id : string)
    : M (option (list (string * json))) :=
  fun w =>
    (Return (store w !! (integration_id, action_id, source_id)),
     record sensor (get_state integration_id action_id source_id) w).

Definition state_manager_set_state (sensor : Sensor)
    (integration_id action_id : string) (state : list (string * json))
    (source_id : string) : M unit :=
  fun w =>
    (Return tt,
     let w' := record sensor (set_state integration_id action_id source_id state) w in
     {| ticks := ticks w';
        store := <[(integration_id, action_id, source_id) := state]> (store w');
        trace := trace w' |}).

Definition await_trigger_action (sensor : Sensor)
    (integration_id action_id : string)
    (config : PullSensorObservationsPerStationConfig) : M unit :=
  fun w => (Return tt, record sensor (trigger_action integration_id action_id config) w).

(** The choice of [start_date] (an aware UTC datetime, kept as its
    instant):
    <<
    if not device_state:
        start_date = (now - timedelta(days=action_config.default_lookback_days))
    else:
        start_date = dp(device_state.get("updated_at")).replace(tzinfo=timezone.utc)
    >>
    [dateparser.parse] raises [TypeError] on a value that is not a
    [str], and [None] has no [replace]. *)
Definition start_date_of (action_config : PullObservationsConfig)
    (now : Datetime.instant) (device_state : option (list (string * json)))
    : result Datetime.instant :=
  if state_falsy device_state then
    Return (now - Datetime.timedelta_days (default_lookback_days action_config))
  else
    match dict_get (default [] device_state) "updated_at" with
    | Some (JStr updated_at) =>
        match dateparser_parse updated_at with
        | Some parsed => Return (Datetime.wall (Datetime.replace_tzinfo_utc parsed))
        | None => Raise AttributeError
        end
    | _ => Raise TypeError
    end.

(** [sensor.channels[0].channel_health["last_reading"].replace(" (UTC)", "")] *)
Definition latest_time_of (sensor : Sensor) : result string :=
  match Sensor_channels sensor with
  | [] => Raise IndexError
  | channel :: _ =>
      match dict_get (Channel_channel_health channel) "last_reading" with
      | None => Raise (KeyError "last_reading")
      | Some (JStr last_reading) => Return (str_replace last_reading " (UTC)" "")
      | Some _ => Raise AttributeError
      end
  end.

Definition aware_utc (t : Datetime.instant) : Datetime.datetime :=
  {| Datetime.wall := t; Datetime.tzinfo := Some 0 |}.

(** The body of [for lower, upper in generate_date_pairs(...)]. *)
Definition dispatch_window (integration : Integration) (project : Project)
    (station_info : StationInfo) (projects_units : list Unit) (sensor : Sensor)
    (sensors_triggered : Z) (window : Datetime.instant * Datetime.instant) : M Z :=
  parsed_config ← lift (PullSensorObservationsPerStationConfig_init
    {| kw_start := Some (aware_utc window.1);
       kw_stop := Some (aware_utc window.2);
       kw_project_id := Some (Project_id project);
       kw_station := Some station_info;
       kw_sensor_featured_properties := None;
       kw_sensor := Some sensor;
       kw_units := Some projects_units |});
  _ ← await_trigger_action sensor (Integration_id integration)
        "pull_sensor_observations_per_station" parsed_config;
  mret (sensors_triggered + 1).

(** The part of the sensor loop's body that follows the choice of
    [start_date]: the clock is read for [stop_date], one sub-task is
    dispatched per window, and the watermark is saved. *)
Definition dispatch_and_save (integration : Integration)
    (project : Project) (station_info : StationInfo)
    (projects_units : list Unit)
    (sensors_triggered : Z) (sensor : Sensor)
    (start_date : Datetime.instant) : M Z :=
  stop_date ← datetime_now;
  sensors_triggered ←
    for_each (dispatch_window integration project station_info projects_units sensor)
      (generate_date_pairs start_date stop_date) sensors_triggered;
  latest_time ← lift (latest_time_of sensor);
  _ ← state_manager_set_state sensor (Integration_id integration)
        "pull_observations" [("updated_at", JStr latest_time)] (Sensor_id sensor);
  mret sensors_triggered.

(** The body of [for sensor in sensors]. *)
Definition process_sensor (integration : Integration)
    (action_config : PullObservationsConfig) (now : Datetime.instant)
    (project : Project) (station_info : StationInfo)
    (projects_units : list Unit)
    (sensors_triggered : Z) (sensor : Sensor) : M Z :=
  device_state ← state_manager_get_state sensor
    (Integration_id integration) "pull_observations" (Sensor_id sensor);
  start_date ← lift (start_date_of action_config now device_state);
  dispatch_and_save integration project station_info projects_units
    sensors_triggered sensor start_date.

(** The body of [for station in stations]. *)
Definition process_station (integration : Integration)
    (action_config : PullObservationsConfig) (now : Datetime.instant)
    (project : Project) (projects_units : list Unit)
    (sensors_triggered : Z) (station : Station) : M Z :=
  let station_info :=
    {| station_name := Station_name station;
       station_longitude := Station_longitude station;
       station_latitude := Station_latitude station |} in
  let sensors := List.filter not_excluded (Station_sensors station) in
  for_each
    (process_sensor integration action_config now project station_info projects_units)
    sensors sensors_triggered.

(** [action_pull_observations]: [projects] is what awaiting
    [client.get_projects] comes to; the authentication settings are taken
    to be present, so that [get_auth_config] returns.  The value returned is the count
    under ["sensors_triggered"].  The two [except] clauses re-raise the
    exception they catch. *)
Definition action_pull_observations (integration : Integration)
    (action_config : PullObservationsConfig)
    (projects : result ProjectsReturn) : M Z :=
  projects ← lift projects;
  match projects with
  | ProjectsText "" => mret 0
  | ProjectsText _ => lift (Raise AttributeError)
  | ProjectsParsed projects =>
      now ← datetime_now;
      for_each
        (fun sensors_triggered project =>
           for_each
             (process_station integration action_config now project
                (ProjectResponse_units projects))
             (Project_stations project) sensors_triggered)
        (ProjectResponse_projects projects) 0
  end.

End Action.

(** The world an invocation starts from. *)
Definition initial_world
    (store : gmap (string * string * string) (list (string * json))) : World :=
  {| ticks := O; store := store; trace := [] |}.

(** The call names the sensor of the iteration that makes it. *)
Definition call_made_for (e : Event) : Prop :=
  match Event_call e with
  | get_state _ _ source_id | set_state _ _ source_id _ =>
      source_id = Sensor_id (Event_sensor e)
  | trigger_action _ _ config => sensor config = Some (Event_sensor e)
  end.

(** The call is made in the iteration of a sensor that the filter kept. *)
Definition made_for_kept_sensor (e : Event) : Prop :=
  not_excluded (Event_sensor e) = true /\ call_made_for e.

(** The key under which the watermark of a sensor is stored. *)
Definition watermark_key (integration : Integration) (sensor : Sensor)
    : string * string * string :=
  (Integration_id integration, "pull_observations", Sensor_id sensor).

Definition is_trigger (e : Event) : bool :=
  match Event_call e with trigger_action _ _ _ => true | _ => false end.
Definition is_set_state (e : Event) : bool :=
  match Event_call e with set_state _ _ _ _ => true | _ => false end.
Definition is_get_state (e : Event) : bool :=
  match Event_call e with get_state _ _ _ => true | _ => false end.

End Handlers.

(* ===================================================================== *)
(** * Concrete inputs                                                    *)
(* ===================================================================== *)

Module Examples.
Import Datetime Py Client Configurations Handlers.

(** The float 21.5. *)
Definition f21_5 : spec_float := S754_finite false 43 (-1).

(** [dateparser.parse] on the two texts the examples use: a wall-clock
    reading without zone, and the same reading two hours east of UTC. *)
Definition example_dateparser (s : string) : option datetime :=
  if String.eqb s "2024-01-01 00:00:00" then
    Some {| wall := utc 2024 1 1 0 0 0; tzinfo := None |}
  else if String.eqb s "2024-01-01 00:00:00+02:00" then
    Some {| wall := utc 2024 1 1 0 0 0; tzinfo := Some (timedelta_hours 2) |}
  else None.

(** The runtime functions on the values the examples use. *)
Definition example_runtime : Runtime :=
  {| float_str := fun f => match f with
                          | S754_finite false 43 (-1) => "21.5"
                          | _ => "0.0"
                          end;
     container_str := fun _ => "[]";
     int_of_str := fun s => if String.eqb s "12" then Some 12 else None;
     dateparser_parse := example_dateparser |}.

Definition temperature : Channel :=
  {| Channel_id := "c1"; Channel_name := "Temp"; Channel_unit_id := "3";
     Channel_channel_health :=
       [ ("health", JInt 98);
         ("last_reading", JStr "2024-06-01 11:45:00 (UTC)") ] |}.

Definition air (name : string) : Sensor :=
  {| Sensor_id := "s-" +:+ name; Sensor_name := name;
     Sensor_channels := [temperature] |}.

Definition station_of (sensors : list Sensor) : Station :=
  {| Station_name := "Ridge"; Station_latitude := f21_5;
     Station_longitude := f21_5; Station_sensors := sensors |}.

Definition project_of (sensors : list Sensor) : Project :=
  {| Project_id := "12"; Project_name := "Reserve";
     Project_stations := [station_of sensors] |}.

Definition celsius : Unit :=
  {| Unit_id := 3; Unit_name := "Celsius"; Unit_unit := "degC" |}.

Definition catalog_of (sensors : list Sensor) : ProjectResponse :=
  {| ProjectResponse_projects := [project_of sensors];
     ProjectResponse_units := [celsius] |}.

Definition integration : Integration :=
  {| Integration_id := "int1"; Integration_base_url := None |}.

(** A clock that starts at 2024-06-01T12:00:00Z and advances by one
    second between two readings. *)
Definition example_clock (i : nat) : instant :=
  utc 2024 6 1 12 0 0 + Z.of_nat i * 1000000.

Definition default_config : PullObservationsConfig :=
  {| default_lookback_days := 7;
     PullObservationsConfig_sensor_featured_properties := None |}.

(** A channel whose name is another channel's name followed by
    [" Health"]. *)
Definition temperature_health : Channel :=
  {| Channel_id := "c2"; Channel_name := "Temp Health"; Channel_unit_id := "9";
     Channel_channel_health := [("health", JInt 75)] |}.

Definition two_channel_sensor : Sensor :=
  {| Sensor_id := "s2"; Sensor_name := "Air";
     Sensor_channels := [temperature; temperature_health] |}.

Definition task_for (the_sensor : Sensor) : PullSensorObservationsPerStationConfig :=
  {| start := {| wall := utc 2024 6 1 0 0 0; tzinfo := Some 0 |};
     stop := {| wall := utc 2024 6 2 0 0 0; tzinfo := Some 0 |};
     project_id := 12;
     station := {| station_name := "Ridge"; station_longitude := f21_5;
                   station_latitude := f21_5 |};
     sensor_featured_properties := [];
     sensor := Some the_sensor;
     units := Some [celsius] |}.

Definition reading_of (channel_id : string) : ChannelReading :=
  {| ChannelReading_channel_id := channel_id;
     ChannelReading_reading := f21_5;
     ChannelReading_timestamp := utc 2024 6 1 11 45 0 |}.

(** [ChannelReadingsResponse.parse_obj] on the shape the examples use:
    [{"readings": {channel: [{"channel_id", "reading", "timestamp"}]},
    "paging": {...}}], every timestamp being a number of seconds. *)
Definition parse_reading (j : json) : option ChannelReading :=
  match j with
  | JObj members =>
      match dict_get members "channel_id", dict_get members "reading",
            dict_get members "timestamp" with
      | Some (JStr channel_id), Some (JFloat reading), Some (JInt seconds) =>
          Some {| ChannelReading_channel_id := channel_id;
                  ChannelReading_reading := reading;
                  ChannelReading_timestamp := seconds * 1000000 |}
      | _, _, _ => None
      end
  | _ => None
  end.

Definition parse_channel (entry : string * json)
    : option (string * list ChannelReading) :=
  match entry.2 with
  | JArr items => pair entry.1 <$> mapM parse_reading items
  | _ => None
  end.

Definition example_parse_obj (data : json) : result ChannelReadingsResponse :=
  match data with
  | JObj members =>
      match dict_get members "readings", dict_get members "paging" with
      | Some (JObj channels), Some (JObj paging) =>
          match mapM parse_channel channels with
          | Some readings => Return {| readings := readings; paging := paging |}
          | None => Raise ValidationError
          end
      | _, _ => Raise ValidationError
      end
  | _ => Raise ValidationError
  end.

Definition reading_json (channel_id : string) (seconds : Z) : json :=
  JObj [ ("channel_id", JStr channel_id); ("reading", JFloat f21_5);
         ("timestamp", JInt seconds) ].

(** The body of a page of readings. *)
Definition page_json (channels : list (string * json)) (last_page : Z) : json :=
  JObj [ ("data", JObj [ ("readings", JObj channels);
                         ("paging", JObj [("last_page", JInt last_page)]) ]) ].

Definition ok_response (body : json) : Response :=
  {| status_code := 200; text := "..."; json_body := Some body |}.

Definition first_page : json :=
  page_json [ ("c1", JArr [reading_json "c1" 1717242300; reading_json "c1" 1717243200]);
              ("c2", JArr [reading_json "c2" 1717242300]) ] 2.

Definition second_page : json :=
  page_json [ ("c1", JArr [reading_json "c1" 1717244100]) ] 2.

(** An upstream with two pages of readings. *)
Definition two_pages (page : Z) : Outcome :=
  if page =? 1 then Responded (ok_response first_page)
  else if page =? 2 then Responded (ok_response second_page)
  else Failed TransportError.

(** An upstream whose second page has an empty JSON object as body. *)
Definition empty_second_page (page : Z) : Outcome :=
  if page =? 1 then Responded (ok_response first_page)
  else Responded {| status_code := 200; text := "{}"; json_body := Some (JObj []) |}.

Definition first_page_parsed : ChannelReadingsResponse :=
  {| readings :=
       [ ("c1", [ {| ChannelReading_channel_id := "c1";
                     ChannelReading_reading := f21_5;
                     ChannelReading_timestamp := 1717242300000000 |};
                  {| ChannelReading_channel_id := "c1";
                     ChannelReading_reading := f21_5;
                     ChannelReading_timestamp := 1717243200000000 |} ]);
         ("c2", [ {| ChannelReading_channel_id := "c2";
                     ChannelReading_reading := f21_5;
                     ChannelReading_timestamp := 1717242300000000 |} ]) ];
     paging := [("last_page", JInt 2)] |}.

Definition second_page_parsed : ChannelReadingsResponse :=
  {| readings :=
       [ ("c1", [ {| ChannelReading_channel_id := "c1";
                     ChannelReading_reading := f21_5;
                     ChannelReading_timestamp := 1717244100000000 |} ]) ];
     paging := [("last_page", JInt 2)] |}.

(** Responses of the [/authenticate] endpoint. *)
Definition token_response : Response :=
  ok_response (JObj [("data", JObj [("token", JStr "abc123")])]).

Definition status_response (code : Z) : Response :=
  {| status_code := code; text := "error"; json_body := None |}.

(** A world in which the clock has been read once and nothing is stored. *)
Definition fresh_world : World :=
  {| ticks := 1; store := ∅; trace := [] |}.

End Examples.

From Stdlib Require Import Ascii.

(* ===================================================================== *)
(** * client.py: [get_projects]                                          *)
(* ===================================================================== *)

Module Catalog.
Import Py Client Handlers.

(** One call of the undecorated [get_projects]: [token] is what awaiting
    [get_token] comes to (outside the [try]), [get] what the request for
    [/config-packet] comes to, and [parse_obj] is
    [ProjectResponse.parse_obj].

    <<
    token = await get_token(integration, base_url, auth)
    try:
        response = await session.get(url, headers=...)
        response.raise_for_status()
        parsed_response = response.json()
        if parsed_response:
            projects = ProjectResponse.parse_obj(parsed_response["data"].get("config_packet"))
            return projects
        else:
            return response.text
    except httpx.HTTPStatusError as e:
        ...
    >> *)
Definition get_projects_call
    (parse_obj : json -> result ProjectResponse)
    (token : result json) (get : Outcome) : result ProjectsReturn :=
  _ ← token;
  try_except
    (response ← await_response get;
     _ ← raise_for_status response;
     parsed_response ← response_json response;
     if truthy parsed_response then
       data ← subscript parsed_response "data";
       config_packet ← get_method data "config_packet";
       projects ← parse_obj config_packet;
       Return (ProjectsParsed projects)
     else
       Return (ProjectsText (text response)))
    readings_except.

(** [get_projects] as decorated with
    [@stamina.retry(on=StevensConnectUnauthorizedException, ...)], in a
    run whose stop condition allows [attempts] calls:
    [token i] and [get i] are what the [i]-th call meets. *)
Definition get_projects
    (parse_obj : json -> result ProjectResponse)
    (attempts : nat) (token : nat -> result json) (get : nat -> Outcome)
    : option (result ProjectsReturn) * nat :=
  stamina_retry is_Unauthorized attempts
    (fun i => Some (get_projects_call parse_obj (token i) (get i))).

End Catalog.

(* ===================================================================== *)
(** * handlers.py: [action_auth]                                         *)
(* ===================================================================== *)

Module Auth.
Import Py Client Handlers.

(** [integration.base_url or STEVENS_CONNECT_BASE_URL] *)
Definition base_url_of (integration : Integration) : string :=
  match Integration_base_url integration with
  | None | Some EmptyString => STEVENS_CONNECT_BASE_URL
  | Some url => url
  end.

(** [action_auth]: [token] is what awaiting [client.get_token] comes to;
    the value returned is the dictionary of the action's result.

    <<
    try:
        response = await client.get_token(integration, base_url, action_config)
        if not response:
            return {"valid_credentials": False, "message": "Bad credentials"}
        return {"valid_credentials": True}
    except client.StevensConnectBadRequestException as e:
        return {"valid_credentials": False, "status_code": e.status_code, "message": "Bad credentials"}
    except httpx.HTTPStatusError as e:
        return {"error": True, "status_code": e.response.status_code}
    >> *)
Definition action_auth (token : result json) : result (list (string * json)) :=
  match token with
  | Return response =>
      if truthy response
      then Return [("valid_credentials", JBool true)]
      else Return [("valid_credentials", JBool false);
                   ("message", JStr "Bad credentials")]
  | Raise (StevensConnectBadRequestException status_code) =>
      Return [("valid_credentials", JBool false);
              ("status_code", JInt status_code);
              ("message", JStr "Bad credentials")]
  | Raise (HTTPStatusError status_code) =>
      Return [("error", JBool true); ("status_code", JInt status_code)]
  | Raise e => Raise e
  end.

(** [action_auth] on top of the decorated [get_token]; [None] when
    [get_token] does not come back. *)
Definition authenticate (attempts : nat) (post : nat -> Outcome)
    : option (result (list (string * json))) :=
  action_auth <$> (get_token attempts post).1.

End Auth.

(* ===================================================================== *)
(** * handlers.py: [action_pull_sensor_observations_per_station]         *)
(* ===================================================================== *)

Module PerStation.
Import Py Client Configurations Handlers.

(** [action_config.sensor['name']], which the log messages evaluate. *)
Definition sensor_name_of (action_config : PullSensorObservationsPerStationConfig)
    : result string :=
  match sensor action_config with
  | Some the_sensor => Return (Sensor_name the_sensor)
  | None => Raise TypeError
  end.

(** The loop [for timestamp, readings in sensor_observations.items()]. *)
Fixpoint transform_all `{RT : Runtime}
    (action_config : PullSensorObservationsPerStationConfig)
    (groups : list (Datetime.instant * list ChannelReading))
    : result (list Observation) :=
  match groups with
  | [] => Return []
  | (timestamp, readings) :: groups' =>
      _ ← sensor_name_of action_config;
      observation ← transform action_config timestamp readings;
      transformed_data ← transform_all action_config groups';
      Return (observation :: transformed_data)
  end.

(** The loop over the batches.  [send i batch] is what the [i]-th call of
    [send_observations_to_gundi] comes to, the list it returns being the
    sink's response; the second component lists the batches handed to the
    sink, in order.  The log message of the loop reads the sensor's name,
    which the loop over the groups has read before. *)
Fixpoint send_batches (send : nat -> list Observation -> result (list json))
    (i : nat) (batches : list (list Observation)) (observations_extracted : Z)
    : result Z * list (list Observation) :=
  match batches with
  | [] => (Return observations_extracted, [])
  | batch :: batches' =>
      match send i batch with
      | Raise e => (Raise e, [batch])
      | Return response =>
          let '(r, sent) :=
            send_batches send (S i) batches'
              (observations_extracted + Z.of_nat (length response)) in
          (r, batch :: sent)
      end
  end.

(** [action_pull_sensor_observations_per_station]: [sensor_observations]
    is what awaiting [client.get_sensor_readings] comes to, and
    [generate_batches] is the helper of [app.services.utils], whose text
    is not part of these sources.  The value returned is the count under
    ["observations_extracted"], together with the batches handed to the
    sink.  The two [except] clauses re-raise the exception they catch. *)
Definition action_pull_sensor_observations_per_station `{RT : Runtime}
    (generate_batches : list Observation -> Z -> list (list Observation))
    (send : nat -> list Observation -> result (list json))
    (action_config : PullSensorObservationsPerStationConfig)
    (sensor_observations : result ReadingsReturn)
    : result Z * list (list Observation) :=
  match sensor_observations with
  | Raise e => (Raise e, [])
  | Return (BodyText "") | Return (Grouped []) =>
      (_ ← sensor_name_of action_config; Return 0, [])
  | Return (BodyText _) => (Raise AttributeError, [])
  | Return (Grouped groups) =>
      match transform_all action_config groups with
      | Raise e => (Raise e, [])
      | Return transformed_data =>
          send_batches send O (generate_batches transformed_data 200) 0
      end
  end.

End PerStation.

(* ===================================================================== *)
(** * Further notions the statements use                                 *)
(* ===================================================================== *)

Module Notions.
Import Datetime Py Client Configurations Handlers.

(** [c in s] for a character [c] *)
Fixpoint string_mem (c : Ascii.ascii) (s : string) : bool :=
  match s with
  | EmptyString => false
  | String c' s' => if Ascii.eqb c c' then true else string_mem c s'
  end.

(** The readings of a sequence of per-channel lists, in the order the
    grouping visits them. *)
Definition flat_readings (total_readings : list (list ChannelReading))
    : list ChannelReading :=
  concat total_readings.

(** The readings taken at [timestamp], in their order of arrival. *)
Definition readings_at (timestamp : instant) (flat : list ChannelReading)
    : list ChannelReading :=
  filter (fun reading => ChannelReading_timestamp reading = timestamp) flat.

(** What the grouping does with one reading:
    [grouped_readings[reading.timestamp].append(reading)]. *)
Definition group_reading (grouped : list (instant * list ChannelReading))
    (reading : ChannelReading) : list (instant * list ChannelReading) :=
  defaultdict_append grouped (ChannelReading_timestamp reading) reading.

(** The value [transform] stores under a channel's name for a reading. *)
Definition value_with_unit `{RT : Runtime} (projects_units : list Unit)
    (channel_info : Channel) (reading : ChannelReading) : string :=
  float_str (ChannelReading_reading reading) +:+ " "
    +:+ unit_symbol projects_units (Channel_unit_id channel_info).

(** The value [transform] stores under a channel's health key. *)
Definition health_percentage `{RT : Runtime} (channel_info : Channel) : string :=
  py_str (default JNull (dict_get (Channel_channel_health channel_info) "health"))
    +:+ "%".

(** The sensors of a catalog that the filter keeps. *)
Definition kept_sensor (catalog : ProjectResponse) (the_sensor : Sensor) : Prop :=
  exists project station,
    project ∈ ProjectResponse_projects catalog
    /\ station ∈ Project_stations project
    /\ the_sensor ∈ Station_sensors station
    /\ not_excluded the_sensor = true.

(** Every sensor of the catalog is dropped by the filter. *)
Definition all_excluded (catalog : ProjectResponse) : Prop :=
  Forall (fun project =>
            Forall (fun station =>
                      Forall (fun the_sensor => not_excluded the_sensor = false)
                        (Station_sensors station))
              (Project_stations project))
    (ProjectResponse_projects catalog).

(** A state as the action writes it. *)
Definition watermark_state (state : list (string * json)) : Prop :=
  exists latest_time, state = [("updated_at", JStr latest_time)].

End Notions.

(* ===================================================================== *)
(** * Further concrete inputs                                            *)
(* ===================================================================== *)

Module MoreExamples.
Import Datetime Py Client Configurations Handlers PerStation.

(** A catalog without projects, and the body that carries it. *)
Definition empty_catalog : ProjectResponse :=
  {| ProjectResponse_projects := []; ProjectResponse_units := [] |}.

Definition empty_catalog_json : json :=
  JObj [ ("data", JObj [ ("config_packet",
                           JObj [("projects", JArr []); ("units", JArr [])]) ]) ].

(** A sensor without channels. *)
Definition bare_sensor : Sensor :=
  {| Sensor_id := "s-bare"; Sensor_name := "Bare"; Sensor_channels := [] |}.

(** [dateparser.parse] on one more text, a date in the future. *)
Definition future_dateparser (s : string) : option datetime :=
  if String.eqb s "2030-01-01 00:00:00"
  then Some {| wall := utc 2030 1 1 0 0 0; tzinfo := None |}
  else Examples.example_dateparser s.

Definition future_runtime : Runtime :=
  {| float_str := float_str (Runtime := Examples.example_runtime);
     container_str := container_str (Runtime := Examples.example_runtime);
     int_of_str := int_of_str (Runtime := Examples.example_runtime);
     dateparser_parse := future_dateparser |}.

(** A world in which the watermark of [bare_sensor] lies in the future. *)
Definition future_world : World :=
  {| ticks := 1;
     store := {[ ("int1", "pull_observations", "s-bare")
                 := [("updated_at", JStr "2030-01-01 00:00:00")] ]};
     trace := [] |}.

(** The keywords of a constructor call that names every field; the start
    carries no zone. *)
Definition full_keywords : PerStationKeywords :=
  {| kw_start := Some {| wall := utc 2024 6 1 0 0 0; tzinfo := None |};
     kw_stop := Some {| wall := utc 2024 6 2 0 0 0; tzinfo := None |};
     kw_project_id := Some "12";
     kw_station := Some {| station_name := "Ridge";
                           station_longitude := Examples.f21_5;
                           station_latitude := Examples.f21_5 |};
     kw_sensor_featured_properties := Some [];
     kw_sensor := Some (Examples.air "Air");
     kw_units := Some [Examples.celsius] |}.

(** A stand-in for [generate_batches] that cuts its input in pieces of
    two, whatever size it is asked for. *)
Fixpoint batches_of_two (observations : list Observation) (size : Z)
    : list (list Observation) :=
  match observations with
  | a :: b :: rest => [a; b] :: batches_of_two rest size
  | [] => []
  | rest => [rest]
  end.

(** A sink that answers every batch with one [None] per observation. *)
Definition accepting_sink (i : nat) (batch : list Observation) : result (list json) :=
  Return ((fun _ => JNull) <$> batch).

(** Three groups of readings of the channel ["c1"]. *)
Definition three_groups : list (instant * list ChannelReading) :=
  [ (utc 2024 6 1 11 45 0, [Examples.reading_of "c1"]);
    (utc 2024 6 1 12 0 0, [Examples.reading_of "c1"]);
    (utc 2024 6 1 12 15 0, [Examples.reading_of "c1"]) ].

Definition observation_at (timestamp : instant) : Observation :=
  {| source_name := "Ridge - Sensor 'Air'";
     source := "s-Air";
     type_ := "stationary-object";
     subtype := "weather_station";
     recorded_at := timestamp;
     location_lat := Examples.f21_5;
     location_lon := Examples.f21_5;
     additional := [("Temp", "21.5 degC"); ("Temp Health", "98%")] |}.

Definition three_observations : list Observation :=
  [ observation_at (utc 2024 6 1 11 45 0);
    observation_at (utc 2024 6 1 12 0 0);
    observation_at (utc 2024 6 1 12 15 0) ].

(** A run of quick calls: each lasts 0.2 s and is followed by a wait
    with a jitter of 2.5 s.  The fourth call ends 36.3 s after the first
    began, the fifth after 68.5 s. *)
Definition quick_timing : Timing :=
  {| took := fun _ => 200000; jitter := fun _ => 2500000 |}.

(** A run of slow calls: each lasts 21 s, with no jitter.  The second
    call ends 46 s after the first began. *)
Definition slow_timing : Timing :=
  {| took := fun _ => seconds 21; jitter := fun _ => 0 |}.

End MoreExamples.

(* ===================================================================== *)
(** * Properties                                                         *)
(* ===================================================================== *)

Import Datetime Py Client Configurations Handlers.

(** ** Date windows *)

Section DateWindows.

Lemma window_width_pos : 0 < window_width.
Proof. reflexivity. Qed.

(** With enough turns the loop ends, and what it has yielded cuts the
    range backwards. *)
Lemma generate_date_pairs_fuel_partition fuel lower upper :
  upper - lower <= Z.of_nat fuel * window_width ->
  exists ws,
    generate_date_pairs_fuel fuel lower upper MAX_DAYS_PER_QUERY = Some ws
    /\ backward_partition window_width lower upper ws.
Proof.
  pose proof window_width_pos as Hw.
  revert upper. induction fuel as [|fuel IH]; intros upper Hfuel.
  - exists []. simpl.
    destruct (Z.gtb_spec upper lower); [lia|]. split; [reflexivity | simpl; lia].
  - simpl. destruct (Z.gtb_spec upper lower) as [Hgt|Hle].
    + destruct (IH (upper - window_width)) as (rest & Hrest & Hpart); [lia|].
      fold window_width. rewrite Hrest. simpl.
      eexists; split; [reflexivity|].
      simpl. repeat split; try lia.
      destruct (Z.le_gt_cases lower (upper - window_width)) as [Hin|Hout].
      * rewrite Z.max_r by lia. exact Hpart.
      * rewrite Z.max_l by lia.
        destruct fuel; simpl in Hrest;
          (destruct (Z.gtb_spec (upper - window_width) lower); [lia|]);
          injection Hrest as <-; simpl; lia.
    + exists []. split; [reflexivity | simpl; lia].
Qed.

Lemma enough_fuel_enough lower upper :
  upper - lower <= Z.of_nat (enough_fuel lower upper) * window_width.
Proof.
  pose proof window_width_pos as Hw. unfold enough_fuel. fold window_width.
  destruct (Z.le_gt_cases 0 (upper - lower)) as [Hnn|Hneg].
  - rewrite Nat2Z.inj_succ, Z2Nat.id by (apply Z.div_pos; lia).
    pose proof (Z.mul_succ_div_gt (upper - lower) window_width Hw). lia.
  - rewrite Nat2Z.inj_succ. lia.
Qed.

Lemma generate_date_pairs_partition lower upper :
  backward_partition window_width lower upper (generate_date_pairs lower upper).
Proof.
  destruct (generate_date_pairs_fuel_partition _ lower upper
              (enough_fuel_enough lower upper)) as (ws & Hws & Hpart).
  unfold generate_date_pairs. rewrite Hws. exact Hpart.
Qed.

Lemma generate_date_pairs_fuel_mono fuel fuel' lower upper interval ws :
  generate_date_pairs_fuel fuel lower upper interval = Some ws ->
  (fuel <= fuel')%nat ->
  generate_date_pairs_fuel fuel' lower upper interval = Some ws.
Proof.
  revert fuel' upper ws.
  induction fuel as [|fuel IH]; intros fuel' upper ws.
  - simpl. destruct (upper >? lower) eqn:E; [discriminate|].
    intros [= <-] _. destruct fuel'; simpl; rewrite E; reflexivity.
  - simpl. destruct (upper >? lower) eqn:E.
    + destruct (generate_date_pairs_fuel fuel lower _ interval) as [r|] eqn:Hr;
        [|discriminate].
      simpl. intros [= <-] Hle.
      destruct fuel' as [|fuel']; [lia|].
      simpl. rewrite E. rewrite (IH fuel' _ r Hr); [reflexivity|lia].
    + intros [= <-] _. destruct fuel'; simpl; rewrite E; reflexivity.
Qed.

Lemma generate_date_pairs_terminates lower upper fuel :
  (enough_fuel lower upper <= fuel)%nat ->
  generate_date_pairs_fuel fuel lower upper MAX_DAYS_PER_QUERY
  = Some (generate_date_pairs lower upper).
Proof.
  intros Hfuel.
  destruct (generate_date_pairs_fuel_partition _ lower upper
              (enough_fuel_enough lower upper)) as (ws & Hws & _).
  unfold generate_date_pairs. rewrite Hws. simpl.
  eapply generate_date_pairs_fuel_mono; eassumption.
Qed.

(** The first window the generator yields, when the range is not empty. *)
Lemma generate_date_pairs_cons lower upper :
  lower < upper ->
  exists rest,
    generate_date_pairs lower upper
    = (Z.max lower (upper - window_width), upper) :: rest.
Proof.
  intros Hlt. unfold generate_date_pairs, enough_fuel. simpl.
  destruct (Z.gtb_spec upper lower); [|lia].
  fold window_width.
  destruct (generate_date_pairs_fuel_partition
              (Z.to_nat ((upper - lower) / window_width)) lower (upper - window_width))
    as (rest & Hrest & _).
  { pose proof window_width_pos as Hw.
    rewrite Z2Nat.id by (apply Z.div_pos; lia).
    pose proof (Z.mul_succ_div_gt (upper - lower) window_width Hw). lia. }
  unfold window_width, MAX_DAYS_PER_QUERY in *. rewrite Hrest. simpl. eauto.
Qed.

(** Every instant of the range lies in a window, and windows hold only
    instants of the range. *)
Lemma backward_partition_cover start ws : forall stop,
  backward_partition window_width start stop ws ->
  forall t, start <= t < stop <-> exists w, w ∈ ws /\ w.1 <= t < w.2.
Proof.
  induction ws as [|[lo hi] rest IH]; intros stop Hpart t; simpl in Hpart.
  - split; [lia|]. intros (w & Hin & _). apply elem_of_nil in Hin as [].
  - destruct Hpart as (-> & Hlo & Hlt & _ & Hrest).
    specialize (IH lo Hrest t). split.
    + intros Ht. destruct (Z.lt_ge_cases t lo) as [Hbelow|Habove].
      * destruct IH as [IH _]. destruct IH as (w & Hin & Hw); [lia|].
        exists w. split; [apply list_elem_of_further, Hin | exact Hw].
      * exists (lo, stop). split; [apply list_elem_of_here | simpl; lia].
    + intros (w & Hin & Hw). apply elem_of_cons in Hin as [->|Hin].
      * simpl in Hw. lia.
      * destruct IH as [_ IH]. specialize (IH (ex_intro _ w (conj Hin Hw))). lia.
Qed.

(** No instant lies in two windows. *)
Lemma backward_partition_apart start ws : forall stop,
  backward_partition window_width start stop ws ->
  forall t w1 w2, w1 ∈ ws -> w2 ∈ ws ->
    w1.1 <= t < w1.2 -> w2.1 <= t < w2.2 -> w1 = w2.
Proof.
  induction ws as [|[lo hi] rest IH]; intros stop Hpart t w1 w2 Hin1 Hin2 H1 H2;
    simpl in Hpart.
  - apply elem_of_nil in Hin1 as [].
  - destruct Hpart as (-> & Hlo & Hlt & _ & Hrest).
    pose proof (backward_partition_cover start rest lo Hrest t) as Hcover.
    apply elem_of_cons in Hin1 as [->|Hin1];
      apply elem_of_cons in Hin2 as [->|Hin2].
    + reflexivity.
    + destruct Hcover as [_ Hcover].
      specialize (Hcover (ex_intro _ w2 (conj Hin2 H2))). simpl in H1. lia.
    + destruct Hcover as [_ Hcover].
      specialize (Hcover (ex_intro _ w1 (conj Hin1 H1))). simpl in H2. lia.
    + eapply IH; eassumption.
Qed.

End DateWindows.

(** ** The generator within [datetime]'s range *)

Section CheckedWindows.

Lemma generate_date_pairs_fuel_step fuel lower upper interval :
  lower < upper ->
  generate_date_pairs_fuel (S fuel) lower upper interval
  = cons (Z.max lower (upper - timedelta_days interval), upper)
      <$> generate_date_pairs_fuel fuel lower
            (upper - timedelta_days interval) interval.
Proof.
  intros Hlt. cbn [generate_date_pairs_fuel].
  destruct (Z.gtb_spec upper lower); [reflexivity|lia].
Qed.

Lemma generate_date_pairs_fuel_stop fuel lower upper interval :
  upper <= lower ->
  generate_date_pairs_fuel fuel lower upper interval = Some [].
Proof.
  intros Hle. destruct fuel; cbn [generate_date_pairs_fuel];
    destruct (Z.gtb_spec upper lower); try reflexivity; lia.
Qed.

Lemma sub_days_in_range d n :
  Z.abs n <= timedelta_max_days ->
  datetime_min <= d - timedelta_days n <= datetime_max ->
  sub_days d n = Some (d - timedelta_days n).
Proof.
  intros Hn [Hlo Hhi]. unfold sub_days.
  destruct (Z.leb_spec (Z.abs n) timedelta_max_days); [|lia].
  destruct (Z.leb_spec datetime_min (d - timedelta_days n)); [|lia].
  destruct (Z.leb_spec (d - timedelta_days n) datetime_max); [|lia].
  reflexivity.
Qed.

Lemma sub_days_out_of_range d n :
  timedelta_max_days < Z.abs n
  \/ d - timedelta_days n < datetime_min
  \/ datetime_max < d - timedelta_days n ->
  sub_days d n = None.
Proof.
  intros Hout. unfold sub_days.
  destruct (Z.leb_spec (Z.abs n) timedelta_max_days); [|reflexivity].
  destruct (Z.leb_spec datetime_min (d - timedelta_days n)); [|reflexivity].
  destruct (Z.leb_spec (d - timedelta_days n) datetime_max); [|reflexivity].
  lia.
Qed.

Lemma sub_days_Some d n earlier :
  sub_days d n = Some earlier ->
  earlier = d - timedelta_days n /\ datetime_min <= earlier <= datetime_max.
Proof.
  unfold sub_days.
  destruct (Z.leb_spec (Z.abs n) timedelta_max_days); [|discriminate].
  destruct (Z.leb_spec datetime_min (d - timedelta_days n)); [|discriminate].
  destruct (Z.leb_spec (d - timedelta_days n) datetime_max); [|discriminate].
  intros [= <-]. lia.
Qed.

Lemma generate_date_pairs_checked_stop fuel lower upper interval :
  upper <= lower ->
  generate_date_pairs_checked fuel lower upper interval = Some ([], StopIteration).
Proof.
  intros Hle. destruct fuel; cbn [generate_date_pairs_checked];
    destruct (Z.gtb_spec upper lower); try reflexivity; lia.
Qed.

Lemma generate_date_pairs_checked_step fuel lower upper interval :
  lower < upper ->
  generate_date_pairs_checked (S fuel) lower upper interval
  = match sub_days upper interval with
    | None => Some ([], OverflowError)
    | Some earlier =>
        match generate_date_pairs_checked fuel lower earlier interval with
        | Some (windows, ending) =>
            Some ((Z.max lower earlier, upper) :: windows, ending)
        | None => None
        end
    end.
Proof.
  intros Hlt. cbn [generate_date_pairs_checked].
  destruct (Z.gtb_spec upper lower); [reflexivity|lia].
Qed.

Lemma generate_date_pairs_checked_out_of_fuel lower upper interval :
  lower < upper ->
  generate_date_pairs_checked O lower upper interval = None.
Proof.
  intros Hlt. cbn [generate_date_pairs_checked].
  destruct (Z.gtb_spec upper lower); [reflexivity|lia].
Qed.

(** As long as the lower end lies an interval above [datetime.min], no
    subtraction leaves the range, and the generator yields the windows of
    the loop on the instants. *)
Lemma generate_date_pairs_checked_in_range interval fuel :
  0 < interval <= timedelta_max_days ->
  forall lower upper ws,
    datetime_min + timedelta_days interval <= lower ->
    upper <= datetime_max ->
    generate_date_pairs_fuel fuel lower upper interval = Some ws ->
    generate_date_pairs_checked fuel lower upper interval
    = Some (ws, StopIteration).
Proof.
  intros Hint lower.
  assert (Hw : 0 < timedelta_days interval)
    by (unfold timedelta_days, microseconds_per_day; lia).
  induction fuel as [|fuel IH]; intros upper ws Hlower Hupper Hrun.
  - destruct (Z.lt_ge_cases lower upper) as [Hlt|Hge].
    + simpl in Hrun. destruct (Z.gtb_spec upper lower); [discriminate|lia].
    + rewrite generate_date_pairs_fuel_stop in Hrun by lia.
      injection Hrun as <-. apply generate_date_pairs_checked_stop. lia.
  - destruct (Z.lt_ge_cases lower upper) as [Hlt|Hge].
    + rewrite generate_date_pairs_fuel_step in Hrun by exact Hlt.
      rewrite generate_date_pairs_checked_step by exact Hlt.
      rewrite sub_days_in_range by lia.
      destruct (generate_date_pairs_fuel fuel lower _ interval) as [rest|] eqn:Hrest;
        [|discriminate].
      simpl in Hrun. injection Hrun as <-.
      rewrite (IH _ rest Hlower); [reflexivity|lia|exact Hrest].
    + rewrite generate_date_pairs_fuel_stop in Hrun by lia.
      injection Hrun as <-. apply generate_date_pairs_checked_stop. lia.
Qed.

Lemma ceil_div_pos x w :
  0 < w -> (0 < x <-> 1 <= (x + w - 1) / w).
Proof.
  intros Hw. split.
  - intros Hx. apply Z.div_le_lower_bound; lia.
  - intros Hc. destruct (Z.lt_ge_cases 0 x) as [|Hx]; [assumption|].
    assert ((x + w - 1) / w < 1) by (apply Z.div_lt_upper_bound; lia). lia.
Qed.

Lemma ceil_div_step x w :
  0 < w -> (x - w + w - 1) / w = (x + w - 1) / w - 1.
Proof.
  intros Hw. replace (x - w + w - 1) with ((x + w - 1) + (-1) * w) by lia.
  rewrite Z.div_add by lia. lia.
Qed.

(** The run of the generator at its default interval, for an upper end
    that is a [datetime]: [n] is the number of windows the range asks
    for, and the subtraction for the oldest of them tells whether the
    generator gets that far. *)
Lemma generate_date_pairs_checked_run fuel : forall lower upper,
  datetime_min <= upper <= datetime_max ->
  upper - lower <= Z.of_nat fuel * window_width ->
  let n := Z.max 0 ((upper - lower + window_width - 1) / window_width) in
  exists ws ending,
    generate_date_pairs_checked fuel lower upper MAX_DAYS_PER_QUERY
    = Some (ws, ending)
    /\ (datetime_min <= upper - n * window_width ->
        ending = StopIteration
        /\ Z.of_nat (length ws) = n
        /\ (forall w, last ws = Some w -> w.1 = lower)
        /\ (forall i w, ws !! i = Some w -> (S i < length ws)%nat ->
                        w.2 - w.1 = window_width))
    /\ (upper - n * window_width < datetime_min ->
        ending = OverflowError
        /\ Z.of_nat (length ws) = (upper - datetime_min) / window_width
        /\ Forall (fun w => lower < w.1 /\ w.2 - w.1 = window_width) ws).
Proof.
  pose proof window_width_pos as Hw.
  assert (Hstop : forall fuel lower upper,
    datetime_min <= upper -> upper <= lower ->
    let n := Z.max 0 ((upper - lower + window_width - 1) / window_width) in
    exists ws ending,
      generate_date_pairs_checked fuel lower upper MAX_DAYS_PER_QUERY
      = Some (ws, ending)
      /\ (datetime_min <= upper - n * window_width ->
          ending = StopIteration
          /\ Z.of_nat (length ws) = n
          /\ (forall w, last ws = Some w -> w.1 = lower)
          /\ (forall i w, ws !! i = Some w -> (S i < length ws)%nat ->
                          w.2 - w.1 = window_width))
      /\ (upper - n * window_width < datetime_min ->
          ending = OverflowError
          /\ Z.of_nat (length ws) = (upper - datetime_min) / window_width
          /\ Forall (fun w => lower < w.1 /\ w.2 - w.1 = window_width) ws)).
  { intros fuel0 lower upper Hmin Hle n.
    assert (Hn : n = 0).
    { unfold n. pose proof (ceil_div_pos (upper - lower) window_width Hw). lia. }
    exists [], StopIteration.
    rewrite generate_date_pairs_checked_stop by exact Hle.
    split; [reflexivity|]. rewrite Hn. split.
    - intros _. repeat split; discriminate.
    - intros Hlt. lia. }
  induction fuel as [|fuel IH]; intros lower upper [Hmin Hmax] Hfuel.
  - apply Hstop; lia.
  - destruct (Z.lt_ge_cases lower upper) as [Hlt|Hge]; [|apply Hstop; lia].
    intros n.
    assert (Hn : n = (upper - lower + window_width - 1) / window_width /\ 1 <= n).
    { unfold n. pose proof (ceil_div_pos (upper - lower) window_width Hw). lia. }
    destruct Hn as [Hn Hn1].
    rewrite generate_date_pairs_checked_step by exact Hlt.
    fold window_width.
    destruct (Z.lt_ge_cases (upper - window_width) datetime_min) as [Hout|Hin].
    + rewrite sub_days_out_of_range by (right; left; exact Hout).
      exists [], OverflowError. split; [reflexivity|]. split.
      * intros Hreach. nia.
      * intros _. split; [reflexivity|]. split; [|constructor].
        simpl. symmetry. apply Z.div_small. lia.
    + rewrite sub_days_in_range;
        [ | vm_compute; discriminate
          | change (timedelta_days MAX_DAYS_PER_QUERY) with window_width; lia ].
      fold window_width.
      destruct (IH lower (upper - window_width)) as (rest & ending & Hrun & Hreach & Hfail);
        [lia|lia|].
      cbv zeta in Hreach, Hfail.
      replace (upper - window_width - lower + window_width - 1)
        with (upper - lower - window_width + window_width - 1) in Hreach, Hfail by lia.
      rewrite ceil_div_step in Hreach, Hfail by exact Hw.
      rewrite <- Hn in Hreach, Hfail.
      rewrite Z.max_r in Hreach, Hfail by lia.
      replace (upper - window_width - (n - 1) * window_width)
        with (upper - n * window_width) in Hreach, Hfail by lia.
      pose proof (ceil_div_pos (upper - window_width - lower) window_width Hw) as Hpos.
      replace (upper - window_width - lower + window_width - 1)
        with (upper - lower - window_width + window_width - 1) in Hpos by lia.
      rewrite ceil_div_step, <- Hn in Hpos by exact Hw.
      rewrite Hrun. eexists _, ending. split; [reflexivity|]. split.
      * intros Hok. destruct (Hreach Hok) as (-> & Hlen & Hlast & Hwidths).
        split; [reflexivity|]. split; [cbn [length]; lia|]. split.
        -- intros w. destruct rest as [|x rest'].
           ++ simpl. intros [= <-]. simpl. simpl in Hlen. lia.
           ++ intros Hl. apply Hlast. exact Hl.
        -- intros [|i] w Hi Hlen'.
           ++ injection Hi as <-. simpl in Hlen' |- *.
              assert (0 < Z.of_nat (length rest)) by lia. lia.
           ++ apply (Hwidths i w Hi). simpl in Hlen'. lia.
      * intros Hko. destruct (Hfail Hko) as (-> & Hlen & Hall).
        split; [reflexivity|]. split.
        -- cbn [length]. rewrite Nat2Z.inj_succ, Hlen.
           replace (upper - datetime_min)
             with ((upper - window_width - datetime_min) + 1 * window_width) by lia.
           rewrite Z.div_add by lia. lia.
        -- assert (2 <= n) by nia.
           constructor; [|exact Hall]. simpl. lia.
Qed.

(** A negative interval moves the upper end up by its size at every
    turn, until it leaves the range. *)
Lemma generate_date_pairs_checked_negative interval lower fuel : forall upper,
  interval < 0 ->
  lower < upper ->
  upper <= datetime_max ->
  datetime_max - upper < Z.of_nat fuel * - timedelta_days interval ->
  exists ws,
    generate_date_pairs_checked fuel lower upper interval
    = Some (ws, OverflowError)
    /\ Forall (fun w => w.2 < w.1) ws.
Proof.
  intros upper Hneg.
  assert (Hw : timedelta_days interval < 0)
    by (unfold timedelta_days, microseconds_per_day; lia).
  revert upper. induction fuel as [|fuel IH]; intros upper Hlt Hmax Hfuel.
  - simpl in Hfuel. lia.
  - rewrite generate_date_pairs_checked_step by exact Hlt.
    destruct (sub_days upper interval) as [earlier|] eqn:Hsub.
    + apply sub_days_Some in Hsub as [-> [_ Hhi]].
      destruct (IH (upper - timedelta_days interval)) as (rest & -> & Hall);
        [lia|lia|lia|].
      eexists. split; [reflexivity|]. constructor; [simpl; lia|exact Hall].
    + exists []. split; [reflexivity|constructor].
Qed.

(** With an interval of zero the upper end never moves. *)
Lemma generate_date_pairs_checked_zero lower upper fuel :
  lower < upper ->
  datetime_min <= upper <= datetime_max ->
  generate_date_pairs_checked fuel lower upper 0 = None.
Proof.
  intros Hlt Hrange. induction fuel as [|fuel IH].
  - apply generate_date_pairs_checked_out_of_fuel. exact Hlt.
  - rewrite generate_date_pairs_checked_step by exact Hlt.
    rewrite sub_days_in_range
      by (unfold timedelta_max_days, timedelta_days; simpl; lia).
    replace (upper - timedelta_days 0) with upper
      by (unfold timedelta_days; lia).
    rewrite IH. reflexivity.
Qed.

End CheckedWindows.

(** C3 (amended). For a [start] at least two days after [datetime.min]
    and a [stop] that is a [datetime], [generate_date_pairs] runs to its
    end and cuts [[start, stop)] into consecutive windows of at most two
    days, the latest first: each window ends where the one before it
    begins, the first ends at [stop], the last begins at [start], none is
    empty, and every instant of the range lies in exactly one window.
    From 2024-01-01T00:00Z to 2024-01-05T00:00Z it yields
    [[2024-01-03, 2024-01-05)] and then [[2024-01-01, 2024-01-03)]. *)
Theorem generate_date_pairs_backward_partition :
  (forall start stop : instant,
      datetime_min + timedelta_days 2 <= start ->
      stop <= datetime_max ->
      (forall fuel, (enough_fuel start stop <= fuel)%nat ->
            generate_date_pairs_checked fuel start stop MAX_DAYS_PER_QUERY
            = Some (generate_date_pairs start stop, StopIteration))
      /\ backward_partition (timedelta_days 2) start stop
           (generate_date_pairs start stop)
      /\ (forall t, start <= t < stop <->
            exists w, w ∈ generate_date_pairs start stop /\ w.1 <= t < w.2)
      /\ (forall t w1 w2,
            w1 ∈ generate_date_pairs start stop ->
            w2 ∈ generate_date_pairs start stop ->
            w1.1 <= t < w1.2 -> w2.1 <= t < w2.2 -> w1 = w2))
  /\ generate_date_pairs_checked 2 (utc 2024 1 1 0 0 0) (utc 2024 1 5 0 0 0)
       MAX_DAYS_PER_QUERY
     = Some ([ (utc 2024 1 3 0 0 0, utc 2024 1 5 0 0 0);
               (utc 2024 1 1 0 0 0, utc 2024 1 3 0 0 0) ], StopIteration).
Proof.
  split; [|reflexivity].
  intros start stop Hstart Hstop.
  pose proof (generate_date_pairs_partition start stop) as Hpart.
  split; [|split; [exact Hpart|split]].
  - intros fuel Hfuel.
    apply generate_date_pairs_checked_in_range;
      [unfold MAX_DAYS_PER_QUERY, timedelta_max_days; lia | exact Hstart
      | exact Hstop |].
    apply generate_date_pairs_terminates. exact Hfuel.
  - apply (backward_partition_cover start _ stop Hpart).
  - apply (backward_partition_apart start _ stop Hpart).
Qed.

Lemma generate_date_pairs_backward_partition_witness :
  generate_date_pairs_checked 4 (utc 2024 1 1 0 0 0) (utc 2024 1 8 0 0 0)
    MAX_DAYS_PER_QUERY
  = Some (generate_date_pairs (utc 2024 1 1 0 0 0) (utc 2024 1 8 0 0 0),
          StopIteration)
  /\ backward_partition (timedelta_days 2) (utc 2024 1 1 0 0 0) (utc 2024 1 8 0 0 0)
       [ (utc 2024 1 6 0 0 0, utc 2024 1 8 0 0 0);
         (utc 2024 1 4 0 0 0, utc 2024 1 6 0 0 0);
         (utc 2024 1 2 0 0 0, utc 2024 1 4 0 0 0);
         (utc 2024 1 1 0 0 0, utc 2024 1 2 0 0 0) ].
Proof.
  destruct generate_date_pairs_backward_partition as [Hgeneral _].
  destruct (Hgeneral (utc 2024 1 1 0 0 0) (utc 2024 1 8 0 0 0))
    as (Hrun & Hpart & _).
  - vm_compute. discriminate.
  - vm_compute. discriminate.
  - split; [apply Hrun; vm_compute; lia | exact Hpart].
Defined.

(** The generator does not partition every range of datetimes: from
    0001-01-01T12:00Z to 0001-01-02T00:00Z, half a day, the subtraction of
    two days from the upper end leaves [datetime]'s range, and the
    generator raises [OverflowError] before it has yielded a window. *)
Lemma generate_date_pairs_overflow_near_min :
  datetime_min <= utc 1 1 1 12 0 0
  /\ utc 1 1 1 12 0 0 < utc 1 1 2 0 0 0
  /\ utc 1 1 2 0 0 0 <= datetime_max
  /\ (forall fuel,
        generate_date_pairs_checked (S fuel) (utc 1 1 1 12 0 0) (utc 1 1 2 0 0 0)
          MAX_DAYS_PER_QUERY
        = Some ([], OverflowError))
  /\ ~ (exists fuel ws ending,
          generate_date_pairs_checked fuel (utc 1 1 1 12 0 0) (utc 1 1 2 0 0 0)
            MAX_DAYS_PER_QUERY = Some (ws, ending)
          /\ exists w, w ∈ ws /\ w.1 <= utc 1 1 1 12 0 0 < w.2).
Proof.
  assert (Hrun : forall fuel,
    generate_date_pairs_checked (S fuel) (utc 1 1 1 12 0 0) (utc 1 1 2 0 0 0)
      MAX_DAYS_PER_QUERY = Some ([], OverflowError)).
  { intros fuel. rewrite generate_date_pairs_checked_step by reflexivity.
    reflexivity. }
  split; [vm_compute; discriminate|]. split; [reflexivity|].
  split; [vm_compute; discriminate|]. split; [exact Hrun|].
  intros (fuel & ws & ending & Hws & w & Hin & _).
  destruct fuel as [|fuel].
  - rewrite generate_date_pairs_checked_out_of_fuel in Hws by reflexivity.
    discriminate.
  - rewrite Hrun in Hws. injection Hws as <- _.
    apply elem_of_nil in Hin as [].
Qed.

(** ** [get_token] *)

Section GetToken.

Lemma get_token_call_error_status o code :
  error_status o = Some code ->
  get_token_call o = Raise (get_token_except (HTTPStatusError code)).
Proof.
  destruct o as [r|e]; simpl.
  - unfold get_token_call, raise_for_status. simpl.
    destruct (is_success r); [discriminate|]. intros [= <-]. reflexivity.
  - destruct e; try discriminate. intros [= <-]. reflexivity.
Qed.

(** On an HTTP success the [except] clause has nothing to rewrite: what
    the body raises there is not an [httpx] exception. *)
Lemma get_token_call_success r :
  is_success r = true ->
  get_token_call (Responded r)
  = (parsed_response ← response_json r;
     if truthy parsed_response then
       data ← subscript parsed_response "data"; get_method data "token"
     else Return (JStr (text r))).
Proof.
  intros Hok. unfold get_token_call, raise_for_status. simpl. rewrite Hok. simpl.
  unfold response_json. destruct (json_body r) as [j|]; simpl; [|reflexivity].
  destruct (truthy j); [|reflexivity].
  unfold subscript.
  destruct j; simpl; try reflexivity.
  destruct (dict_get members "data") as [d|]; simpl; [|reflexivity].
  destruct d; reflexivity.
Qed.

Lemma get_token_call_success_not_classified r e :
  is_success r = true ->
  get_token_call (Responded r) = Raise e ->
  e = JSONDecodeError \/ e = TypeError \/ e = AttributeError
  \/ exists k, e = KeyError k.
Proof.
  intros Hok. rewrite (get_token_call_success r Hok).
  unfold response_json. destruct (json_body r) as [j|]; simpl;
    [|intros [= <-]; auto].
  destruct (truthy j); [|discriminate].
  unfold subscript.
  destruct j; simpl; try (intros [= <-]; auto).
  destruct (dict_get members "data") as [d|]; simpl;
    [|intros [= <-]; eauto 6].
  destruct d; simpl; intros [= <-]; auto.
Qed.

Lemma retry_from_not_selected {A} on attempts (call : nat -> option (result A)) i e :
  call i = Some (Raise e) -> on e = false ->
  retry_from on attempts call i = (Some (Raise e), S i).
Proof.
  intros Hcall Hon. destruct attempts; simpl; rewrite Hcall; [reflexivity|].
  rewrite Hon. reflexivity.
Qed.

Lemma retry_from_all_selected {A} on attempts (call : nat -> option (result A)) i e :
  (forall j, call j = Some (Raise e)) -> on e = true ->
  retry_from on attempts call i = (Some (Raise e), (S i + attempts)%nat).
Proof.
  intros Hcall Hon. revert i. induction attempts as [|n IH]; intros i; simpl.
  - rewrite Hcall. f_equal. lia.
  - rewrite Hcall, Hon, IH. f_equal. lia.
Qed.

Lemma retry_from_returns {A} on attempts (call : nat -> option (result A)) i a :
  call i = Some (Return a) ->
  retry_from on attempts call i = (Some (Return a), S i).
Proof. intros Hcall. destruct attempts; simpl; rewrite Hcall; reflexivity. Qed.

End GetToken.

(** ** The stop condition of [stamina.retry] *)

Section StopCondition.

Variable timing : Timing.

Lemma first_stop_least fuel : forall i j,
  (i <= j < first_stop timing fuel i)%nat -> stop_after timing j = false.
Proof.
  induction fuel as [|fuel IH]; intros i j Hj; simpl in Hj; [lia|].
  destruct (stop_after timing i) eqn:Hstop; [lia|].
  destruct (decide (j = i)) as [->|Hne]; [exact Hstop|].
  apply (IH (S i)). lia.
Qed.

Lemma first_stop_le fuel : forall i k,
  (i <= k)%nat -> stop_after timing k = true ->
  (first_stop timing fuel i <= k)%nat.
Proof.
  induction fuel as [|fuel IH]; intros i k Hle Hstop; simpl; [exact Hle|].
  destruct (stop_after timing i) eqn:Hi; [exact Hle|].
  apply IH; [|exact Hstop].
  destruct (decide (i = k)) as [->|Hne]; [congruence|lia].
Qed.

Lemma first_stop_stops fuel : forall i,
  (first_stop timing fuel i < i + fuel)%nat ->
  stop_after timing (first_stop timing fuel i) = true.
Proof.
  induction fuel as [|fuel IH]; intros i Hlt; simpl in *; [lia|].
  destruct (stop_after timing i) eqn:Hi; [exact Hi|].
  apply IH. lia.
Qed.

Lemma first_stop_ge fuel : forall i, (i <= first_stop timing fuel i)%nat.
Proof.
  induction fuel as [|fuel IH]; intros i; simpl; [lia|].
  destruct (stop_after timing i); [lia|]. specialize (IH (S i)). lia.
Qed.

(** The tenth attempt is the last, whatever the time. *)
Lemma stop_after_attempts : stop_after timing 9 = true.
Proof. reflexivity. Qed.

Lemma stamina_calls_allowed_attempts :
  (1 <= stamina_calls_allowed timing <= stamina_default_attempts)%nat.
Proof.
  unfold stamina_calls_allowed.
  pose proof (first_stop_le stamina_default_attempts O 9 (Nat.le_0_l _)
                stop_after_attempts).
  unfold stamina_default_attempts in *. lia.
Qed.

(** The stop condition holds after the last call allowed, and after
    none before it. *)
Lemma stamina_calls_allowed_last :
  stop_after timing (stamina_calls_allowed timing - 1) = true.
Proof.
  unfold stamina_calls_allowed. rewrite Nat.sub_succ, Nat.sub_0_r.
  apply first_stop_stops.
  pose proof (first_stop_le stamina_default_attempts O 9 (Nat.le_0_l _)
                stop_after_attempts).
  unfold stamina_default_attempts in *. lia.
Qed.

Lemma stamina_calls_allowed_spec n :
  (n < stamina_calls_allowed timing)%nat
  <-> forall j, (j < n)%nat -> stop_after timing j = false.
Proof.
  unfold stamina_calls_allowed. split.
  - intros Hn j Hj. apply (first_stop_least stamina_default_attempts O). lia.
  - intros Hnone.
    destruct (Nat.lt_ge_cases (first_stop timing stamina_default_attempts O) n)
      as [Hlt|Hge]; [|lia].
    pose proof (stamina_calls_allowed_last) as Hlast.
    unfold stamina_calls_allowed in Hlast.
    rewrite Nat.sub_succ, Nat.sub_0_r in Hlast.
    rewrite (Hnone _ Hlt) in Hlast. discriminate.
Qed.

Lemma stamina_calls_allowed_eq n :
  (forall j, (j < n)%nat -> stop_after timing j = false) ->
  stop_after timing n = true ->
  stamina_calls_allowed timing = S n.
Proof.
  intros Hnone Hstop.
  apply stamina_calls_allowed_spec in Hnone.
  pose proof (first_stop_le stamina_default_attempts O n (Nat.le_0_l _) Hstop).
  unfold stamina_calls_allowed in *. lia.
Qed.

Hypothesis timing_is_ok : timing_ok timing.

Lemma backoff_nonneg attempt_number i : 0 <= backoff attempt_number (jitter timing i).
Proof.
  destruct (timing_is_ok i) as [_ [Hj _]].
  unfold backoff, wait_max, wait_initial, seconds.
  pose proof (Z.pow_nonneg 2 (Z.of_nat (attempt_number - 1))). lia.
Qed.

Lemma finished_at_mono i j :
  (i <= j)%nat -> finished_at timing i <= finished_at timing j.
Proof.
  induction 1 as [|j Hle IH]; [lia|].
  cbn [finished_at].
  pose proof (backoff_nonneg (S j) j). destruct (timing_is_ok (S j)) as [Ht _]. lia.
Qed.

(** The waits before the fifth call add up to a minute. *)
Lemma finished_at_fifth : seconds 60 <= finished_at timing 4.
Proof.
  cbn [finished_at].
  destruct (timing_is_ok 0%nat) as [? [? _]].
  destruct (timing_is_ok 1%nat) as [? [? _]].
  destruct (timing_is_ok 2%nat) as [? [? _]].
  destruct (timing_is_ok 3%nat) as [? [? _]].
  destruct (timing_is_ok 4%nat) as [? _].
  unfold backoff, wait_max, wait_initial, seconds.
  change (2 ^ Z.of_nat (1 - 1)) with 1. change (2 ^ Z.of_nat (2 - 1)) with 2.
  change (2 ^ Z.of_nat (3 - 1)) with 4. change (2 ^ Z.of_nat (4 - 1)) with 8.
  lia.
Qed.

Lemma stamina_calls_allowed_bounds :
  (1 <= stamina_calls_allowed timing <= 5)%nat.
Proof.
  split; [apply stamina_calls_allowed_attempts|].
  assert (Hstop : stop_after timing 4 = true).
  { unfold stop_after. apply orb_true_iff. right. apply Z.leb_le.
    pose proof finished_at_fifth. unfold stamina_default_timeout, seconds in *. lia. }
  pose proof (first_stop_le stamina_default_attempts O 4 (Nat.le_0_l _) Hstop).
  unfold stamina_calls_allowed. lia.
Qed.

(** The calls before call [n] leave time for it. *)
Lemma within_budget n :
  (forall j, (j < n)%nat -> finished_at timing j < stamina_default_timeout) ->
  (n < stamina_calls_allowed timing)%nat /\ (n < 5)%nat.
Proof.
  intros Hbudget.
  assert (Hn : (n < 5)%nat).
  { destruct (Nat.lt_ge_cases n 5) as [|Hge]; [assumption|].
    pose proof (Hbudget 4%nat ltac:(lia)). pose proof finished_at_fifth.
    unfold stamina_default_timeout, seconds in *. lia. }
  split; [|exact Hn].
  apply stamina_calls_allowed_spec. intros j Hj.
  unfold stop_after. apply orb_false_iff. split.
  - apply Nat.leb_gt. unfold stamina_default_attempts. lia.
  - apply Z.leb_gt. apply Hbudget. exact Hj.
Qed.

Lemma budget_used_up n :
  (forall j, (j < n)%nat -> finished_at timing j < stamina_default_timeout) ->
  stamina_default_timeout <= finished_at timing n ->
  stamina_calls_allowed timing = S n.
Proof.
  intros Hbudget Hused.
  destruct (within_budget n Hbudget) as [Hallowed _].
  apply stamina_calls_allowed_eq.
  - apply stamina_calls_allowed_spec. exact Hallowed.
  - unfold stop_after. apply orb_true_iff. right. apply Z.leb_le. exact Hused.
Qed.

Lemma stamina_calls_allowed_quick :
  finished_at timing 3 < stamina_default_timeout ->
  stamina_calls_allowed timing = 5%nat.
Proof.
  intros Hquick.
  destruct (within_budget 4) as [Hallowed _].
  { intros j Hj. pose proof (finished_at_mono j 3 ltac:(lia)). lia. }
  pose proof stamina_calls_allowed_bounds. lia.
Qed.

End StopCondition.

Section Exhausted.

Context {A : Type}.

(** When every call that the stop condition allows raises a selected
    exception, the last of them leaves the wrapper. *)
Lemma retry_from_exhausted (on : exn -> bool) (call : nat -> option (result A)) :
  forall attempts i,
    (forall j, (i <= j <= i + attempts)%nat ->
               exists e, call j = Some (Raise e) /\ on e = true) ->
    retry_from on attempts call i
    = (call (i + attempts)%nat, S (i + attempts)).
Proof.
  induction attempts as [|attempts IH]; intros i Hfail.
  - rewrite Nat.add_0_r. reflexivity.
  - destruct (Hfail i) as (e & Hcall & Hon); [lia|].
    simpl. rewrite Hcall, Hon.
    replace (i + S attempts)%nat with (S i + attempts)%nat by lia.
    apply IH. intros j Hj. apply Hfail. lia.
Qed.

End Exhausted.

Lemma quick_timing_ok : timing_ok MoreExamples.quick_timing.
Proof. intros i. unfold wait_jitter, seconds. simpl. lia. Qed.

Lemma slow_timing_ok : timing_ok MoreExamples.slow_timing.
Proof. intros i. simpl. unfold wait_jitter, seconds. lia. Qed.

(** C6. A call of [get_token] raises [StevensConnectBadRequestException]
    exactly when the response status is 400 and
    [StevensConnectNotFoundException] exactly when it is 404; the retry
    wrapper lets both through after that single call.  Any other HTTP error
    status is raised as [httpx.HTTPStatusError], which the wrapper selects:
    the call is repeated while the stop condition allows it, and the last
    such error propagates.  With the waits of the decorator (4 s doubling
    up to 32 s) and stamina's budget of 45 s that is after five calls at
    most, and after exactly five when the fourth call ends within the
    budget. *)
Theorem get_token_error_classification
    (attempts : nat) (timing : Timing) (post : nat -> Outcome) :
  (forall r c,
      (get_token_call (Responded r) = Raise (StevensConnectBadRequestException c)
       <-> status_code r = 400 /\ c = 400)
      /\ (get_token_call (Responded r) = Raise (StevensConnectNotFoundException c)
          <-> status_code r = 404 /\ c = 404))
  /\ (error_status (post O) = Some 400 ->
      get_token attempts post
      = (Some (Raise (StevensConnectBadRequestException 400)), 1%nat))
  /\ (error_status (post O) = Some 404 ->
      get_token attempts post
      = (Some (Raise (StevensConnectNotFoundException 404)), 1%nat))
  /\ (forall code, code <> 400 -> code <> 404 ->
      (error_status (post O) = Some code ->
       get_token_call (post O) = Raise (HTTPStatusError code)
       /\ is_httpx_HTTPError (HTTPStatusError code) = true
       /\ ((2 <= attempts)%nat -> (2 <= (get_token attempts post).2)%nat))
      /\ ((forall i, error_status (post i) = Some code) ->
          timing_ok timing ->
          get_token (stamina_calls_allowed timing) post
          = (Some (Raise (HTTPStatusError code)), stamina_calls_allowed timing)
          /\ (1 <= stamina_calls_allowed timing <= 5)%nat
          /\ (finished_at timing 3 < stamina_default_timeout ->
              stamina_calls_allowed timing = 5%nat))).
Proof.
  assert (Hother : forall o code, code <> 400 -> code <> 404 ->
            error_status o = Some code ->
            get_token_call o = Raise (HTTPStatusError code)).
  { intros o code H400 H404 Hst.
    rewrite (get_token_call_error_status _ _ Hst). simpl.
    destruct (Z.eqb_spec code 400); [contradiction|].
    destruct (Z.eqb_spec code 404); [contradiction|]. reflexivity. }
  split; [|split; [|split]].
  - intros r c.
    destruct (is_success r) eqn:Hok.
    + assert (status_code r <> 400 /\ status_code r <> 404) as [N400 N404].
      { unfold is_success in Hok. apply andb_true_iff in Hok as [_ Hhi].
        apply Z.leb_le in Hhi. lia. }
      split; (split; [intros Hraise | intros [Hst _]; contradiction]);
        destruct (get_token_call_success_not_classified r _ Hok Hraise)
          as [?|[?|[?|[? ?]]]]; discriminate.
    + assert (Hst : error_status (Responded r) = Some (status_code r)).
      { simpl. rewrite Hok. reflexivity. }
      rewrite (get_token_call_error_status _ _ Hst). simpl.
      destruct (Z.eqb_spec (status_code r) 400) as [E400|N400].
      * split; split.
        -- intros [= <-]. auto.
        -- intros [_ ->]. reflexivity.
        -- discriminate.
        -- intros [E404 _]. lia.
      * destruct (Z.eqb_spec (status_code r) 404) as [E404|N404].
        -- split; split.
           ++ discriminate.
           ++ intros [? _]. contradiction.
           ++ intros [= <-]. auto.
           ++ intros [_ ->]. reflexivity.
        -- split; split; try discriminate; intros [? _]; contradiction.
  - intros Hst. unfold get_token, stamina_retry.
    apply retry_from_not_selected; [|reflexivity].
    rewrite (get_token_call_error_status _ _ Hst). reflexivity.
  - intros Hst. unfold get_token, stamina_retry.
    apply retry_from_not_selected; [|reflexivity].
    rewrite (get_token_call_error_status _ _ Hst). reflexivity.
  - intros code H400 H404. split.
    + intros Hst. split; [apply Hother; assumption|]. split; [reflexivity|].
      intros Hatt. unfold get_token, stamina_retry.
      destruct attempts as [|[|n]]; try lia. simpl.
      rewrite (Hother _ _ H400 H404 Hst). simpl.
      assert (forall k j, (j < (retry_from is_httpx_HTTPError k
                (fun i => Some (get_token_call (post i))) j).2)%nat) as Hgrow.
      { induction k as [|k IH]; intros j; simpl; [lia|].
        destruct (get_token_call (post j)) as [|e]; simpl; [lia|].
        destruct (is_httpx_HTTPError e); simpl; [|lia].
        specialize (IH (S j)). lia. }
      specialize (Hgrow n 1%nat). lia.
    + intros Hall Hok. split; [|split].
      * unfold get_token, stamina_retry.
        rewrite (retry_from_all_selected _ _ _ _ (HTTPStatusError code)).
        -- pose proof (stamina_calls_allowed_attempts timing). f_equal. lia.
        -- intros j. rewrite (Hother _ _ H400 H404 (Hall j)). reflexivity.
        -- reflexivity.
      * apply stamina_calls_allowed_bounds. exact Hok.
      * apply stamina_calls_allowed_quick. exact Hok.
Qed.

(** C7. On an HTTP success whose body decodes to JSON, [get_token]
    returns the body text when the decoded value is falsy, and the value
    under [token] of the object under [data] when the decoded value is the
    envelope [{data: {token: ...}}] ([None] when [data] has no [token]). *)
Theorem get_token_success_value (r : Response) (parsed_response : json) :
  is_success r = true ->
  json_body r = Some parsed_response ->
  (truthy parsed_response = false ->
   get_token_call (Responded r) = Return (JStr (text r)))
  /\ (forall members data,
        parsed_response = JObj members ->
        dict_get members "data" = Some (JObj data) ->
        truthy parsed_response = true
        /\ get_token_call (Responded r)
           = Return (default JNull (dict_get data "token")))
  /\ (forall post attempts value,
        post O = Responded r ->
        get_token_call (Responded r) = Return value ->
        get_token attempts post = (Some (Return value), 1%nat)).
Proof.
  intros Hok Hbody.
  rewrite (get_token_call_success r Hok). unfold response_json. rewrite Hbody.
  simpl. split; [|split].
  - intros ->. reflexivity.
  - intros members data -> Hdata.
    assert (Ht : truthy (JObj members) = true).
    { destruct members; [discriminate|reflexivity]. }
    split; [exact Ht|]. rewrite Ht. simpl. rewrite Hdata. reflexivity.
  - intros post attempts value Hpost Hval.
    unfold get_token, stamina_retry. apply retry_from_returns.
    rewrite Hpost, (get_token_call_success r Hok). unfold response_json.
    rewrite Hbody. simpl. rewrite Hval. reflexivity.
Qed.

(** ** [get_sensor_readings] *)

Section Pagination.

Variable parse_obj : json -> result ChannelReadingsResponse.

Lemma page_step_parsed o rs last_page current_page :
  page_parses parse_obj o rs ->
  last_page_is rs last_page ->
  page_step parse_obj o current_page
  = Return (if last_page >? current_page
            then NextPage (dict_values (readings rs))
            else LastPage (dict_values (readings rs))).
Proof.
  intros (r & j & -> & Hok & Hbody & Htruthy & Hparse) Hlast.
  unfold page_step, raise_for_status, response_json. simpl.
  rewrite Hok, Hbody. simpl. rewrite Htruthy.
  destruct (get_method j "data") as [data|]; simpl in *; [|discriminate].
  rewrite Hparse. simpl. unfold last_page_is in Hlast. rewrite Hlast. simpl.
  destruct (last_page >? current_page); reflexivity.
Qed.

Lemma page_step_falsy r parsed_response current_page :
  is_success r = true ->
  json_body r = Some parsed_response ->
  truthy parsed_response = false ->
  page_step parse_obj (Responded r) current_page = Return (ReturnText (text r)).
Proof.
  intros Hok Hbody Hfalsy.
  unfold page_step, raise_for_status, response_json. simpl.
  rewrite Hok, Hbody. simpl. rewrite Hfalsy. reflexivity.
Qed.

(** A page that lets the loop go on, or ends it with readings, had a
    truthy body. *)
Lemma page_step_readings_truthy o current_page step :
  page_step parse_obj o current_page = Return step ->
  (forall body, step <> ReturnText body) ->
  truthy_page o.
Proof.
  unfold page_step, raise_for_status, response_json.
  destruct o as [r|e]; simpl; [|discriminate].
  destruct (is_success r); simpl; [|discriminate].
  destruct (json_body r) as [j|] eqn:Hbody; simpl; [|discriminate].
  destruct (truthy j) eqn:Htruthy.
  - intros _ _. exists r, j. auto.
  - intros [= <-] Hne. destruct (Hne _ eq_refl).
Qed.

Lemma more_pages_upstream_tail get first rs pages :
  more_pages_upstream parse_obj get first (rs :: pages) ->
  more_pages_upstream parse_obj get (S first) pages.
Proof.
  intros Hup i rs' Hi. specialize (Hup (S i) rs' Hi).
  replace (S first + i)%nat with (first + S i)%nat by lia. exact Hup.
Qed.

(** The loop walks through pages that announce more to come. *)
Lemma paginate_more_pages get pages : forall first total fuel,
  more_pages_upstream parse_obj get first pages ->
  paginate parse_obj (length pages + fuel) get (Z.of_nat first) total
  = let '(requested, r) :=
      paginate parse_obj fuel get (Z.of_nat (first + length pages))
        (total ++ page_values pages) in
    ((Z.of_nat <$> seq first (length pages)) ++ requested, r).
Proof.
  induction pages as [|rs pages IH]; intros first total fuel Hup.
  - simpl. rewrite Nat.add_0_r, app_nil_r.
    destruct (paginate _ _ _ _ _). reflexivity.
  - destruct (Hup O rs eq_refl) as (Hparse & last_page & Hlast & Hgt).
    rewrite Nat.add_0_r in Hparse, Hgt.
    cbn [length Nat.add paginate].
    rewrite (page_step_parsed _ _ _ _ Hparse Hlast).
    destruct (Z.gtb_spec last_page (Z.of_nat first)); [|lia].
    replace (Z.of_nat first + 1) with (Z.of_nat (S first)) by lia.
    rewrite (IH (S first) _ fuel (more_pages_upstream_tail _ _ _ _ Hup)).
    replace (S first + length pages)%nat with (first + S (length pages))%nat by lia.
    unfold page_values. cbn [fmap list_fmap concat].
    rewrite <- app_assoc.
    destruct (paginate _ _ _ _ _). reflexivity.
Qed.

Lemma paged_upstream_more get first pages rs :
  paged_upstream parse_obj get first (pages ++ [rs]) ->
  more_pages_upstream parse_obj get first pages
  /\ page_parses parse_obj (get (Z.of_nat (first + length pages))) rs
  /\ last_page_is rs (Z.of_nat (first + length pages)).
Proof.
  intros Hup. split.
  - intros i rs' Hi.
    destruct (Hup i rs') as (Hparse & last_page & Hlast & Hgt & _).
    { rewrite lookup_app_l; [exact Hi|]. eapply lookup_lt_Some; eauto. }
    split; [exact Hparse|]. exists last_page. split; [exact Hlast|].
    apply Hgt. rewrite length_app. simpl.
    apply lookup_lt_Some in Hi. lia.
  - destruct (Hup (length pages) rs) as (Hparse & last_page & Hlast & _ & Heq).
    { rewrite lookup_app_r by lia. rewrite Nat.sub_diag. reflexivity. }
    split; [exact Hparse|].
    rewrite <- Heq; [exact Hlast|]. rewrite length_app. simpl. lia.
Qed.

(** ** Grouping keeps every reading *)

Lemma sum_list_fmap_cons {A} (f : A -> nat) x l :
  sum_list (f <$> x :: l) = (f x + sum_list (f <$> l))%nat.
Proof. reflexivity. Qed.

Lemma total_count_defaultdict_append {K} `{EqDecision K}
    (d : list (K * list ChannelReading)) k x :
  total_count (defaultdict_append d k x) = S (total_count d).
Proof.
  unfold defaultdict_append, total_count, dict_values.
  induction d as [|[k' v'] d IH].
  - reflexivity.
  - cbn [dict_get dict_set]. destruct (decide (k = k')) as [->|Hne].
    + cbn. rewrite length_app. simpl. lia.
    + cbn [fmap list_fmap snd sum_list sum_list_with] in *.
      rewrite IH. lia.
Qed.

Lemma total_count_group_channel (channel_readings : list ChannelReading) :
  forall grouped,
    total_count
      (fold_left
         (fun grouped reading =>
            defaultdict_append grouped (ChannelReading_timestamp reading) reading)
         channel_readings grouped)
    = (total_count grouped + length channel_readings)%nat.
Proof.
  induction channel_readings as [|x l IH]; intros grouped; cbn [fold_left length].
  - lia.
  - rewrite IH, total_count_defaultdict_append. lia.
Qed.

Lemma total_count_group_from (total_readings : list (list ChannelReading)) :
  forall grouped,
    total_count
      (fold_left
         (fun grouped channel_readings =>
            fold_left
              (fun grouped reading =>
                 defaultdict_append grouped (ChannelReading_timestamp reading) reading)
              channel_readings grouped)
         total_readings grouped)
    = (total_count grouped + sum_list (length <$> total_readings))%nat.
Proof.
  induction total_readings as [|l ls IH]; intros grouped; cbn [fold_left].
  - simpl. lia.
  - rewrite IH, total_count_group_channel, sum_list_fmap_cons. lia.
Qed.

Lemma total_count_group_by_timestamp total_readings :
  total_count (group_by_timestamp total_readings)
  = sum_list (length <$> total_readings).
Proof. unfold group_by_timestamp. rewrite total_count_group_from. reflexivity. Qed.

Lemma sum_list_page_values pages :
  sum_list (length <$> page_values pages) = sum_list (page_count <$> pages).
Proof.
  unfold page_values, page_count.
  induction pages as [|rs pages IH]; [reflexivity|].
  rewrite !fmap_cons. cbn [concat].
  rewrite fmap_app, sum_list_with_app, IH. reflexivity.
Qed.

Lemma paginate_truthy get : forall fuel current_page total requested grouped,
  paginate parse_obj fuel get current_page total
  = (requested, Some (Return (Grouped grouped))) ->
  forall page, page ∈ requested -> truthy_page (get page).
Proof.
  induction fuel as [|fuel IH]; intros current_page total requested grouped; simpl.
  - discriminate.
  - destruct (page_step parse_obj (get current_page) current_page)
      as [[body|rs|rs]|e] eqn:Hstep.
    + discriminate.
    + destruct (paginate parse_obj fuel get (current_page + 1) (total ++ rs))
        as [ps r] eqn:Hrest.
      intros [= <- ->] page Hin.
      apply elem_of_cons in Hin as [->|Hin].
      * eapply page_step_readings_truthy; [exact Hstep|discriminate].
      * eapply IH; eassumption.
    + intros [= <- _] page Hin.
      apply list_elem_of_singleton in Hin as ->.
      eapply page_step_readings_truthy; [exact Hstep|discriminate].
    + discriminate.
Qed.

Lemma paginate_paged get pages fuel :
  pages <> [] ->
  paged_upstream parse_obj get 1 pages ->
  (length pages <= fuel)%nat ->
  paginate parse_obj fuel get 1 []
  = (Z.of_nat <$> seq 1 (length pages),
     Some (Return (Grouped (group_by_timestamp (page_values pages))))).
Proof.
  intros Hne Hup Hfuel.
  destruct (exists_last Hne) as (init & rs & ->).
  apply paged_upstream_more in Hup as (Hmore & Hparse & Hlast).
  rewrite length_app in *. simpl in Hfuel.
  replace fuel with (length init + S (fuel - length init - 1))%nat by lia.
  change 1 with (Z.of_nat 1).
  rewrite (paginate_more_pages get init 1 [] _ Hmore).
  cbn [paginate].
  rewrite (page_step_parsed _ _ _ _ Hparse Hlast).
  destruct (Z.gtb_spec (Z.of_nat (1 + length init)) (Z.of_nat (1 + length init)));
    [lia|].
  rewrite seq_app, fmap_app. simpl.
  unfold page_values. rewrite fmap_app, concat_app. simpl.
  rewrite app_nil_r. reflexivity.
Qed.

Lemma paginate_falsy get pages fuel r parsed_response :
  more_pages_upstream parse_obj get 1 pages ->
  get (Z.of_nat (S (length pages))) = Responded r ->
  is_success r = true ->
  json_body r = Some parsed_response ->
  truthy parsed_response = false ->
  (length pages < fuel)%nat ->
  paginate parse_obj fuel get 1 []
  = (Z.of_nat <$> seq 1 (S (length pages)), Some (Return (BodyText (text r)))).
Proof.
  intros Hmore Hget Hok Hbody Hfalsy Hfuel.
  replace fuel with (length pages + S (fuel - length pages - 1))%nat by lia.
  change 1 with (Z.of_nat 1).
  rewrite (paginate_more_pages get pages 1 [] _ Hmore).
  cbn [paginate]. cbn [Nat.add]. rewrite Hget.
  rewrite (page_step_falsy _ _ _ Hok Hbody Hfalsy).
  rewrite seq_S, fmap_app. reflexivity.
Qed.

End Pagination.

(** C2. When the pages 1 .. k-1 each announce a [last_page] beyond their
    own number and page k announces [last_page = k], [get_sensor_readings]
    requests exactly the pages 1, 2, ..., k, returns the grouped mapping
    after a single call, and that mapping holds as many readings as all the
    per-page, per-channel reading lists together. *)
Theorem get_sensor_readings_fetches_every_page
    (parse_obj : json -> result ChannelReadingsResponse)
    (pages : list ChannelReadingsResponse)
    (token : nat -> result json) (get : nat -> Z -> Outcome)
    (attempts fuel : nat) (token_value : json) :
  pages <> [] ->
  token O = Return token_value ->
  paged_upstream parse_obj (get O) 1 pages ->
  (length pages <= fuel)%nat ->
  exists grouped,
    get_sensor_readings parse_obj attempts fuel token get
    = (Some (Return (Grouped grouped)), 1%nat)
    /\ pages_requested parse_obj fuel token get 1
       = Z.of_nat <$> seq 1 (length pages)
    /\ total_count grouped = sum_list (page_count <$> pages).
Proof.
  intros Hne Htoken Hup Hfuel.
  exists (group_by_timestamp (page_values pages)).
  pose proof (paginate_paged parse_obj (get O) pages fuel Hne Hup Hfuel) as Hrun.
  split; [|split].
  - unfold get_sensor_readings, stamina_retry.
    apply retry_from_returns.
    unfold get_sensor_readings_call. rewrite Htoken, Hrun. reflexivity.
  - unfold pages_requested. simpl.
    unfold get_sensor_readings_call. rewrite Htoken, Hrun. simpl.
    apply app_nil_r.
  - rewrite total_count_group_by_timestamp. apply sum_list_page_values.
Qed.

(** C10. When a page answers with an HTTP success whose decoded body is
    falsy, [get_sensor_readings] returns that page's body text at once,
    whatever the earlier pages held; and whenever it returns the grouped
    mapping, every page it requested had a truthy body. *)
Theorem get_sensor_readings_falsy_page_returns_text
    (parse_obj : json -> result ChannelReadingsResponse)
    (pages : list ChannelReadingsResponse)
    (token : nat -> result json) (get : nat -> Z -> Outcome)
    (attempts fuel : nat) (token_value : json)
    (r : Response) (parsed_response : json) :
  token O = Return token_value ->
  more_pages_upstream parse_obj (get O) 1 pages ->
  get O (Z.of_nat (S (length pages))) = Responded r ->
  is_success r = true ->
  json_body r = Some parsed_response ->
  truthy parsed_response = false ->
  (length pages < fuel)%nat ->
  get_sensor_readings parse_obj attempts fuel token get
  = (Some (Return (BodyText (text r))), 1%nat)
  /\ pages_requested parse_obj fuel token get 1
     = Z.of_nat <$> seq 1 (S (length pages))
  /\ (forall fuel' token' get' requested grouped,
        get_sensor_readings_call parse_obj fuel' token' get'
        = (requested, Some (Return (Grouped grouped))) ->
        forall page, page ∈ requested -> truthy_page (get' page)).
Proof.
  intros Htoken Hmore Hget Hok Hbody Hfalsy Hfuel.
  pose proof (paginate_falsy parse_obj (get O) pages fuel r parsed_response
                Hmore Hget Hok Hbody Hfalsy Hfuel) as Hrun.
  split; [|split].
  - unfold get_sensor_readings, stamina_retry.
    apply retry_from_returns.
    unfold get_sensor_readings_call. rewrite Htoken, Hrun. reflexivity.
  - unfold pages_requested.
    cbn [seq fmap list_fmap concat].
    unfold get_sensor_readings_call. rewrite Htoken, Hrun.
    cbn [fst]. apply app_nil_r.
  - intros fuel' token' get' requested grouped.
    unfold get_sensor_readings_call.
    destruct token' as [tok|e]; [|discriminate].
    apply paginate_truthy.
Qed.

(** ** [action_pull_observations] *)

Section PullObservations.

Context `{RT : Runtime}.
Variable clock : nat -> instant.

(** The handler builds the task configuration without the keyword
    [sensor_featured_properties], which the model declares as required:
    the constructor raises before [trigger_action] is reached. *)
Lemma dispatch_window_raises integration project station_info projects_units
    sensor sensors_triggered window w :
  dispatch_window integration project station_info projects_units sensor
    sensors_triggered window w
  = (Raise ValidationError, w).
Proof. reflexivity. Qed.

Lemma dispatch_windows integration project station_info projects_units
    sensor windows sensors_triggered w :
  for_each
    (dispatch_window integration project station_info projects_units sensor)
    windows sensors_triggered w
  = match windows with
    | [] => (Return sensors_triggered, w)
    | _ :: _ => (Raise ValidationError, w)
    end.
Proof. destruct windows; reflexivity. Qed.

(** One iteration of the sensor loop, case by case. *)
Lemma process_sensor_eq integration action_config now project station_info
    projects_units sensors_triggered sensor w :
  process_sensor clock integration action_config now project station_info
    projects_units sensors_triggered sensor w
  = let looked_up :=
      record sensor
        (get_state (Integration_id integration) "pull_observations"
           (Sensor_id sensor)) w in
    match start_date_of action_config now
            (store w !! watermark_key integration sensor) with
    | Raise e => (Raise e, looked_up)
    | Return start_date =>
        let ticked :=
          {| ticks := S (ticks w); store := store w; trace := trace looked_up |} in
        match generate_date_pairs start_date (clock (ticks w)) with
        | _ :: _ => (Raise ValidationError, ticked)
        | [] =>
            match latest_time_of sensor with
            | Raise e => (Raise e, ticked)
            | Return latest_time =>
                (Return sensors_triggered,
                 {| ticks := S (ticks w);
                    store := <[watermark_key integration sensor :=
                                 [("updated_at", JStr latest_time)]]> (store w);
                    trace := trace looked_up ++
                      [ {| Event_sensor := sensor;
                           Event_call :=
                             set_state (Integration_id integration)
                               "pull_observations" (Sensor_id sensor)
                               [("updated_at", JStr latest_time)] |} ] |})
            end
        end
    end.
Proof.
  unfold process_sensor, dispatch_and_save, watermark_key.
  unfold mbind, M_mbind, M_bind, state_manager_get_state, lift, datetime_now.
  cbn [fst snd record ticks store trace].
  destruct (start_date_of action_config now _) as [start_date|e]; [|reflexivity].
  rewrite dispatch_windows.
  destruct (generate_date_pairs start_date (clock (ticks w))); [|reflexivity].
  destruct (latest_time_of sensor); reflexivity.
Qed.

(** ** Loops and what they keep *)

Lemma for_each_cons {A S} (body : S -> A -> M S) x xs acc w :
  for_each body (x :: xs) acc w
  = match body acc x w with
    | (Return acc', w') => for_each body xs acc' w'
    | (Raise e, w') => (Raise e, w')
    end.
Proof. reflexivity. Qed.

Lemma for_each_preserves {A S} (P : World -> Prop) (body : S -> A -> M S) xs :
  (forall acc x w, x ∈ xs -> P w -> P (body acc x w).2) ->
  forall acc w, P w -> P (for_each body xs acc w).2.
Proof.
  induction xs as [|x xs IH]; intros Hbody acc w Hw.
  - exact Hw.
  - rewrite for_each_cons.
    pose proof (Hbody acc x w (list_elem_of_here _ _) Hw) as Hstep.
    destruct (body acc x w) as [[acc'|e] w']; simpl in Hstep.
    + apply IH; [|exact Hstep].
      intros acc0 x0 w0 Hin. apply Hbody. apply list_elem_of_further, Hin.
    + exact Hstep.
Qed.

(** The calls of one iteration are made for its sensor, and none of them
    is a dispatch. *)
Lemma process_sensor_trace integration action_config now project station_info
    projects_units sensors_triggered sensor w :
  exists events,
    trace (process_sensor clock integration action_config now project
             station_info projects_units sensors_triggered sensor w).2
    = trace w ++ events
    /\ Forall (fun e => Event_sensor e = sensor /\ call_made_for e
                        /\ is_trigger e = false) events.
Proof.
  rewrite process_sensor_eq. cbn zeta.
  destruct (start_date_of _ _ _) as [start_date|e].
  - destruct (generate_date_pairs _ _).
    + destruct (latest_time_of sensor).
      * eexists. cbn [snd trace record]. rewrite <- app_assoc. split; [reflexivity|].
        repeat constructor.
      * eexists. split; [reflexivity|]. repeat constructor.
    + eexists. split; [reflexivity|]. repeat constructor.
  - eexists. split; [reflexivity|]. repeat constructor.
Qed.

Lemma not_excluded_names sensor :
  not_excluded sensor = true <->
  Sensor_name sensor <> "Statistics"
  /\ Sensor_name sensor <> "Diagnostic Parameters".
Proof.
  unfold not_excluded. rewrite bool_decide_eq_true.
  rewrite !not_elem_of_cons. split.
  - intros (? & ? & _). auto.
  - intros (? & ?). repeat split; auto. apply not_elem_of_nil.
Qed.

(** What holds of every call made in the iteration of a kept sensor holds
    of every call of the action. *)
Lemma action_trace_forall (Q : Event -> Prop) integration action_config projects w :
  (forall e, not_excluded (Event_sensor e) = true -> call_made_for e ->
             is_trigger e = false -> Q e) ->
  Forall Q (trace w) ->
  Forall Q
    (trace (action_pull_observations clock integration action_config projects w).2).
Proof.
  intros HQ Hw. unfold action_pull_observations.
  unfold mbind, M_mbind, M_bind, lift.
  destruct projects as [[body|response]|e]; cbn [fst snd]; try exact Hw.
  - destruct body; exact Hw.
  - unfold datetime_now. cbn [fst snd].
    apply (for_each_preserves (fun w => Forall Q (trace w))); [|exact Hw].
    intros acc project w1 _ Hw1.
    apply (for_each_preserves (fun w => Forall Q (trace w))); [|exact Hw1].
    intros acc2 station w2 _ Hw2. unfold process_station.
    apply (for_each_preserves (fun w => Forall Q (trace w))); [|exact Hw2].
    intros acc3 sensor w3 Hin Hw3.
    apply list_elem_of_In, filter_In in Hin as [_ Hkept].
    destruct (process_sensor_trace integration action_config
                (clock (ticks w)) project
                {| station_name := Station_name station;
                   station_longitude := Station_longitude station;
                   station_latitude := Station_latitude station |}
                (ProjectResponse_units response) acc3 sensor w3)
      as (events & -> & Hevents).
    apply Forall_app. split; [exact Hw3|].
    eapply Forall_impl; [exact Hevents|].
    intros e (Heq & Hcall & Hnot). apply HQ; [rewrite Heq; exact Hkept | exact Hcall | exact Hnot].
Qed.

Lemma action_trace_kept integration action_config projects w :
  Forall made_for_kept_sensor (trace w) ->
  Forall made_for_kept_sensor
    (trace (action_pull_observations clock integration action_config projects w).2).
Proof.
  apply action_trace_forall. intros e Hkept Hcall _. split; assumption.
Qed.

(** Whatever the catalog, the store and the clock, the action never
    reaches [trigger_action]. *)
Lemma action_never_dispatches integration action_config projects stored :
  Forall (fun e => is_trigger e = false)
    (trace (action_pull_observations clock integration action_config projects
              (initial_world stored)).2).
Proof.
  apply action_trace_forall; [|constructor]. intros e _ _ Hnot. exact Hnot.
Qed.

End PullObservations.

Section PullObservationsStatements.

Context `{RT : Runtime}.
Variable clock : nat -> instant.

(** A week cut in windows of two days: four windows, as long as the
    clock has moved on by no more than a day in between. *)
Lemma seven_days_four_windows now stop :
  now <= stop <= now + timedelta_days 1 ->
  length (generate_date_pairs (now - timedelta_days 7) stop) = 4%nat.
Proof.
  intros Hstop.
  assert (Hrun : generate_date_pairs_fuel 5 (now - timedelta_days 7) stop
                   MAX_DAYS_PER_QUERY
                 = Some (generate_date_pairs (now - timedelta_days 7) stop)).
  { apply generate_date_pairs_terminates. unfold enough_fuel.
    assert ((stop - (now - timedelta_days 7))
              / timedelta_days MAX_DAYS_PER_QUERY <= 4).
    { apply Z.div_le_upper_bound; [reflexivity|].
      unfold timedelta_days, MAX_DAYS_PER_QUERY, microseconds_per_day in *. lia. }
    lia. }
  unfold timedelta_days, MAX_DAYS_PER_QUERY, microseconds_per_day in *.
  do 4 (rewrite generate_date_pairs_fuel_step in Hrun
          by (unfold timedelta_days, microseconds_per_day; lia)).
  rewrite generate_date_pairs_fuel_stop in Hrun
    by (unfold timedelta_days, microseconds_per_day; lia).
  cbn [fmap option_fmap option_map] in Hrun.
  injection Hrun as <-. reflexivity.
Qed.

Lemma start_date_of_falsy action_config now device_state :
  state_falsy device_state = true ->
  start_date_of action_config now device_state
  = Return (now - timedelta_days (default_lookback_days action_config)).
Proof. intros Hfalsy. unfold start_date_of. rewrite Hfalsy. reflexivity. Qed.

Lemma start_date_of_watermark action_config now state updated_at parsed :
  state <> [] ->
  dict_get state "updated_at" = Some (JStr updated_at) ->
  dateparser_parse updated_at = Some parsed ->
  start_date_of action_config now (Some state) = Return (wall parsed).
Proof.
  intros Hne Hget Hparse. unfold start_date_of.
  destruct state as [|entry state]; [contradiction|].
  change (state_falsy (Some (entry :: state))) with false.
  change (default [] (Some (entry :: state))) with (entry :: state).
  cbv iota. rewrite Hget, Hparse. reflexivity.
Qed.

Lemma PullObservationsConfig_init_bounds days featured action_config :
  PullObservationsConfig_init days featured = Return action_config ->
  1 <= default_lookback_days action_config <= 15
  /\ (days = None -> default_lookback_days action_config = 7)
  /\ (forall n, days = Some n -> default_lookback_days action_config = n).
Proof.
  unfold PullObservationsConfig_init. destruct days as [n|].
  - destruct (Z.leb_spec 1 n); simpl; [|discriminate].
    destruct (Z.leb_spec n 15); simpl; [|discriminate].
    intros [= <-]. simpl. repeat split; try lia; try discriminate.
    intros m [= ->]. reflexivity.
  - intros [= <-]. simpl. repeat split; try lia. discriminate.
Qed.

(** C1. With one project, one station and one sensor that is not
    excluded, no stored watermark and the default lookback of 7 days,
    the generator has four windows to offer, but the action raises
    [ValidationError] on building the task configuration for the first
    of them: [trigger_action] is never called and no watermark is
    written.  The only call made is the watermark lookup. *)
Theorem pull_observations_single_sensor_raises
    (integration : Integration) (project : Project) (station : Station)
    (the_sensor : Sensor) (projects_units : list Unit)
    (stored : gmap (string * string * string) (list (string * json)))
    (action_config : PullObservationsConfig) :
  PullObservationsConfig_init None None = Return action_config ->
  Project_stations project = [station] ->
  Station_sensors station = [the_sensor] ->
  not_excluded the_sensor = true ->
  stored !! watermark_key integration the_sensor = None ->
  clock 0 <= clock 1 <= clock 0 + timedelta_days 1 ->
  let run :=
    action_pull_observations clock integration action_config
      (Return (ProjectsParsed
                 {| ProjectResponse_projects := [project];
                    ProjectResponse_units := projects_units |}))
      (initial_world stored) in
  length (generate_date_pairs (clock 0 - timedelta_days 7) (clock 1)) = 4%nat
  /\ run.1 = Raise ValidationError
  /\ trace run.2
     = [ {| Event_sensor := the_sensor;
            Event_call := get_state (Integration_id integration)
                            "pull_observations" (Sensor_id the_sensor) |} ]
  /\ filter is_trigger (trace run.2) = []
  /\ filter is_set_state (trace run.2) = []
  /\ store run.2 = stored.
Proof.
  intros Hconfig Hstations Hsensors Hkept Hstored Hclock run.
  pose proof (seven_days_four_windows (clock 0) (clock 1) Hclock) as Hfour.
  split; [exact Hfour|].
  assert (Hdays : default_lookback_days action_config = 7).
  { injection Hconfig as <-. reflexivity. }
  assert (Hrun : run
    = (Raise ValidationError,
       {| ticks := 2; store := stored;
          trace := [ {| Event_sensor := the_sensor;
                        Event_call := get_state (Integration_id integration)
                          "pull_observations" (Sensor_id the_sensor) |} ] |})).
  { unfold run, action_pull_observations.
    unfold mbind, M_mbind, M_bind, lift, datetime_now, initial_world.
    cbn [fst snd ticks store trace ProjectResponse_projects ProjectResponse_units].
    rewrite for_each_cons, Hstations, for_each_cons.
    unfold process_station. rewrite Hsensors.
    cbn [List.filter]. rewrite Hkept. rewrite for_each_cons.
    rewrite process_sensor_eq. cbn zeta. cbn [ticks store trace record].
    rewrite Hstored, start_date_of_falsy by reflexivity.
    rewrite Hdays.
    destruct (generate_date_pairs (clock 0 - timedelta_days 7) (clock 1));
      [discriminate Hfour|].
    reflexivity. }
  rewrite Hrun. repeat split; reflexivity.
Qed.

(** C5. For a sensor whose range [[start_date, stop_date)] holds at least
    one window, the iteration raises [ValidationError] while dispatching
    and never reaches the watermark write: the store is left as it was.
    The write is reached only when there is no window to dispatch, and
    then it stores the first channel's [last_reading] with every
    [" (UTC)"] removed. *)
Theorem watermark_write_not_reached
    (integration : Integration) (action_config : PullObservationsConfig)
    (now : instant) (project : Project) (station_info : StationInfo)
    (projects_units : list Unit) (sensors_triggered : Z)
    (the_sensor : Sensor) (w : World) (start_date : instant) :
  start_date_of action_config now (store w !! watermark_key integration the_sensor)
  = Return start_date ->
  let run :=
    process_sensor clock integration action_config now project station_info
      projects_units sensors_triggered the_sensor w in
  (start_date < clock (ticks w) ->
   run.1 = Raise ValidationError
   /\ store run.2 = store w
   /\ trace run.2
      = trace w ++ [ {| Event_sensor := the_sensor;
                        Event_call := get_state (Integration_id integration)
                          "pull_observations" (Sensor_id the_sensor) |} ])
  /\ (forall channel channels last_reading,
        clock (ticks w) <= start_date ->
        Sensor_channels the_sensor = channel :: channels ->
        dict_get (Channel_channel_health channel) "last_reading"
        = Some (JStr last_reading) ->
        run.1 = Return sensors_triggered
        /\ store run.2
           = <[watermark_key integration the_sensor :=
                 [("updated_at", JStr (str_replace last_reading " (UTC)" ""))]]>
               (store w)).
Proof.
  intros Hstart run. unfold run. rewrite process_sensor_eq. cbn zeta.
  rewrite Hstart. split.
  - intros Hlt.
    destruct (generate_date_pairs_cons start_date (clock (ticks w)) Hlt)
      as (rest & ->).
    repeat split; reflexivity.
  - intros channel channels last_reading Hle Hchannels Hhealth.
    pose proof (generate_date_pairs_partition start_date (clock (ticks w))) as Hpart.
    destruct (generate_date_pairs start_date (clock (ticks w))) as [|[lo hi] rest].
    + unfold latest_time_of. rewrite Hchannels, Hhealth. split; reflexivity.
    + simpl in Hpart. lia.
Qed.

(** C8. Every call the action makes (watermark lookup, dispatch,
    watermark write) is made for a sensor that is named neither
    ["Statistics"] nor ["Diagnostic Parameters"], wherever the excluded
    sensors stand in their station's list; and the filter drops a sensor
    only when its name is exactly one of the two, so that names differing
    in case or spacing are kept. *)
Theorem excluded_sensors_get_no_call
    (integration : Integration) (action_config : PullObservationsConfig)
    (projects : result ProjectsReturn)
    (stored : gmap (string * string * string) (list (string * json))) :
  Forall
    (fun e =>
       Sensor_name (Event_sensor e) <> "Statistics"
       /\ Sensor_name (Event_sensor e) <> "Diagnostic Parameters"
       /\ call_made_for e)
    (trace (action_pull_observations clock integration action_config projects
              (initial_world stored)).2)
  /\ (forall sensor,
        not_excluded sensor = false <->
        Sensor_name sensor = "Statistics"
        \/ Sensor_name sensor = "Diagnostic Parameters")
  /\ Forall
       (fun name =>
          forall id channels,
            not_excluded {| Sensor_id := id; Sensor_name := name;
                            Sensor_channels := channels |} = true)
       [ "statistics"; "STATISTICS"; "Statistics "; " Statistics";
         "diagnostic parameters"; "Diagnostic  Parameters";
         "DiagnosticParameters" ].
Proof.
  split; [|split].
  - eapply Forall_impl.
    + apply action_trace_kept. constructor.
    + intros e [Hkept Hcall]. apply not_excluded_names in Hkept as [? ?].
      auto.
  - intros sensor. rewrite <- not_true_iff_false, not_excluded_names.
    destruct (decide (Sensor_name sensor = "Statistics"));
      destruct (decide (Sensor_name sensor = "Diagnostic Parameters"));
      intuition congruence.
  - repeat constructor.
Qed.

(** C4 (amended). The state looked up for a sensor is the one stored
    under (integration, "pull_observations", sensor.id), and the start it
    yields is the lower end of the range handed to the window generator.
    With no stored watermark (a missing or empty state) the window start
    is the action's [now] minus the configured lookback, which is 7 days
    by default and validated to lie in [[1, 15]].  With a stored watermark
    whose [updated_at] text [dateparser] parses, the window start has the
    wall-clock fields of the parsed value, stamped UTC without conversion:
    the instant is kept when the parsed value carries no zone (and is read
    as UTC) or a zero offset, and is moved by the offset otherwise. *)
Theorem start_date_lookback_or_watermark
    (action_config : PullObservationsConfig) (now : instant)
    (device_state : option (list (string * json))) :
  (forall integration project station_info projects_units sensors_triggered
          the_sensor w,
      process_sensor clock integration action_config now project station_info
        projects_units sensors_triggered the_sensor w
      = (start_date ←
           lift (start_date_of action_config now
                   (store w !! (Integration_id integration, "pull_observations",
                                Sensor_id the_sensor)));
         dispatch_and_save clock integration project station_info projects_units
           sensors_triggered the_sensor start_date)
          (record the_sensor
             (get_state (Integration_id integration) "pull_observations"
                (Sensor_id the_sensor)) w))
  /\ (state_falsy device_state = true ->
      start_date_of action_config now device_state
      = Return (now - timedelta_days (default_lookback_days action_config)))
  /\ (forall days featured config,
        PullObservationsConfig_init days featured = Return config ->
        1 <= default_lookback_days config <= 15
        /\ (days = None -> default_lookback_days config = 7)
        /\ (forall n, days = Some n -> default_lookback_days config = n))
  /\ (forall state updated_at parsed,
        device_state = Some state ->
        state <> [] ->
        dict_get state "updated_at" = Some (JStr updated_at) ->
        dateparser_parse updated_at = Some parsed ->
        start_date_of action_config now device_state = Return (wall parsed)
        /\ (tzinfo parsed = None \/ tzinfo parsed = Some 0 ->
            instant_assuming_utc parsed = wall parsed)
        /\ (forall offset, tzinfo parsed = Some offset ->
              instant_assuming_utc parsed = wall parsed - offset)).
Proof.
  split; [|split; [|split]].
  - reflexivity.
  - apply start_date_of_falsy.
  - apply PullObservationsConfig_init_bounds.
  - intros state updated_at parsed -> Hne Hget Hparse.
    split; [eapply start_date_of_watermark; eassumption|].
    unfold instant_assuming_utc. split.
    + intros [->| ->]; lia.
    + intros offset ->. reflexivity.
Qed.

End PullObservationsStatements.


(** ** [transform] *)

Section DictKeys.
Context {K V : Type} `{EqDecision K}.

Lemma dict_keys_nil : dict_keys (@nil (K * V)) = [].
Proof. reflexivity. Qed.

Lemma dict_keys_cons k v (d : list (K * V)) :
  dict_keys ((k, v) :: d) = k :: dict_keys d.
Proof. reflexivity. Qed.

Lemma elem_of_dict_keys_set (d : list (K * V)) k v key :
  key ∈ dict_keys (dict_set d k v) <-> key = k \/ key ∈ dict_keys d.
Proof.
  unfold dict_keys. induction d as [|[k' v'] d IH]; simpl.
  - rewrite list_elem_of_singleton. rewrite elem_of_nil. tauto.
  - destruct (decide (k = k')) as [->|Hne]; simpl.
    + rewrite !elem_of_cons. tauto.
    + rewrite !elem_of_cons, IH. tauto.
Qed.

Lemma NoDup_dict_keys_set (d : list (K * V)) k v :
  NoDup (dict_keys d) -> NoDup (dict_keys (dict_set d k v)).
Proof.
  unfold dict_keys. induction d as [|[k' v'] d IH]; simpl; intros Hnd.
  - apply NoDup_singleton.
  - apply NoDup_cons in Hnd as [Hnotin Hnd].
    destruct (decide (k = k')) as [->|Hne]; simpl.
    + apply NoDup_cons. split; assumption.
    + apply NoDup_cons. split; [|apply IH, Hnd].
      intros Hin. apply elem_of_dict_keys_set in Hin as [Heq|Hin]; auto.
Qed.

Lemma elem_of_dict_keys_update (other d : list (K * V)) key :
  key ∈ dict_keys (dict_update d other)
  <-> key ∈ dict_keys d \/ key ∈ dict_keys other.
Proof.
  unfold dict_update. revert d.
  induction other as [|[k v] other IH]; intros d; cbn [fold_left fst snd].
  - rewrite dict_keys_nil, elem_of_nil. tauto.
  - rewrite IH, elem_of_dict_keys_set, dict_keys_cons, elem_of_cons. tauto.
Qed.

Lemma NoDup_dict_keys_update (other d : list (K * V)) :
  NoDup (dict_keys d) -> NoDup (dict_keys (dict_update d other)).
Proof.
  unfold dict_update. revert d.
  induction other as [|[k v] other IH]; intros d Hnd; simpl.
  - exact Hnd.
  - apply IH, NoDup_dict_keys_set, Hnd.
Qed.

End DictKeys.

Section StringSuffix.

Lemma string_length_app (a b : string) :
  String.length (a +:+ b) = (String.length a + String.length b)%nat.
Proof. induction a as [|c a IH]; simpl; [reflexivity|]. rewrite IH. reflexivity. Qed.

Lemma string_app_inj_r (suffix a b : string) :
  a +:+ suffix = b +:+ suffix -> a = b.
Proof.
  revert b. induction a as [|c a IH]; intros [|c' b] Heq.
  - reflexivity.
  - apply (f_equal String.length) in Heq.
    rewrite !string_length_app in Heq. simpl in Heq. lia.
  - apply (f_equal String.length) in Heq.
    rewrite !string_length_app in Heq. simpl in Heq. lia.
  - simpl in Heq. injection Heq as -> Heq. f_equal. apply IH, Heq.
Qed.

Lemma health_key_inj : Inj (=) (=) (fun name => name +:+ " Health").
Proof. intros a b. apply string_app_inj_r. Qed.

(** The keys that a list of channel names gives rise to. *)
Lemma health_keys_count (names keys : list string) :
  NoDup keys ->
  (forall key, key ∈ keys <->
     exists name, name ∈ names /\ (key = name \/ key = name +:+ " Health")) ->
  (length keys <= 2 * length (remove_dups names))%nat
  /\ (health_keys_apart names ->
      length keys = (2 * length (remove_dups names))%nat).
Proof.
  intros Hnd Hkeys.
  set (distinct := remove_dups names).
  set (both := distinct ++ ((fun name => name +:+ " Health") <$> distinct)).
  assert (Hsame : forall key, key ∈ keys <-> key ∈ both).
  { intros key. rewrite Hkeys. unfold both.
    rewrite elem_of_app, list_elem_of_fmap. split.
    - intros (name & Hin & [->| ->]).
      + left. apply elem_of_remove_dups, Hin.
      + right. exists name. split; [reflexivity|]. apply elem_of_remove_dups, Hin.
    - intros [Hin|(name & -> & Hin)].
      + exists key. split; [apply elem_of_remove_dups, Hin|]. auto.
      + exists name. split; [apply elem_of_remove_dups, Hin|]. auto. }
  assert (Hlen : length both = (2 * length distinct)%nat).
  { unfold both. rewrite length_app, length_fmap. lia. }
  split.
  - rewrite <- Hlen. apply submseteq_length, NoDup_submseteq; [exact Hnd|].
    intros key. apply Hsame.
  - intros Hapart. rewrite <- Hlen.
    apply Permutation_length, NoDup_Permutation; [exact Hnd| |exact Hsame].
    unfold both. apply NoDup_app. split; [apply NoDup_remove_dups|]. split.
    + intros key Hin Hin'.
      apply list_elem_of_fmap in Hin' as (name & -> & Hname).
      unfold distinct in Hin, Hname.
      rewrite elem_of_remove_dups in Hin, Hname.
      exact (Hapart _ _ Hin Hname eq_refl).
    + apply (@NoDup_fmap_2 _ _ _ health_key_inj), NoDup_remove_dups.
Qed.

End StringSuffix.

Section Transform.

Context `{RT : Runtime}.

Lemma find_channel_None channels channel_id :
  find_channel channels channel_id = None
  <-> channel_id ∉ (Channel_id <$> channels).
Proof.
  unfold find_channel. induction channels as [|c channels IH]; cbn [List.find].
  - split; [intros _; apply not_elem_of_nil | reflexivity].
  - rewrite fmap_cons, not_elem_of_cons.
    destruct (decide (Channel_id c = channel_id)) as [Heq|Hne].
    + rewrite bool_decide_eq_true_2 by exact Heq.
      split; [discriminate | intros [Hne _]; congruence].
    + rewrite bool_decide_eq_false_2 by exact Hne.
      rewrite IH. split; [intros ?; split; congruence | intros [_ ?]; assumption].
Qed.

Lemma reading_additional_unknown the_sensor station_units reading :
  ChannelReading_channel_id reading ∉ channel_ids the_sensor ->
  reading_additional the_sensor station_units reading = Raise TypeError.
Proof.
  intros Hunknown. apply find_channel_None in Hunknown.
  unfold reading_additional. rewrite Hunknown. reflexivity.
Qed.

Lemma reading_additional_known the_sensor projects_units reading :
  ChannelReading_channel_id reading ∈ channel_ids the_sensor ->
  exists channel_info one,
    find_channel (Sensor_channels the_sensor)
      (ChannelReading_channel_id reading) = Some channel_info
    /\ reading_additional the_sensor (Some projects_units) reading = Return one
    /\ forall key, key ∈ dict_keys one <->
         key = Channel_name channel_info
         \/ key = Channel_name channel_info +:+ " Health".
Proof.
  intros Hknown. unfold reading_additional.
  destruct (find_channel (Sensor_channels the_sensor)
              (ChannelReading_channel_id reading)) as [channel_info|] eqn:Hfind.
  - eexists _, _. split; [reflexivity|]. split; [reflexivity|].
    intros key. rewrite !elem_of_dict_keys_set, dict_keys_nil, elem_of_nil. tauto.
  - apply find_channel_None in Hfind. contradiction.
Qed.

Lemma readings_loop_unknown the_sensor projects_units readings :
  forall readings_additional,
    Exists (fun reading =>
              ChannelReading_channel_id reading ∉ channel_ids the_sensor) readings ->
    readings_loop the_sensor (Some projects_units) readings readings_additional
    = Raise TypeError.
Proof.
  induction readings as [|reading readings IH]; intros acc Hex.
  - inversion Hex.
  - cbn [readings_loop].
    destruct (decide (ChannelReading_channel_id reading ∈ channel_ids the_sensor))
      as [Hknown|Hunknown].
    + destruct (reading_additional_known the_sensor projects_units reading Hknown)
        as (channel_info & one & _ & -> & _).
      simpl. apply IH.
      apply Exists_cons in Hex as [Hhere|Hlater]; [contradiction|exact Hlater].
    + rewrite (reading_additional_unknown _ _ _ Hunknown). reflexivity.
Qed.

Lemma readings_loop_known the_sensor projects_units readings :
  forall readings_additional,
    Forall (fun reading =>
              ChannelReading_channel_id reading ∈ channel_ids the_sensor) readings ->
    NoDup (dict_keys readings_additional) ->
    exists out,
      readings_loop the_sensor (Some projects_units) readings readings_additional
      = Return out
      /\ NoDup (dict_keys out)
      /\ forall key, key ∈ dict_keys out <->
           key ∈ dict_keys readings_additional
           \/ exists name, name ∈ channel_names the_sensor readings
                /\ (key = name \/ key = name +:+ " Health").
Proof.
  induction readings as [|reading readings IH]; intros acc Hall Hnd.
  - exists acc. split; [reflexivity|]. split; [exact Hnd|].
    intros key. split; [auto|].
    intros [Hin|(name & Hin & _)]; [exact Hin|].
    unfold channel_names in Hin. simpl in Hin. apply elem_of_nil in Hin as [].
  - apply Forall_cons in Hall as [Hknown Hall].
    destruct (reading_additional_known the_sensor projects_units reading Hknown)
      as (channel_info & one & Hfind & Hone & Hkeys).
    cbn [readings_loop]. rewrite Hone. simpl.
    destruct (IH (dict_update acc one) Hall (NoDup_dict_keys_update _ _ Hnd))
      as (out & -> & Hout & Hmem).
    exists out. split; [reflexivity|]. split; [exact Hout|].
    intros key. rewrite Hmem, elem_of_dict_keys_update, Hkeys.
    unfold channel_names. cbn [omap list_omap]. rewrite Hfind. simpl.
    fold (channel_names the_sensor readings).
    split.
    + intros [[Hin|Hhere]|(name & Hin & Hkey)].
      * left. exact Hin.
      * right. exists (Channel_name channel_info). split; [left|exact Hhere].
      * right. exists name. split; [right; exact Hin|exact Hkey].
    + intros [Hin|(name & Hin & Hkey)]; [left; left; exact Hin|].
      apply elem_of_cons in Hin as [->|Hin].
      * left. right. exact Hkey.
      * right. exists name. split; assumption.
Qed.

(** C9 (amended). [transform] raises [TypeError] when some reading's
    [channel_id] matches no channel of the sensor snapshot.  When every
    reading's [channel_id] matches one, it returns an observation whose
    [additional] map has as keys the channel names the readings resolve
    to and those names followed by [" Health"], and nothing else; that is
    two entries per distinct channel name when no such name is another
    one followed by [" Health"], and fewer otherwise, the colliding keys
    sharing one entry. *)
Theorem transform_additional_entries
    (station_sensor : PullSensorObservationsPerStationConfig)
    (the_sensor : Sensor) (projects_units : list Unit)
    (timestamp : instant) (readings : list ChannelReading) :
  sensor station_sensor = Some the_sensor ->
  units station_sensor = Some projects_units ->
  (Exists (fun reading =>
             ChannelReading_channel_id reading ∉ channel_ids the_sensor) readings ->
   transform station_sensor timestamp readings = Raise TypeError)
  /\ (Forall (fun reading =>
                ChannelReading_channel_id reading ∈ channel_ids the_sensor) readings ->
      exists observation,
        transform station_sensor timestamp readings = Return observation
        /\ NoDup (dict_keys (additional observation))
        /\ (forall key, key ∈ dict_keys (additional observation) <->
              exists name, name ∈ channel_names the_sensor readings
                /\ (key = name \/ key = name +:+ " Health"))
        /\ (length (additional observation)
            <= 2 * length (remove_dups (channel_names the_sensor readings)))%nat
        /\ (health_keys_apart (channel_names the_sensor readings) ->
            length (additional observation)
            = (2 * length (remove_dups (channel_names the_sensor readings)))%nat)).
Proof.
  intros Hsensor Hunits. unfold transform. rewrite Hsensor, Hunits. split.
  - intros Hex. rewrite (readings_loop_unknown _ _ _ _ Hex). reflexivity.
  - intros Hall.
    destruct (readings_loop_known the_sensor projects_units readings [] Hall)
      as (out & -> & Hnd & Hmem); [apply NoDup_nil_2|].
    eexists. split; [reflexivity|]. cbn [additional].
    assert (Hkeys : forall key, key ∈ dict_keys out <->
              exists name, name ∈ channel_names the_sensor readings
                /\ (key = name \/ key = name +:+ " Health")).
    { intros key. rewrite Hmem, dict_keys_nil, elem_of_nil. tauto. }
    split; [exact Hnd|]. split; [exact Hkeys|].
    replace (length out) with (length (dict_keys out))
      by (unfold dict_keys; apply length_fmap).
    apply health_keys_count; assumption.
Qed.

End Transform.

(** ** Instances *)

Lemma pull_observations_single_sensor_raises_witness :
  length (generate_date_pairs (Examples.example_clock 0 - timedelta_days 7)
            (Examples.example_clock 1)) = 4%nat
  /\ (action_pull_observations (RT := Examples.example_runtime)
        Examples.example_clock Examples.integration Examples.default_config
        (Return (ProjectsParsed (Examples.catalog_of [Examples.air "Air"])))
        (initial_world ∅)).1
     = Raise ValidationError
  /\ trace
       (action_pull_observations (RT := Examples.example_runtime)
          Examples.example_clock Examples.integration Examples.default_config
          (Return (ProjectsParsed (Examples.catalog_of [Examples.air "Air"])))
          (initial_world ∅)).2
     = [ {| Event_sensor := Examples.air "Air";
            Event_call := get_state "int1" "pull_observations" "s-Air" |} ].
Proof.
  destruct (pull_observations_single_sensor_raises (RT := Examples.example_runtime)
              Examples.example_clock Examples.integration
              (Examples.project_of [Examples.air "Air"])
              (Examples.station_of [Examples.air "Air"])
              (Examples.air "Air") [Examples.celsius] ∅ Examples.default_config)
    as (Hfour & Hraise & Htrace & _).
  - reflexivity.
  - reflexivity.
  - reflexivity.
  - reflexivity.
  - reflexivity.
  - vm_compute. split; discriminate.
  - split; [exact Hfour|]. split; [exact Hraise | exact Htrace].
Defined.

Lemma get_sensor_readings_fetches_every_page_witness :
  exists grouped,
    get_sensor_readings Examples.example_parse_obj 5 5
      (fun _ => Return (JStr "abc123")) (fun _ => Examples.two_pages)
    = (Some (Return (Grouped grouped)), 1%nat)
    /\ pages_requested Examples.example_parse_obj 5
         (fun _ => Return (JStr "abc123")) (fun _ => Examples.two_pages) 1
       = Z.of_nat <$> seq 1 2
    /\ total_count grouped
       = sum_list (page_count <$>
                     [Examples.first_page_parsed; Examples.second_page_parsed]).
Proof.
  apply (get_sensor_readings_fetches_every_page Examples.example_parse_obj
           [Examples.first_page_parsed; Examples.second_page_parsed]
           (fun _ => Return (JStr "abc123")) (fun _ => Examples.two_pages)
           5 5 (JStr "abc123")).
  - discriminate.
  - reflexivity.
  - intros [|[|i]] rs; simpl; intros Hrs; [| |discriminate];
      injection Hrs as <-.
    + split.
      * eexists _, _. repeat split; reflexivity.
      * exists 2. split; [reflexivity|]. simpl. split; intros; lia.
    + split.
      * eexists _, _. repeat split; reflexivity.
      * exists 2. split; [reflexivity|]. simpl. split; intros; lia.
  - simpl. lia.
Defined.

Lemma get_sensor_readings_falsy_page_returns_text_witness :
  get_sensor_readings Examples.example_parse_obj 5 5
    (fun _ => Return (JStr "abc123")) (fun _ => Examples.empty_second_page)
  = (Some (Return (BodyText "{}")), 1%nat)
  /\ pages_requested Examples.example_parse_obj 5
       (fun _ => Return (JStr "abc123")) (fun _ => Examples.empty_second_page) 1
     = Z.of_nat <$> seq 1 2.
Proof.
  destruct (get_sensor_readings_falsy_page_returns_text Examples.example_parse_obj
              [Examples.first_page_parsed]
              (fun _ => Return (JStr "abc123")) (fun _ => Examples.empty_second_page)
              5 5 (JStr "abc123")
              {| status_code := 200; text := "{}"; json_body := Some (JObj []) |}
              (JObj []))
    as (Hreturn & Hpages & _).
  - reflexivity.
  - intros [|i] rs; simpl; intros Hrs; [|discriminate]. injection Hrs as <-.
    split.
    + eexists _, _. repeat split; reflexivity.
    + exists 2. split; [reflexivity|]. simpl. lia.
  - reflexivity.
  - reflexivity.
  - reflexivity.
  - reflexivity.
  - simpl. lia.
  - split; [exact Hreturn | exact Hpages].
Defined.

Lemma get_token_error_classification_witness :
  get_token 5 (fun _ => Responded (Examples.status_response 400))
  = (Some (Raise (StevensConnectBadRequestException 400)), 1%nat)
  /\ get_token 5 (fun _ => Responded (Examples.status_response 404))
     = (Some (Raise (StevensConnectNotFoundException 404)), 1%nat)
  /\ get_token (stamina_calls_allowed MoreExamples.quick_timing)
       (fun _ => Responded (Examples.status_response 503))
     = (Some (Raise (HTTPStatusError 503)), 5%nat)
  /\ get_token (stamina_calls_allowed MoreExamples.slow_timing)
       (fun _ => Responded (Examples.status_response 503))
     = (Some (Raise (HTTPStatusError 503)), 2%nat).
Proof.
  destruct (get_token_error_classification 5 MoreExamples.quick_timing
              (fun _ => Responded (Examples.status_response 400)))
    as (_ & Hbad_request & _ & _).
  destruct (get_token_error_classification 5 MoreExamples.quick_timing
              (fun _ => Responded (Examples.status_response 404)))
    as (_ & _ & Hnot_found & _).
  destruct (get_token_error_classification 5 MoreExamples.quick_timing
              (fun _ => Responded (Examples.status_response 503)))
    as (_ & _ & _ & Hquick).
  destruct (get_token_error_classification 5 MoreExamples.slow_timing
              (fun _ => Responded (Examples.status_response 503)))
    as (_ & _ & _ & Hslow).
  split; [apply Hbad_request; reflexivity|].
  split; [apply Hnot_found; reflexivity|].
  split.
  - destruct (Hquick 503) as [_ Hall]; [lia | lia |].
    destruct Hall as (Hrun & _ & _).
    + intros i. reflexivity.
    + apply quick_timing_ok.
    + exact Hrun.
  - destruct (Hslow 503) as [_ Hall]; [lia | lia |].
    destruct Hall as (Hrun & _ & _).
    + intros i. reflexivity.
    + apply slow_timing_ok.
    + exact Hrun.
Defined.

Lemma get_token_success_value_witness :
  get_token_call (Responded Examples.token_response) = Return (JStr "abc123")
  /\ get_token 5 (fun _ => Responded Examples.token_response)
     = (Some (Return (JStr "abc123")), 1%nat)
  /\ get_token_call
       (Responded {| status_code := 200; text := "{}"; json_body := Some (JObj []) |})
     = Return (JStr "{}").
Proof.
  destruct (get_token_success_value Examples.token_response
              (JObj [("data", JObj [("token", JStr "abc123")])])
              eq_refl eq_refl)
    as (_ & Henvelope & Hdecorated).
  destruct (Henvelope _ _ eq_refl eq_refl) as [_ Hcall].
  destruct (get_token_success_value
              {| status_code := 200; text := "{}"; json_body := Some (JObj []) |}
              (JObj []) eq_refl eq_refl)
    as (Hfalsy & _ & _).
  split; [exact Hcall|]. split.
  - apply Hdecorated; [reflexivity | exact Hcall].
  - apply Hfalsy. reflexivity.
Defined.

Lemma watermark_write_not_reached_witness :
  (process_sensor (RT := Examples.example_runtime) Examples.example_clock
     Examples.integration Examples.default_config (Examples.example_clock 0)
     (Examples.project_of [Examples.air "Air"])
     {| station_name := "Ridge"; station_longitude := Examples.f21_5;
        station_latitude := Examples.f21_5 |}
     [Examples.celsius] 0 (Examples.air "Air") Examples.fresh_world).1
  = Raise ValidationError
  /\ store
       (process_sensor (RT := Examples.example_runtime) Examples.example_clock
          Examples.integration Examples.default_config (Examples.example_clock 0)
          (Examples.project_of [Examples.air "Air"])
          {| station_name := "Ridge"; station_longitude := Examples.f21_5;
             station_latitude := Examples.f21_5 |}
          [Examples.celsius] 0 (Examples.air "Air") Examples.fresh_world).2
     = ∅.
Proof.
  destruct (watermark_write_not_reached (RT := Examples.example_runtime)
              Examples.example_clock
              Examples.integration Examples.default_config (Examples.example_clock 0)
              (Examples.project_of [Examples.air "Air"])
              {| station_name := "Ridge"; station_longitude := Examples.f21_5;
                 station_latitude := Examples.f21_5 |}
              [Examples.celsius] 0 (Examples.air "Air") Examples.fresh_world
              (Examples.example_clock 0 - timedelta_days 7) eq_refl)
    as [Hraise _].
  destruct Hraise as (Hresult & Hstore & _); [reflexivity|].
  split; [exact Hresult | exact Hstore].
Defined.

Lemma start_date_lookback_or_watermark_witness :
  start_date_of (RT := Examples.example_runtime) Examples.default_config
    (utc 2024 6 1 12 0 0) None
  = Return (utc 2024 5 25 12 0 0)
  /\ start_date_of (RT := Examples.example_runtime) Examples.default_config
       (utc 2024 6 1 12 0 0) (Some [("updated_at", JStr "2024-01-01 00:00:00")])
     = Return (utc 2024 1 1 0 0 0)
  /\ instant_assuming_utc {| wall := utc 2024 1 1 0 0 0; tzinfo := None |}
     = utc 2024 1 1 0 0 0.
Proof.
  destruct (start_date_lookback_or_watermark (RT := Examples.example_runtime)
              Examples.example_clock
              Examples.default_config (utc 2024 6 1 12 0 0) None)
    as (_ & Habsent & _ & _).
  destruct (start_date_lookback_or_watermark (RT := Examples.example_runtime)
              Examples.example_clock
              Examples.default_config (utc 2024 6 1 12 0 0)
              (Some [("updated_at", JStr "2024-01-01 00:00:00")]))
    as (_ & _ & _ & Hpresent).
  destruct (Hpresent [("updated_at", JStr "2024-01-01 00:00:00")]
              "2024-01-01 00:00:00"
              {| wall := utc 2024 1 1 0 0 0; tzinfo := None |})
    as (Hstart & Hsame & _);
    [reflexivity | discriminate | reflexivity | reflexivity |].
  split; [apply Habsent; reflexivity|].
  split; [exact Hstart|].
  apply Hsame. left. reflexivity.
Defined.

(** A station whose list holds an excluded sensor before and after a
    sensor named in lower case: the only call made is the lookup for the
    latter. *)
Example excluded_sensors_skipped_at_any_position :
  trace
    (action_pull_observations (RT := Examples.example_runtime)
       Examples.example_clock Examples.integration Examples.default_config
       (Return (ProjectsParsed
                  (Examples.catalog_of
                     [ Examples.air "Statistics"; Examples.air "statistics";
                       Examples.air "Diagnostic Parameters" ])))
       (initial_world ∅)).2
  = [ {| Event_sensor := Examples.air "statistics";
         Event_call := get_state "int1" "pull_observations" "s-statistics" |} ].
Proof. vm_compute. reflexivity. Qed.

(** C4, as stated, fails: a stored [updated_at] that carries the offset
    +02:00 denotes 2023-12-31T22:00:00Z, yet the window starts at
    2024-01-01T00:00:00Z. *)
Lemma watermark_with_offset_moves_start :
  dateparser_parse (Runtime := Examples.example_runtime) "2024-01-01 00:00:00+02:00"
  = Some {| wall := utc 2024 1 1 0 0 0; tzinfo := Some (timedelta_hours 2) |}
  /\ aware_instant {| wall := utc 2024 1 1 0 0 0; tzinfo := Some (timedelta_hours 2) |}
     = Some (utc 2023 12 31 22 0 0)
  /\ start_date_of (RT := Examples.example_runtime) Examples.default_config
       (utc 2024 6 1 12 0 0)
       (Some [("updated_at", JStr "2024-01-01 00:00:00+02:00")])
     = Return (utc 2024 1 1 0 0 0)
  /\ utc 2024 1 1 0 0 0 <> utc 2023 12 31 22 0 0.
Proof. repeat split; try reflexivity. discriminate. Qed.

Lemma transform_additional_entries_witness :
  exists observation,
    transform (RT := Examples.example_runtime)
      (Examples.task_for Examples.two_channel_sensor) (utc 2024 6 1 11 45 0)
      [Examples.reading_of "c1"; Examples.reading_of "c1"]
    = Return observation
    /\ length (additional observation) = 2%nat.
Proof.
  destruct (transform_additional_entries (RT := Examples.example_runtime)
              (Examples.task_for Examples.two_channel_sensor)
              Examples.two_channel_sensor [Examples.celsius]
              (utc 2024 6 1 11 45 0)
              [Examples.reading_of "c1"; Examples.reading_of "c1"]
              eq_refl eq_refl) as [_ Hknown].
  destruct Hknown as (observation & Hreturn & _ & _ & _ & Hcount).
  - repeat constructor.
  - exists observation. split; [exact Hreturn|].
    rewrite Hcount; [reflexivity|].
    intros n1 n2 Hn1 Hn2.
    vm_compute in Hn1, Hn2.
    repeat (apply elem_of_cons in Hn1 as [->|Hn1]);
      try (apply elem_of_nil in Hn1 as []);
      repeat (apply elem_of_cons in Hn2 as [->|Hn2]);
      try (apply elem_of_nil in Hn2 as []); discriminate.
Defined.

(** C9, as stated, fails: with the channels named ["Temp"] and
    ["Temp Health"] both read, two distinct channel names yield three
    entries, the key ["Temp Health"] being shared (and holding the second
    channel's value in place of the first one's health). *)
Lemma transform_health_key_collision :
  Forall (fun reading =>
            ChannelReading_channel_id reading
            ∈ channel_ids Examples.two_channel_sensor)
    [Examples.reading_of "c1"; Examples.reading_of "c2"]
  /\ remove_dups (channel_names Examples.two_channel_sensor
                    [Examples.reading_of "c1"; Examples.reading_of "c2"])
     = ["Temp"; "Temp Health"]
  /\ additional <$>
       (transform (RT := Examples.example_runtime)
          (Examples.task_for Examples.two_channel_sensor) (utc 2024 6 1 11 45 0)
          [Examples.reading_of "c1"; Examples.reading_of "c2"])
     = Return [ ("Temp", "21.5 degC"); ("Temp Health", "21.5 ");
                ("Temp Health Health", "75%") ].
Proof.
  split; [|split].
  - repeat constructor.
  - vm_compute. reflexivity.
  - vm_compute. reflexivity.
Qed.

(* ===================================================================== *)
(** * Further properties                                                 *)
(* ===================================================================== *)

Import Catalog Auth PerStation Notions.

(** ** Date windows, again *)

Section MoreDateWindows.

(** With [interval] days per window, for any positive [interval]. *)
Lemma generate_date_pairs_fuel_interval interval fuel : forall lower upper,
  0 < interval ->
  upper - lower <= Z.of_nat fuel * timedelta_days interval ->
  exists ws,
    generate_date_pairs_fuel fuel lower upper interval = Some ws
    /\ backward_partition (timedelta_days interval) lower upper ws.
Proof.
  intros lower upper Hpos.
  assert (Hw : 0 < timedelta_days interval)
    by (unfold timedelta_days, microseconds_per_day; lia).
  revert upper. induction fuel as [|fuel IH]; intros upper Hfuel.
  - exists []. rewrite generate_date_pairs_fuel_stop by lia.
    split; [reflexivity | simpl; lia].
  - destruct (Z.lt_ge_cases lower upper) as [Hlt|Hge].
    + rewrite generate_date_pairs_fuel_step by exact Hlt.
      destruct (IH (upper - timedelta_days interval)) as (rest & Hrest & Hpart);
        [lia|].
      rewrite Hrest. eexists. split; [reflexivity|].
      simpl. repeat split; try lia.
      destruct (Z.le_gt_cases lower (upper - timedelta_days interval)) as [Hin|Hout].
      * rewrite Z.max_r by lia. exact Hpart.
      * rewrite Z.max_l by lia.
        rewrite generate_date_pairs_fuel_stop in Hrest by lia.
        injection Hrest as <-. simpl. lia.
    + exists []. rewrite generate_date_pairs_fuel_stop by lia.
      split; [reflexivity | simpl; lia].
Qed.

End MoreDateWindows.

(** X1. For an upper end that is a [datetime], [generate_date_pairs]
    ends, and the subtraction for the oldest of the
    ceil((upper - lower) / 2 days) windows of the range decides how: when
    it stays within [datetime]'s range the generator yields all of them,
    every one but the oldest exactly two days wide and the oldest
    beginning at [lower]; when it does not, the generator raises
    [OverflowError] after the floor((upper - datetime.min) / 2 days)
    windows that fit, each two days wide and none reaching [lower]. *)
Theorem generate_date_pairs_count_and_widths (lower upper : instant) (fuel : nat) :
  datetime_min <= upper <= datetime_max ->
  upper - lower <= Z.of_nat fuel * timedelta_days 2 ->
  let n := Z.max 0 ((upper - lower + timedelta_days 2 - 1) / timedelta_days 2) in
  exists ws ending,
    generate_date_pairs_checked fuel lower upper MAX_DAYS_PER_QUERY
    = Some (ws, ending)
    /\ (datetime_min <= upper - n * timedelta_days 2 ->
        ending = StopIteration
        /\ Z.of_nat (length ws) = n
        /\ (forall w, last ws = Some w -> w.1 = lower)
        /\ (forall i w, ws !! i = Some w -> (S i < length ws)%nat ->
                        w.2 - w.1 = timedelta_days 2))
    /\ (upper - n * timedelta_days 2 < datetime_min ->
        ending = OverflowError
        /\ Z.of_nat (length ws) = (upper - datetime_min) / timedelta_days 2
        /\ Forall (fun w => lower < w.1 /\ w.2 - w.1 = timedelta_days 2) ws).
Proof.
  intros Hupper Hfuel.
  exact (generate_date_pairs_checked_run fuel lower upper Hupper Hfuel).
Qed.

Lemma generate_date_pairs_count_and_widths_witness :
  (exists ws,
      generate_date_pairs_checked 4 (utc 2024 1 1 0 0 0) (utc 2024 1 8 0 0 0)
        MAX_DAYS_PER_QUERY = Some (ws, StopIteration)
      /\ length ws = 4%nat)
  /\ (exists ws,
        generate_date_pairs_checked 4 (utc 1 1 1 12 0 0) (utc 1 1 6 0 0 0)
          MAX_DAYS_PER_QUERY = Some (ws, OverflowError)
        /\ length ws = 2%nat).
Proof.
  split.
  - destruct (generate_date_pairs_count_and_widths
                (utc 2024 1 1 0 0 0) (utc 2024 1 8 0 0 0) 4)
      as (ws & ending & Hrun & Hreach & _).
    + vm_compute. split; discriminate.
    + vm_compute. discriminate.
    + destruct Hreach as (-> & Hlen & _); [vm_compute; discriminate|].
      exists ws. split; [exact Hrun|]. apply Nat2Z.inj. rewrite Hlen.
      vm_compute. reflexivity.
  - destruct (generate_date_pairs_count_and_widths
                (utc 1 1 1 12 0 0) (utc 1 1 6 0 0 0) 4)
      as (ws & ending & Hrun & _ & Hfail).
    + vm_compute. split; discriminate.
    + vm_compute. discriminate.
    + destruct Hfail as (-> & Hlen & _); [vm_compute; reflexivity|].
      exists ws. split; [exact Hrun|]. apply Nat2Z.inj. rewrite Hlen.
      vm_compute. reflexivity.
Defined.

(** X2. The generator at any [interval], for a non-empty range whose
    upper end is a [datetime].  With a positive [interval] that a
    [timedelta] holds and a [lower] at least that far above
    [datetime.min], the loop ends within ceil((upper - lower) / interval
    days) turns and its windows cut [[lower, upper)] backwards into
    pieces of at most [interval] days.  When the first subtraction leaves
    the range, or the [interval] is more than a [timedelta] holds, the
    generator raises [OverflowError] without a window.  With an
    [interval] of zero the loop never ends.  With a negative [interval]
    the upper end moves up until it leaves the range: the generator
    raises [OverflowError], after windows that begin after they end. *)
Theorem generate_date_pairs_interval (lower upper interval : Z) (fuel : nat) :
  lower < upper ->
  datetime_min <= upper <= datetime_max ->
  (0 < interval <= timedelta_max_days ->
   datetime_min + timedelta_days interval <= lower ->
   upper - lower <= Z.of_nat fuel * timedelta_days interval ->
   exists ws,
     generate_date_pairs_checked fuel lower upper interval
     = Some (ws, StopIteration)
     /\ backward_partition (timedelta_days interval) lower upper ws)
  /\ (0 < interval ->
      upper - timedelta_days interval < datetime_min
      \/ timedelta_max_days < interval ->
      generate_date_pairs_checked (S fuel) lower upper interval
      = Some ([], OverflowError))
  /\ (interval = 0 ->
      generate_date_pairs_checked fuel lower upper interval = None)
  /\ (interval < 0 ->
      datetime_max - upper < Z.of_nat fuel * - timedelta_days interval ->
      exists ws,
        generate_date_pairs_checked fuel lower upper interval
        = Some (ws, OverflowError)
        /\ Forall (fun w => w.2 < w.1) ws).
Proof.
  intros Hlt Hupper. split; [|split; [|split]].
  - intros Hint Hlower Hfuel.
    destruct (generate_date_pairs_fuel_interval interval fuel lower upper)
      as (ws & Hrun & Hpart); [lia|exact Hfuel|].
    exists ws. split; [|exact Hpart].
    apply generate_date_pairs_checked_in_range; [exact Hint|exact Hlower|lia|exact Hrun].
  - intros Hpos Hout.
    rewrite generate_date_pairs_checked_step by exact Hlt.
    rewrite sub_days_out_of_range; [reflexivity|].
    destruct Hout as [Hout|Hout]; [right; left; exact Hout|left; lia].
  - intros ->. apply generate_date_pairs_checked_zero; assumption.
  - intros Hneg Hfuel.
    apply generate_date_pairs_checked_negative; [exact Hneg|exact Hlt|lia|exact Hfuel].
Qed.

Lemma generate_date_pairs_interval_witness :
  (exists ws,
      generate_date_pairs_checked 3 (utc 2024 1 1 0 0 0) (utc 2024 1 8 0 0 0) 3
      = Some (ws, StopIteration)
      /\ backward_partition (timedelta_days 3) (utc 2024 1 1 0 0 0)
           (utc 2024 1 8 0 0 0) ws)
  /\ generate_date_pairs_checked 1 (utc 2024 1 1 0 0 0) (utc 2024 1 8 0 0 0) 800000
     = Some ([], OverflowError)
  /\ generate_date_pairs_checked 50 (utc 2024 1 1 0 0 0) (utc 2024 1 8 0 0 0) 0 = None
  /\ (exists ws,
        generate_date_pairs_checked 3 (utc 2024 1 1 0 0 0) (utc 2024 1 8 0 0 0)
          (-1000000)
        = Some (ws, OverflowError)
        /\ Forall (fun w => w.2 < w.1) ws).
Proof.
  assert (Hlt : utc 2024 1 1 0 0 0 < utc 2024 1 8 0 0 0)
    by (apply Z.ltb_lt; vm_compute; reflexivity).
  assert (Hupper : datetime_min <= utc 2024 1 8 0 0 0 <= datetime_max)
    by (split; apply Z.leb_le; vm_compute; reflexivity).
  destruct (generate_date_pairs_interval _ _ 3 3 Hlt Hupper) as (Hpositive & _).
  destruct (generate_date_pairs_interval _ _ 800000 0 Hlt Hupper) as (_ & Hfar & _).
  destruct (generate_date_pairs_interval _ _ 0 50 Hlt Hupper) as (_ & _ & Hzero & _).
  destruct (generate_date_pairs_interval _ _ (-1000000) 3 Hlt Hupper)
    as (_ & _ & _ & Hnegative).
  split; [|split; [|split]].
  - apply Hpositive.
    + split; [reflexivity|apply Z.leb_le; vm_compute; reflexivity].
    + apply Z.leb_le. vm_compute. reflexivity.
    + apply Z.leb_le. vm_compute. reflexivity.
  - apply Hfar; [reflexivity|left; apply Z.ltb_lt; vm_compute; reflexivity].
  - apply Hzero. reflexivity.
  - apply Hnegative; [reflexivity|apply Z.ltb_lt; vm_compute; reflexivity].
Defined.

(** ** The [" (UTC)"] suffix *)

Section UtcSuffix.

Lemma startswith_utc_no_paren (s : string) :
  string_mem "("%char s = false ->
  s <> "" ->
  startswith " (UTC)" (s +:+ " (UTC)") = false.
Proof.
  destruct s as [|c s]; [contradiction|]. intros Hno _.
  change (String c s +:+ " (UTC)") with (String c (s +:+ " (UTC)")).
  cbn [startswith]. destruct (Ascii.eqb " "%char c); [|reflexivity].
  cbn [string_mem] in Hno.
  destruct (Ascii.eqb "("%char c) eqn:Hc; [discriminate|].
  destruct s as [|c' s].
  - reflexivity.
  - change (String c' s +:+ " (UTC)") with (String c' (s +:+ " (UTC)")).
    cbn [startswith]. cbn [string_mem] in Hno.
    destruct (Ascii.eqb "("%char c'); [discriminate|reflexivity].
Qed.

Lemma startswith_utc_needs_paren (s : string) :
  string_mem "("%char s = false -> startswith " (UTC)" s = false.
Proof.
  destruct s as [|c s]; [reflexivity|]. intros Hno.
  cbn [startswith]. destruct (Ascii.eqb " "%char c); [|reflexivity].
  cbn [string_mem] in Hno.
  destruct (Ascii.eqb "("%char c); [discriminate|].
  destruct s as [|c' s]; [reflexivity|].
  cbn [startswith]. cbn [string_mem] in Hno.
  destruct (Ascii.eqb "("%char c'); [discriminate|reflexivity].
Qed.

Lemma string_mem_tail c c' s :
  string_mem c (String c' s) = false -> string_mem c s = false.
Proof. cbn [string_mem]. destruct (Ascii.eqb c c'); [discriminate|auto]. Qed.

Lemma str_replace_strips_suffix (core : string) :
  string_mem "("%char core = false ->
  str_replace (core +:+ " (UTC)") " (UTC)" "" = core.
Proof.
  unfold str_replace. induction core as [|c core IH]; intros Hno.
  - reflexivity.
  - pose proof (startswith_utc_no_paren (String c core) Hno) as Hstart.
    change (String c core +:+ " (UTC)") with (String c (core +:+ " (UTC)")) in *.
    cbn [replace_from]. rewrite Hstart by discriminate.
    f_equal. apply IH. eapply string_mem_tail, Hno.
Qed.

Lemma str_replace_without_suffix (s : string) :
  string_mem "("%char s = false ->
  str_replace s " (UTC)" "" = s.
Proof.
  unfold str_replace. induction s as [|c s IH]; intros Hno.
  - reflexivity.
  - cbn [replace_from]. rewrite (startswith_utc_needs_paren _ Hno).
    f_equal. apply IH. eapply string_mem_tail, Hno.
Qed.

End UtcSuffix.

(** X3. For a sensor whose first channel reports [last_reading] as a text
    without parenthesis followed by [" (UTC)"], the watermark text the
    action computes is that text without the suffix; a [last_reading]
    without any parenthesis is taken as it is. *)
Theorem latest_time_strips_utc_suffix
    (the_sensor : Sensor) (channel : Channel) (channels : list Channel)
    (core : string) :
  Sensor_channels the_sensor = channel :: channels ->
  string_mem "("%char core = false ->
  (dict_get (Channel_channel_health channel) "last_reading"
   = Some (JStr (core +:+ " (UTC)")) ->
   latest_time_of the_sensor = Return core)
  /\ (dict_get (Channel_channel_health channel) "last_reading" = Some (JStr core) ->
      latest_time_of the_sensor = Return core).
Proof.
  intros Hchannels Hno. unfold latest_time_of. rewrite Hchannels. split.
  - intros ->. rewrite str_replace_strips_suffix by exact Hno. reflexivity.
  - intros ->. rewrite str_replace_without_suffix by exact Hno. reflexivity.
Qed.

Lemma latest_time_strips_utc_suffix_witness :
  latest_time_of (Examples.air "Air") = Return "2024-06-01 11:45:00".
Proof.
  destruct (latest_time_strips_utc_suffix (Examples.air "Air")
              Examples.temperature [] "2024-06-01 11:45:00" eq_refl eq_refl)
    as [Hsuffix _].
  apply Hsuffix. reflexivity.
Defined.

(** ** Retrying *)

Section Retrying.

Context {A : Type}.

(** The wrapper hands back the first call that does not raise a selected
    exception, if it comes while the stop condition allows it. *)
Lemma retry_from_first_unselected (on : exn -> bool)
    (call : nat -> option (result A)) (n : nat) :
  forall attempts i,
    (forall j, (i <= j < i + n)%nat ->
               exists e, call j = Some (Raise e) /\ on e = true) ->
    (forall e, call (i + n)%nat = Some (Raise e) -> on e = false) ->
    (n <= attempts)%nat ->
    retry_from on attempts call i = (call (i + n)%nat, S (i + n)).
Proof.
  induction n as [|n IH]; intros attempts i Hfail Hlast Hle.
  - rewrite Nat.add_0_r in *.
    destruct attempts; simpl; [reflexivity|].
    destruct (call i) as [[a|e]|] eqn:Hcall; try reflexivity.
    rewrite (Hlast e eq_refl). reflexivity.
  - destruct attempts as [|attempts]; [lia|].
    destruct (Hfail i) as (e & Hcall & Hon); [lia|].
    simpl. rewrite Hcall, Hon.
    replace (i + S n)%nat with (S i + n)%nat in * by lia.
    apply IH; [|exact Hlast|lia].
    intros j Hj. apply Hfail. lia.
Qed.

End Retrying.

(** ** [get_token], again *)

(** X4. [get_token] absorbs the [httpx] failures of its first calls as
    long as stamina's budget lasts.  When the calls before call [n] raise
    [httpx.HTTPError]s other than the statuses 400 and 404, each ending
    within 45 s of the start, call [n] is made, and it is the fifth call
    at the latest.  If it returns, or raises something that is not an
    [httpx.HTTPError], that is what [get_token] returns or raises; if it
    raises an [httpx.HTTPError] and ends after the 45 s, that error
    leaves [get_token], and no later call is made, whatever it would
    give. *)
Theorem get_token_first_settled_call
    (timing : Timing) (post : nat -> Outcome) (n : nat) :
  timing_ok timing ->
  (forall j, (j < n)%nat ->
     exists e, get_token_call (post j) = Raise e /\ is_httpx_HTTPError e = true) ->
  (forall j, (j < n)%nat -> finished_at timing j < stamina_default_timeout) ->
  (n < 5)%nat
  /\ ((forall e, get_token_call (post n) = Raise e -> is_httpx_HTTPError e = false) ->
      get_token (stamina_calls_allowed timing) post
      = (Some (get_token_call (post n)), S n))
  /\ ((exists e, get_token_call (post n) = Raise e /\ is_httpx_HTTPError e = true) ->
      stamina_default_timeout <= finished_at timing n ->
      get_token (stamina_calls_allowed timing) post
      = (Some (get_token_call (post n)), S n)).
Proof.
  intros Hok Hfail Hbudget.
  destruct (within_budget timing Hok n Hbudget) as [Hallowed Hfive].
  split; [exact Hfive|]. split.
  - intros Hlast. unfold get_token, stamina_retry.
    rewrite (retry_from_first_unselected is_httpx_HTTPError _ n); [reflexivity| | |lia].
    + intros j Hj. destruct (Hfail j) as (e & He & Hon); [lia|].
      exists e. rewrite He. auto.
    + intros e [= He]. apply Hlast. exact He.
  - intros Hlast Hused.
    rewrite (budget_used_up timing Hok n Hbudget Hused).
    unfold get_token, stamina_retry.
    rewrite retry_from_exhausted; [rewrite Nat.sub_succ, Nat.sub_0_r; reflexivity|].
    intros j Hj. rewrite Nat.sub_succ, Nat.sub_0_r in Hj.
    destruct (decide (j = n)) as [->|Hne].
    + destruct Hlast as (e & He & Hon). exists e. rewrite He. auto.
    + destruct (Hfail j) as (e & He & Hon); [lia|]. exists e. rewrite He. auto.
Qed.

Lemma get_token_first_settled_call_witness :
  get_token (stamina_calls_allowed MoreExamples.quick_timing)
    (fun i => match i with
              | O => Failed TransportError
              | 1%nat => Responded (Examples.status_response 503)
              | _ => Responded Examples.token_response
              end)
  = (Some (Return (JStr "abc123")), 3%nat)
  /\ get_token (stamina_calls_allowed MoreExamples.quick_timing)
       (fun i => if (i <? 5)%nat then Responded (Examples.status_response 503)
                 else Responded Examples.token_response)
     = (Some (Raise (HTTPStatusError 503)), 5%nat).
Proof.
  split.
  - destruct (get_token_first_settled_call MoreExamples.quick_timing
           (fun i => match i with
                     | O => Failed TransportError
                     | 1%nat => Responded (Examples.status_response 503)
                     | _ => Responded Examples.token_response
                     end) 2 quick_timing_ok) as (_ & Hsettled & _).
    + intros [|[|j]] Hj; [| |lia].
      * exists TransportError. split; reflexivity.
      * exists (HTTPStatusError 503). split; reflexivity.
    + intros [|[|j]] Hj; [reflexivity|reflexivity|lia].
    + apply Hsettled. discriminate.
  - destruct (get_token_first_settled_call MoreExamples.quick_timing
           (fun i => if (i <? 5)%nat then Responded (Examples.status_response 503)
                     else Responded Examples.token_response)
           4 quick_timing_ok) as (_ & _ & Hgiven_up).
    + intros [|[|[|[|j]]]] Hj; try lia;
        exists (HTTPStatusError 503); split; reflexivity.
    + intros [|[|[|[|j]]]] Hj; try lia; reflexivity.
    + apply Hgiven_up.
      * exists (HTTPStatusError 503). split; reflexivity.
      * apply Z.leb_le. reflexivity.
Defined.

(** X5. On an HTTP success, [get_token] raises [JSONDecodeError] when the
    body is not JSON, [TypeError] when it is a truthy value other than an
    object, [KeyError] when the object has no ["data"] member and
    [AttributeError] when that member is not an object; none of these is
    retried. *)
Theorem get_token_malformed_success
    (attempts : nat) (post : nat -> Outcome) (r : Response) :
  post O = Responded r ->
  is_success r = true ->
  (json_body r = None ->
   get_token attempts post = (Some (Raise JSONDecodeError), 1%nat))
  /\ (forall parsed_response,
        json_body r = Some parsed_response ->
        truthy parsed_response = true ->
        (forall members, parsed_response <> JObj members) ->
        get_token attempts post = (Some (Raise TypeError), 1%nat))
  /\ (forall members,
        json_body r = Some (JObj members) ->
        members <> [] ->
        dict_get members "data" = None ->
        get_token attempts post = (Some (Raise (KeyError "data")), 1%nat))
  /\ (forall members data,
        json_body r = Some (JObj members) ->
        dict_get members "data" = Some data ->
        (forall inner, data <> JObj inner) ->
        get_token attempts post = (Some (Raise AttributeError), 1%nat)).
Proof.
  intros Hpost Hok.
  assert (Hleave : forall e, get_token_call (Responded r) = Raise e ->
            is_httpx_HTTPError e = false ->
            get_token attempts post = (Some (Raise e), 1%nat)).
  { intros e Hcall Hon. unfold get_token, stamina_retry.
    apply retry_from_not_selected; [|exact Hon]. rewrite Hpost, Hcall. reflexivity. }
  pose proof (get_token_call_success r Hok) as Hcall.
  unfold response_json in Hcall.
  split; [|split; [|split]].
  - intros Hbody. rewrite Hbody in Hcall. apply Hleave; [exact Hcall|reflexivity].
  - intros parsed_response Hbody Htruthy Hshape.
    rewrite Hbody in Hcall. simpl in Hcall. rewrite Htruthy in Hcall.
    apply Hleave; [|reflexivity]. rewrite Hcall.
    destruct parsed_response; try reflexivity. destruct (Hshape _ eq_refl).
  - intros members Hbody Hne Hdata.
    rewrite Hbody in Hcall. simpl in Hcall.
    destruct members as [|entry members]; [contradiction|].
    apply Hleave; [|reflexivity]. rewrite Hcall.
    cbn [truthy subscript]. rewrite Hdata. reflexivity.
  - intros members data Hbody Hdata Hshape.
    rewrite Hbody in Hcall. simpl in Hcall.
    destruct members as [|entry members]; [discriminate|].
    apply Hleave; [|reflexivity]. rewrite Hcall.
    cbn [truthy subscript]. rewrite Hdata. simpl.
    destruct data; try reflexivity. destruct (Hshape _ eq_refl).
Qed.

Lemma get_token_malformed_success_witness :
  get_token 5
    (fun _ => Responded {| status_code := 200; text := "<html>"; json_body := None |})
  = (Some (Raise JSONDecodeError), 1%nat)
  /\ get_token 5
       (fun _ => Responded (Examples.ok_response (JObj [("token", JStr "abc123")])))
     = (Some (Raise (KeyError "data")), 1%nat).
Proof.
  destruct (get_token_malformed_success 5
              (fun _ => Responded {| status_code := 200; text := "<html>";
                                     json_body := None |})
              {| status_code := 200; text := "<html>"; json_body := None |}
              eq_refl eq_refl) as (Hnot_json & _).
  destruct (get_token_malformed_success 5
              (fun _ => Responded (Examples.ok_response (JObj [("token", JStr "abc123")])))
              (Examples.ok_response (JObj [("token", JStr "abc123")]))
              eq_refl eq_refl) as (_ & _ & Hno_data & _).
  split.
  - apply Hnot_json. reflexivity.
  - apply (Hno_data [("token", JStr "abc123")]); [reflexivity|discriminate|reflexivity].
Defined.

(** ** [get_sensor_readings], again *)

Section MorePagination.

Variable parse_obj : json -> result ChannelReadingsResponse.

Lemma page_step_error_status o code current_page :
  error_status o = Some code ->
  page_step parse_obj o current_page
  = Raise (readings_except (HTTPStatusError code)).
Proof.
  destruct o as [r|e]; simpl.
  - unfold page_step, raise_for_status. simpl.
    destruct (is_success r); [discriminate|]. intros [= <-]. reflexivity.
  - destruct e; try discriminate. intros [= <-]. reflexivity.
Qed.

Lemma paginate_error_page get pages fuel code :
  more_pages_upstream parse_obj get 1 pages ->
  error_status (get (Z.of_nat (S (length pages)))) = Some code ->
  (length pages < fuel)%nat ->
  paginate parse_obj fuel get 1 []
  = (Z.of_nat <$> seq 1 (S (length pages)),
     Some (Raise (readings_except (HTTPStatusError code)))).
Proof.
  intros Hmore Hstatus Hfuel.
  replace fuel with (length pages + S (fuel - length pages - 1))%nat by lia.
  change 1 with (Z.of_nat 1).
  rewrite (paginate_more_pages parse_obj get pages 1 [] _ Hmore).
  cbn [paginate]. cbn [Nat.add].
  rewrite (page_step_error_status _ _ _ Hstatus).
  rewrite seq_S, fmap_app. reflexivity.
Qed.

Lemma paginate_endless get :
  (forall page, 1 <= page ->
     exists rs last_page,
       page_parses parse_obj (get page) rs
       /\ last_page_is rs last_page /\ last_page > page) ->
  forall fuel first total,
    paginate parse_obj fuel get (Z.of_nat (S first)) total
    = (Z.of_nat <$> seq (S first) fuel, None).
Proof.
  intros Hup. induction fuel as [|fuel IH]; intros first total.
  - reflexivity.
  - destruct (Hup (Z.of_nat (S first))) as (rs & last_page & Hparse & Hlast & Hgt);
      [lia|].
    cbn [paginate]. rewrite (page_step_parsed _ _ _ _ _ Hparse Hlast).
    destruct (Z.gtb_spec last_page (Z.of_nat (S first))); [|lia].
    replace (Z.of_nat (S first) + 1) with (Z.of_nat (S (S first))) by lia.
    rewrite IH. reflexivity.
Qed.

End MorePagination.

(** X6. When a page of readings answers with an HTTP error status other
    than 401, [get_sensor_readings] raises at once, without another call:
    [StevensConnectNotFoundException] for 404, the [httpx.HTTPStatusError]
    itself otherwise; the pages before it are not requested again. *)
Theorem get_sensor_readings_error_page
    (parse_obj : json -> result ChannelReadingsResponse)
    (pages : list ChannelReadingsResponse)
    (token : nat -> result json) (get : nat -> Z -> Outcome)
    (attempts fuel : nat) (token_value : json) (code : Z) :
  token O = Return token_value ->
  more_pages_upstream parse_obj (get O) 1 pages ->
  error_status (get O (Z.of_nat (S (length pages)))) = Some code ->
  code <> 401 ->
  (length pages < fuel)%nat ->
  get_sensor_readings parse_obj attempts fuel token get
  = (Some (Raise (if code =? 404 then StevensConnectNotFoundException 404
                  else HTTPStatusError code)), 1%nat)
  /\ pages_requested parse_obj fuel token get 1
     = Z.of_nat <$> seq 1 (S (length pages)).
Proof.
  intros Htoken Hmore Hstatus Hcode Hfuel.
  pose proof (paginate_error_page parse_obj (get O) pages fuel code
                Hmore Hstatus Hfuel) as Hrun.
  assert (Hexn : readings_except (HTTPStatusError code)
                 = if code =? 404 then StevensConnectNotFoundException 404
                   else HTTPStatusError code).
  { simpl. destruct (Z.eqb_spec code 401); [contradiction|]. reflexivity. }
  rewrite Hexn in Hrun. split.
  - unfold get_sensor_readings, stamina_retry.
    apply retry_from_not_selected.
    + unfold get_sensor_readings_call. rewrite Htoken, Hrun. reflexivity.
    + destruct (code =? 404); reflexivity.
  - unfold pages_requested. cbn [seq fmap list_fmap concat].
    unfold get_sensor_readings_call. rewrite Htoken, Hrun.
    cbn [fst]. apply app_nil_r.
Qed.

Lemma get_sensor_readings_error_page_witness :
  get_sensor_readings Examples.example_parse_obj 5 5
    (fun _ => Return (JStr "abc123"))
    (fun _ page => if page =? 1 then Examples.two_pages 1
                   else Responded (Examples.status_response 500))
  = (Some (Raise (HTTPStatusError 500)), 1%nat)
  /\ pages_requested Examples.example_parse_obj 5
       (fun _ => Return (JStr "abc123"))
       (fun _ page => if page =? 1 then Examples.two_pages 1
                      else Responded (Examples.status_response 500)) 1
     = Z.of_nat <$> seq 1 2.
Proof.
  apply (get_sensor_readings_error_page Examples.example_parse_obj
           [Examples.first_page_parsed]
           (fun _ => Return (JStr "abc123"))
           (fun _ page => if page =? 1 then Examples.two_pages 1
                          else Responded (Examples.status_response 500))
           5 5 (JStr "abc123") 500).
  - reflexivity.
  - intros [|i] rs; simpl; intros Hrs; [|discriminate]. injection Hrs as <-.
    split.
    + eexists _, _. repeat split; reflexivity.
    + exists 2. split; [reflexivity|]. simpl. lia.
  - reflexivity.
  - lia.
  - simpl. lia.
Defined.



(** X8. The page loop has no bound of its own: against an upstream whose
    every page announces a [last_page] beyond its own number, the loop is
    still requesting pages after any number of turns, page 1, 2, 3, ...
    in order, and [get_sensor_readings] does not come back. *)
Theorem get_sensor_readings_endless
    (parse_obj : json -> result ChannelReadingsResponse)
    (token : nat -> result json) (get : nat -> Z -> Outcome)
    (attempts fuel : nat) (token_value : json) :
  token O = Return token_value ->
  (forall page, 1 <= page ->
     exists rs last_page,
       page_parses parse_obj (get O page) rs
       /\ last_page_is rs last_page /\ last_page > page) ->
  get_sensor_readings parse_obj attempts fuel token get = (None, 1%nat)
  /\ pages_requested parse_obj fuel token get 1 = Z.of_nat <$> seq 1 fuel.
Proof.
  intros Htoken Hup.
  pose proof (paginate_endless parse_obj (get O) Hup fuel O []) as Hrun.
  change (Z.of_nat 1) with 1 in Hrun.
  split.
  - unfold get_sensor_readings, stamina_retry.
    unfold get_sensor_readings_call. 
    destruct (attempts - 1)%nat; simpl; rewrite Htoken, Hrun; reflexivity.
  - unfold pages_requested. cbn [seq fmap list_fmap concat].
    unfold get_sensor_readings_call. rewrite Htoken, Hrun.
    cbn [fst]. apply app_nil_r.
Qed.

Lemma get_sensor_readings_endless_witness :
  get_sensor_readings Examples.example_parse_obj 5 7
    (fun _ => Return (JStr "abc123"))
    (fun _ page => Responded (Examples.ok_response (Examples.page_json [] (page + 1))))
  = (None, 1%nat).
Proof.
  apply (get_sensor_readings_endless Examples.example_parse_obj
           (fun _ => Return (JStr "abc123"))
           (fun _ page =>
              Responded (Examples.ok_response (Examples.page_json [] (page + 1))))
           5 7 (JStr "abc123")).
  - reflexivity.
  - intros page Hpage.
    exists {| readings := []; paging := [("last_page", JInt (page + 1))] |}, (page + 1).
    split; [|split; [reflexivity|lia]].
    eexists _, _. repeat split; reflexivity.
Defined.

(** ** Grouping by timestamp *)

Section DictLookup.
Context {K V : Type} `{EqDecision K}.

Lemma dict_get_set (d : list (K * V)) k v key :
  dict_get (dict_set d k v) key
  = if decide (key = k) then Some v else dict_get d key.
Proof.
  induction d as [|[k' v'] d IH]; cbn [dict_set dict_get].
  - destruct (decide (key = k)); reflexivity.
  - destruct (decide (k = k')) as [->|Hne]; cbn [dict_get].
    + destruct (decide (key = k')); reflexivity.
    + rewrite IH. destruct (decide (key = k')) as [->|Hne'].
      * destruct (decide (k' = k)); [congruence|reflexivity].
      * reflexivity.
Qed.

Lemma dict_get_is_Some (d : list (K * V)) key :
  is_Some (dict_get d key) <-> key ∈ dict_keys d.
Proof.
  induction d as [|[k v] d IH]; cbn [dict_get].
  - rewrite dict_keys_nil, elem_of_nil. split; [intros [? ?]; discriminate|tauto].
  - rewrite dict_keys_cons, elem_of_cons.
    destruct (decide (key = k)) as [->|Hne].
    + split; [auto | intros _; eexists; reflexivity].
    + rewrite IH. tauto.
Qed.

End DictLookup.

Section Grouping.

Lemma fold_left_concat {A B} (f : A -> B -> A) (ls : list (list B)) : forall a,
  fold_left (fun a l => fold_left f l a) ls a = fold_left f (concat ls) a.
Proof.
  induction ls as [|l ls IH]; intros a; [reflexivity|].
  cbn [fold_left concat]. rewrite fold_left_app. apply IH.
Qed.

Lemma group_by_timestamp_flat total_readings :
  group_by_timestamp total_readings
  = fold_left group_reading (flat_readings total_readings) [].
Proof.
  unfold group_by_timestamp, flat_readings.
  apply (fold_left_concat group_reading).
Qed.

Lemma group_reading_lookup grouped reading timestamp :
  default [] (dict_get (group_reading grouped reading) timestamp)
  = default [] (dict_get grouped timestamp) ++ readings_at timestamp [reading].
Proof.
  unfold group_reading, defaultdict_append, readings_at.
  rewrite dict_get_set, filter_cons, filter_nil.
  destruct (decide (timestamp = ChannelReading_timestamp reading)) as [->|Hne].
  - rewrite decide_True by reflexivity. reflexivity.
  - rewrite decide_False by congruence. rewrite app_nil_r. reflexivity.
Qed.

Lemma fold_group_reading_lookup flat timestamp : forall grouped,
  default [] (dict_get (fold_left group_reading flat grouped) timestamp)
  = default [] (dict_get grouped timestamp) ++ readings_at timestamp flat.
Proof.
  induction flat as [|reading flat IH]; intros grouped; cbn [fold_left].
  - unfold readings_at. rewrite filter_nil, app_nil_r. reflexivity.
  - rewrite IH, group_reading_lookup, <- app_assoc.
    unfold readings_at. rewrite <- filter_app. reflexivity.
Qed.

Lemma fold_group_reading_keys flat : forall grouped,
  NoDup (dict_keys grouped) ->
  NoDup (dict_keys (fold_left group_reading flat grouped))
  /\ forall timestamp,
       timestamp ∈ dict_keys (fold_left group_reading flat grouped)
       <-> timestamp ∈ dict_keys grouped
           \/ exists reading, reading ∈ flat
                /\ ChannelReading_timestamp reading = timestamp.
Proof.
  induction flat as [|reading flat IH]; intros grouped Hnd; cbn [fold_left].
  - split; [exact Hnd|]. intros timestamp. split; [auto|].
    intros [Hin|(reading & Hin & _)]; [exact Hin|]. apply elem_of_nil in Hin as [].
  - destruct (IH (group_reading grouped reading)) as [Hnd' Hkeys].
    { apply NoDup_dict_keys_set, Hnd. }
    split; [exact Hnd'|]. intros timestamp. rewrite Hkeys.
    unfold group_reading at 1, defaultdict_append.
    rewrite elem_of_dict_keys_set. split.
    + intros [[->|Hin]|(r & Hin & Hr)].
      * right. exists reading. split; [apply list_elem_of_here|reflexivity].
      * left. exact Hin.
      * right. exists r. split; [apply list_elem_of_further, Hin|exact Hr].
    + intros [Hin|(r & Hin & Hr)].
      * left. right. exact Hin.
      * apply elem_of_cons in Hin as [->|Hin].
        -- left. left. symmetry. exact Hr.
        -- right. exists r. split; assumption.
Qed.

End Grouping.

(** X9. The mapping [get_sensor_readings] builds has one key per distinct
    timestamp among the readings, each key once; the group under a
    timestamp holds exactly the readings with that timestamp, in their
    order of arrival over the pages and channels; no group is empty. *)
Theorem group_by_timestamp_groups (total_readings : list (list ChannelReading)) :
  NoDup (dict_keys (group_by_timestamp total_readings))
  /\ (forall timestamp,
        timestamp ∈ dict_keys (group_by_timestamp total_readings)
        <-> exists reading, reading ∈ flat_readings total_readings
              /\ ChannelReading_timestamp reading = timestamp)
  /\ (forall timestamp,
        default [] (dict_get (group_by_timestamp total_readings) timestamp)
        = readings_at timestamp (flat_readings total_readings))
  /\ (forall timestamp group,
        dict_get (group_by_timestamp total_readings) timestamp = Some group ->
        group = readings_at timestamp (flat_readings total_readings)
        /\ group <> []).
Proof.
  rewrite group_by_timestamp_flat.
  destruct (fold_group_reading_keys (flat_readings total_readings) [])
    as [Hnd Hkeys]; [apply NoDup_nil_2|].
  assert (Hmem : forall timestamp,
            timestamp ∈ dict_keys (fold_left group_reading
                                     (flat_readings total_readings) [])
            <-> exists reading, reading ∈ flat_readings total_readings
                  /\ ChannelReading_timestamp reading = timestamp).
  { intros timestamp. rewrite Hkeys, dict_keys_nil, elem_of_nil. tauto. }
  assert (Hlookup : forall timestamp,
            default [] (dict_get (fold_left group_reading
                                    (flat_readings total_readings) []) timestamp)
            = readings_at timestamp (flat_readings total_readings)).
  { intros timestamp. rewrite fold_group_reading_lookup. reflexivity. }
  split; [exact Hnd|]. split; [exact Hmem|]. split; [exact Hlookup|].
  intros timestamp group Hget.
  pose proof (Hlookup timestamp) as Hgroup. rewrite Hget in Hgroup. simpl in Hgroup.
  split; [exact Hgroup|].
  assert (Hin : timestamp ∈ dict_keys (fold_left group_reading
                                         (flat_readings total_readings) [])).
  { apply dict_get_is_Some. rewrite Hget. eexists. reflexivity. }
  apply Hmem in Hin as (reading & Hin & Hts).
  intros ->.
  assert (reading ∈ readings_at timestamp (flat_readings total_readings)) as Hr.
  { unfold readings_at. apply list_elem_of_filter. split; assumption. }
  rewrite <- Hgroup in Hr. apply elem_of_nil in Hr as [].
Qed.

(** ** [get_projects] *)

Section GetProjects.

Variable parse_obj : json -> result ProjectResponse.

Lemma get_projects_call_error_status token_value o code :
  error_status o = Some code ->
  get_projects_call parse_obj (Return token_value) o
  = Raise (readings_except (HTTPStatusError code)).
Proof.
  destruct o as [r|e]; simpl.
  - unfold get_projects_call, raise_for_status. simpl.
    destruct (is_success r); [discriminate|]. intros [= <-]. reflexivity.
  - destruct e; try discriminate. intros [= <-]. reflexivity.
Qed.

Lemma get_projects_leaves attempts token get e :
  get_projects_call parse_obj (token O) (get O) = Raise e ->
  is_Unauthorized e = false ->
  get_projects parse_obj attempts token get = (Some (Raise e), 1%nat).
Proof.
  intros Hcall Hon. unfold get_projects, stamina_retry.
  apply retry_from_not_selected; [|exact Hon]. rewrite Hcall. reflexivity.
Qed.

(** X10. [get_projects] retries on nothing but 401: a failure of
    [get_token], a transport failure of the request, and an HTTP error
    status other than 401 all leave [get_projects] after a single call,
    the status 404 as [StevensConnectNotFoundException] and any other as
    the [httpx.HTTPStatusError] itself. *)
Theorem get_projects_failures_not_retried
    (attempts : nat) (token : nat -> result json) (get : nat -> Outcome) :
  (forall e, token O = Raise e -> is_Unauthorized e = false ->
     get_projects parse_obj attempts token get = (Some (Raise e), 1%nat))
  /\ (forall token_value, token O = Return token_value ->
        get O = Failed TransportError ->
        get_projects parse_obj attempts token get
        = (Some (Raise TransportError), 1%nat))
  /\ (forall token_value code, token O = Return token_value ->
        error_status (get O) = Some code -> code <> 401 ->
        get_projects parse_obj attempts token get
        = (Some (Raise (if code =? 404 then StevensConnectNotFoundException 404
                        else HTTPStatusError code)), 1%nat)).
Proof.
  split; [|split].
  - intros e Htoken Hon. apply get_projects_leaves; [|exact Hon].
    unfold get_projects_call. rewrite Htoken. reflexivity.
  - intros token_value Htoken Hget. apply get_projects_leaves; [|reflexivity].
    rewrite Htoken, Hget. reflexivity.
  - intros token_value code Htoken Hstatus Hcode.
    assert (Hexn : readings_except (HTTPStatusError code)
                   = if code =? 404 then StevensConnectNotFoundException 404
                     else HTTPStatusError code).
    { simpl. destruct (Z.eqb_spec code 401); [contradiction|]. reflexivity. }
    apply get_projects_leaves.
    + rewrite Htoken, (get_projects_call_error_status _ _ _ Hstatus), Hexn.
      reflexivity.
    + destruct (code =? 404); reflexivity.
Qed.

(** X11. A 401 makes [get_projects] call again, with a token fetched
    anew, as long as stamina's budget lasts: after [n] calls answered
    401, each ending within 45 s of the start, call [n + 1] is made, the
    fifth at the latest, and what it returns or raises, if not another
    401, is what [get_projects] returns or raises.  When every call is
    answered 401, [StevensConnectUnauthorizedException] leaves
    [get_projects] once the stop condition holds: after five calls at
    most, and after exactly five when the fourth ends within the
    budget. *)
Theorem get_projects_unauthorized_retried
    (timing : Timing) (token : nat -> result json) (get : nat -> Outcome)
    (n : nat) :
  timing_ok timing ->
  (forall j, exists token_value, token j = Return token_value) ->
  ((forall j, (j < n)%nat -> error_status (get j) = Some 401) ->
   (forall j, (j < n)%nat -> finished_at timing j < stamina_default_timeout) ->
   (n < 5)%nat
   /\ ((forall e, get_projects_call parse_obj (token n) (get n) = Raise e ->
                  is_Unauthorized e = false) ->
       get_projects parse_obj (stamina_calls_allowed timing) token get
       = (Some (get_projects_call parse_obj (token n) (get n)), S n)))
  /\ ((forall j, error_status (get j) = Some 401) ->
      get_projects parse_obj (stamina_calls_allowed timing) token get
      = (Some (Raise (StevensConnectUnauthorizedException 401)),
         stamina_calls_allowed timing)
      /\ (1 <= stamina_calls_allowed timing <= 5)%nat
      /\ (finished_at timing 3 < stamina_default_timeout ->
          stamina_calls_allowed timing = 5%nat)).
Proof.
  intros Hok Htokens.
  assert (Hcall : forall j, error_status (get j) = Some 401 ->
            get_projects_call parse_obj (token j) (get j)
            = Raise (StevensConnectUnauthorizedException 401)).
  { intros j Hstatus. destruct (Htokens j) as [token_value ->].
    rewrite (get_projects_call_error_status _ _ _ Hstatus). reflexivity. }
  split.
  - intros Hfail Hbudget.
    destruct (within_budget timing Hok n Hbudget) as [Hallowed Hfive].
    split; [exact Hfive|].
    intros Hlast. unfold get_projects, stamina_retry.
    rewrite (retry_from_first_unselected is_Unauthorized _ n); [reflexivity| | |lia].
    + intros j Hj. exists (StevensConnectUnauthorizedException 401).
      rewrite Hcall by (apply Hfail; lia). split; reflexivity.
    + intros e [= He]. apply Hlast. exact He.
  - intros Hall. split; [|split].
    + unfold get_projects, stamina_retry.
      rewrite (retry_from_all_selected _ _ _ _ (StevensConnectUnauthorizedException 401)).
      * pose proof (stamina_calls_allowed_attempts timing). f_equal. lia.
      * intros j. rewrite Hcall by apply Hall. reflexivity.
      * reflexivity.
    + apply stamina_calls_allowed_bounds. exact Hok.
    + apply stamina_calls_allowed_quick. exact Hok.
Qed.

(** X12. On an HTTP success [get_projects] returns the body text when the
    decoded body is falsy, and the catalog that [parse_obj] makes of the
    [config_packet] member of [data] when the body is the envelope
    [{data: {config_packet: ...}}]; a [data] without [config_packet]
    hands [None] to [parse_obj]. *)
Theorem get_projects_success_value
    (attempts : nat) (token : nat -> result json) (get : nat -> Outcome)
    (token_value : json) (r : Response) (parsed_response : json) :
  token O = Return token_value ->
  get O = Responded r ->
  is_success r = true ->
  json_body r = Some parsed_response ->
  (truthy parsed_response = false ->
   get_projects parse_obj attempts token get
   = (Some (Return (ProjectsText (text r))), 1%nat))
  /\ (forall members data catalog,
        parsed_response = JObj members ->
        dict_get members "data" = Some (JObj data) ->
        parse_obj (default JNull (dict_get data "config_packet")) = Return catalog ->
        get_projects parse_obj attempts token get
        = (Some (Return (ProjectsParsed catalog)), 1%nat)).
Proof.
  intros Htoken Hget Hok Hbody.
  assert (Hreturns : forall value,
            get_projects_call parse_obj (token O) (get O) = Return value ->
            get_projects parse_obj attempts token get = (Some (Return value), 1%nat)).
  { intros value Hcall. unfold get_projects, stamina_retry.
    apply retry_from_returns. rewrite Hcall. reflexivity. }
  split.
  - intros Hfalsy. apply Hreturns. rewrite Htoken, Hget.
    unfold get_projects_call, raise_for_status, response_json. simpl.
    rewrite Hok, Hbody. simpl. rewrite Hfalsy. reflexivity.
  - intros members data catalog -> Hdata Hparse. apply Hreturns.
    rewrite Htoken, Hget.
    unfold get_projects_call, raise_for_status, response_json. simpl.
    rewrite Hok, Hbody. simpl.
    destruct members as [|entry members]; [discriminate|].
    cbn [subscript]. rewrite Hdata. simpl. rewrite Hparse. reflexivity.
Qed.

End GetProjects.

Lemma get_projects_failures_not_retried_witness :
  get_projects (fun _ => Raise ValidationError) 5
    (fun _ => Raise (StevensConnectBadRequestException 400))
    (fun _ => Responded Examples.token_response)
  = (Some (Raise (StevensConnectBadRequestException 400)), 1%nat)
  /\ get_projects (fun _ => Raise ValidationError) 5
       (fun _ => Return (JStr "abc123"))
       (fun _ => Responded (Examples.status_response 500))
     = (Some (Raise (HTTPStatusError 500)), 1%nat).
Proof.
  destruct (get_projects_failures_not_retried (fun _ => Raise ValidationError) 5
              (fun _ => Raise (StevensConnectBadRequestException 400))
              (fun _ => Responded Examples.token_response))
    as (Htoken & _ & _).
  destruct (get_projects_failures_not_retried (fun _ => Raise ValidationError) 5
              (fun _ => Return (JStr "abc123"))
              (fun _ => Responded (Examples.status_response 500)))
    as (_ & _ & Hstatus).
  split.
  - apply Htoken; reflexivity.
  - apply (Hstatus (JStr "abc123") 500); [reflexivity | reflexivity | lia].
Defined.

Lemma get_projects_unauthorized_retried_witness :
  get_projects (fun _ => Return MoreExamples.empty_catalog)
    (stamina_calls_allowed MoreExamples.quick_timing)
    (fun _ => Return (JStr "abc123"))
    (fun i => match i with
              | O => Responded (Examples.status_response 401)
              | _ => Responded (Examples.ok_response MoreExamples.empty_catalog_json)
              end)
  = (Some (Return (ProjectsParsed MoreExamples.empty_catalog)), 2%nat)
  /\ get_projects (fun _ => Return MoreExamples.empty_catalog)
       (stamina_calls_allowed MoreExamples.quick_timing)
       (fun _ => Return (JStr "abc123"))
       (fun _ => Responded (Examples.status_response 401))
     = (Some (Raise (StevensConnectUnauthorizedException 401)), 5%nat)
  /\ get_projects (fun _ => Return MoreExamples.empty_catalog)
       (stamina_calls_allowed MoreExamples.slow_timing)
       (fun _ => Return (JStr "abc123"))
       (fun _ => Responded (Examples.status_response 401))
     = (Some (Raise (StevensConnectUnauthorizedException 401)), 2%nat).
Proof.
  destruct (get_projects_unauthorized_retried (fun _ => Return MoreExamples.empty_catalog)
              MoreExamples.quick_timing
              (fun _ => Return (JStr "abc123"))
              (fun i => match i with
                        | O => Responded (Examples.status_response 401)
                        | _ => Responded
                                 (Examples.ok_response MoreExamples.empty_catalog_json)
                        end) 1 quick_timing_ok)
    as [Hhealed _]; [intros j; eexists; reflexivity|].
  destruct (get_projects_unauthorized_retried (fun _ => Return MoreExamples.empty_catalog)
              MoreExamples.quick_timing
              (fun _ => Return (JStr "abc123"))
              (fun _ => Responded (Examples.status_response 401)) 0 quick_timing_ok)
    as [_ Hexhausted]; [intros j; eexists; reflexivity|].
  destruct (get_projects_unauthorized_retried (fun _ => Return MoreExamples.empty_catalog)
              MoreExamples.slow_timing
              (fun _ => Return (JStr "abc123"))
              (fun _ => Responded (Examples.status_response 401)) 0 slow_timing_ok)
    as [_ Hslow]; [intros j; eexists; reflexivity|].
  split; [|split].
  - destruct Hhealed as [_ Hcall].
    + intros j Hj. assert (j = O) as -> by lia. reflexivity.
    + intros j Hj. assert (j = O) as -> by lia. reflexivity.
    + rewrite Hcall; [reflexivity|]. discriminate.
  - destruct Hexhausted as (Hrun & _); [intros j; reflexivity|]. exact Hrun.
  - destruct Hslow as (Hrun & _); [intros j; reflexivity|]. exact Hrun.
Defined.

Lemma get_projects_success_value_witness :
  get_projects (fun _ => Return MoreExamples.empty_catalog) 5
    (fun _ => Return (JStr "abc123"))
    (fun _ => Responded (Examples.ok_response MoreExamples.empty_catalog_json))
  = (Some (Return (ProjectsParsed MoreExamples.empty_catalog)), 1%nat).
Proof.
  destruct (get_projects_success_value (fun _ => Return MoreExamples.empty_catalog) 5
              (fun _ => Return (JStr "abc123"))
              (fun _ => Responded (Examples.ok_response MoreExamples.empty_catalog_json))
              (JStr "abc123")
              (Examples.ok_response MoreExamples.empty_catalog_json)
              MoreExamples.empty_catalog_json eq_refl eq_refl eq_refl eq_refl)
    as [_ Henvelope].
  eapply Henvelope; reflexivity.
Defined.

(** ** [action_auth] *)

(** X13. What [action_auth] makes of a failing [get_token]: the status 400
    gives the result with [valid_credentials] false and [status_code] 400,
    after a single call; the status 404 is not caught and leaves as
    [StevensConnectNotFoundException]; any other HTTP error status, once
    the retries are used up, gives the result [{error: True, status_code}];
    a transport failure on every call is not caught and leaves as the
    [httpx] error. *)
Theorem authenticate_failures (attempts : nat) (post : nat -> Outcome) :
  (error_status (post O) = Some 400 ->
   authenticate attempts post
   = Some (Return [("valid_credentials", JBool false); ("status_code", JInt 400);
                   ("message", JStr "Bad credentials")]))
  /\ (error_status (post O) = Some 404 ->
      authenticate attempts post = Some (Raise (StevensConnectNotFoundException 404)))
  /\ (forall code, code <> 400 -> code <> 404 ->
        (forall i, error_status (post i) = Some code) ->
        authenticate attempts post
        = Some (Return [("error", JBool true); ("status_code", JInt code)]))
  /\ ((forall i, post i = Failed TransportError) ->
      authenticate attempts post = Some (Raise TransportError)).
Proof.
  unfold authenticate, get_token, stamina_retry.
  split; [|split; [|split]].
  - intros Hstatus.
    rewrite (retry_from_not_selected _ _ _ _ (StevensConnectBadRequestException 400));
      [reflexivity| |reflexivity].
    rewrite (get_token_call_error_status _ _ Hstatus). reflexivity.
  - intros Hstatus.
    rewrite (retry_from_not_selected _ _ _ _ (StevensConnectNotFoundException 404));
      [reflexivity| |reflexivity].
    rewrite (get_token_call_error_status _ _ Hstatus). reflexivity.
  - intros code H400 H404 Hall.
    rewrite (retry_from_all_selected _ _ _ _ (HTTPStatusError code));
      [reflexivity| |reflexivity].
    intros j. rewrite (get_token_call_error_status _ _ (Hall j)). simpl.
    destruct (Z.eqb_spec code 400); [contradiction|].
    destruct (Z.eqb_spec code 404); [contradiction|]. reflexivity.
  - intros Hall.
    rewrite (retry_from_all_selected _ _ _ _ TransportError);
      [reflexivity| |reflexivity].
    intros j. rewrite Hall. reflexivity.
Qed.

Lemma authenticate_failures_witness :
  authenticate 5 (fun _ => Responded (Examples.status_response 400))
  = Some (Return [("valid_credentials", JBool false); ("status_code", JInt 400);
                  ("message", JStr "Bad credentials")])
  /\ authenticate 5 (fun _ => Responded (Examples.status_response 404))
     = Some (Raise (StevensConnectNotFoundException 404))
  /\ authenticate 5 (fun _ => Responded (Examples.status_response 503))
     = Some (Return [("error", JBool true); ("status_code", JInt 503)]).
Proof.
  destruct (authenticate_failures 5
              (fun _ => Responded (Examples.status_response 400)))
    as (H400 & _).
  destruct (authenticate_failures 5
              (fun _ => Responded (Examples.status_response 404)))
    as (_ & H404 & _).
  destruct (authenticate_failures 5
              (fun _ => Responded (Examples.status_response 503)))
    as (_ & _ & Hother & _).
  split; [apply H400; reflexivity|].
  split; [apply H404; reflexivity|].
  apply Hother; [lia | lia | intros i; reflexivity].
Defined.

(** X14. What [action_auth] makes of an HTTP success: with the envelope
    [{data: {token}}] the credentials are reported valid exactly when the
    token is truthy, a missing, null or empty token giving the result
    "Bad credentials" without a status code; with a falsy body, what is
    tested is the body text, so that a non-empty text is reported as valid
    credentials. *)
Theorem authenticate_success
    (attempts : nat) (post : nat -> Outcome) (r : Response)
    (parsed_response : json) :
  post O = Responded r ->
  is_success r = true ->
  json_body r = Some parsed_response ->
  (forall members data,
      parsed_response = JObj members ->
      dict_get members "data" = Some (JObj data) ->
      authenticate attempts post
      = Some (Return
                (if truthy (default JNull (dict_get data "token"))
                 then [("valid_credentials", JBool true)]
                 else [("valid_credentials", JBool false);
                       ("message", JStr "Bad credentials")])))
  /\ (truthy parsed_response = false ->
      authenticate attempts post
      = Some (Return
                (if String.eqb (text r) ""
                 then [("valid_credentials", JBool false);
                       ("message", JStr "Bad credentials")]
                 else [("valid_credentials", JBool true)]))).
Proof.
  intros Hpost Hok Hbody.
  assert (Hreturns : forall value,
            get_token_call (Responded r) = Return value ->
            authenticate attempts post = Some (action_auth (Return value))).
  { intros value Hcall. unfold authenticate, get_token, stamina_retry.
    rewrite (retry_from_returns _ _ _ _ value); [reflexivity|].
    rewrite Hpost, Hcall. reflexivity. }
  pose proof (get_token_call_success r Hok) as Hcall.
  unfold response_json in Hcall. rewrite Hbody in Hcall. simpl in Hcall.
  split.
  - intros members data -> Hdata.
    destruct members as [|entry members]; [discriminate|].
    cbn [truthy subscript] in Hcall. rewrite Hdata in Hcall. simpl in Hcall.
    rewrite (Hreturns _ Hcall). simpl.
    destruct (truthy (default JNull (dict_get data "token"))); reflexivity.
  - intros Hfalsy. rewrite Hfalsy in Hcall.
    rewrite (Hreturns _ Hcall). simpl.
    destruct (String.eqb (text r) ""); reflexivity.
Qed.

Lemma authenticate_success_witness :
  authenticate 5 (fun _ => Responded Examples.token_response)
  = Some (Return [("valid_credentials", JBool true)])
  /\ authenticate 5
       (fun _ => Responded (Examples.ok_response (JObj [("data", JObj [])])))
     = Some (Return [("valid_credentials", JBool false);
                     ("message", JStr "Bad credentials")])
  /\ authenticate 5
       (fun _ => Responded {| status_code := 200; text := "{}";
                              json_body := Some (JObj []) |})
     = Some (Return [("valid_credentials", JBool true)]).
Proof.
  destruct (authenticate_success 5 (fun _ => Responded Examples.token_response)
              Examples.token_response
              (JObj [("data", JObj [("token", JStr "abc123")])])
              eq_refl eq_refl eq_refl) as [Htoken _].
  destruct (authenticate_success 5
              (fun _ => Responded (Examples.ok_response (JObj [("data", JObj [])])))
              (Examples.ok_response (JObj [("data", JObj [])]))
              (JObj [("data", JObj [])])
              eq_refl eq_refl eq_refl) as [Hmissing _].
  destruct (authenticate_success 5
              (fun _ => Responded {| status_code := 200; text := "{}";
                                     json_body := Some (JObj []) |})
              {| status_code := 200; text := "{}"; json_body := Some (JObj []) |}
              (JObj []) eq_refl eq_refl eq_refl) as [_ Hfalsy].
  split; [|split].
  - apply (Htoken _ _ eq_refl eq_refl).
  - apply (Hmissing _ _ eq_refl eq_refl).
  - apply Hfalsy. reflexivity.
Defined.

(** ** [action_pull_observations], again *)

Section MorePullObservations.

Context `{RT : Runtime}.
Variable clock : nat -> instant.

Lemma for_each_skips {A S} (body : S -> A -> M S) xs :
  (forall acc x w, x ∈ xs -> body acc x w = (Return acc, w)) ->
  forall acc w, for_each body xs acc w = (Return acc, w).
Proof.
  induction xs as [|x xs IH]; intros Hbody acc w; [reflexivity|].
  rewrite for_each_cons, Hbody by apply list_elem_of_here.
  apply IH. intros acc' x' w' Hin. apply Hbody, list_elem_of_further, Hin.
Qed.

Lemma for_each_keeps_count {A S} (body : S -> A -> M S) xs :
  (forall acc x w a w', body acc x w = (Return a, w') -> a = acc) ->
  forall acc w a w', for_each body xs acc w = (Return a, w') -> a = acc.
Proof.
  intros Hbody. induction xs as [|x xs IH]; intros acc w a w'.
  - intros [= <- _]. reflexivity.
  - rewrite for_each_cons.
    destruct (body acc x w) as [[acc'|e] w1] eqn:Hstep; [|discriminate].
    intros Hrest. apply IH in Hrest. apply Hbody in Hstep. congruence.
Qed.

(** What one iteration of the sensor loop does to the world: it records
    the lookup, may read the clock, and may save a watermark under the
    sensor's key; the count it returns is the one it was given. *)
Lemma process_sensor_effect integration action_config now project station_info
    projects_units sensors_triggered the_sensor w :
  let run :=
    process_sensor clock integration action_config now project station_info
      projects_units sensors_triggered the_sensor w in
  (store run.2 = store w
   \/ exists latest_time,
        store run.2
        = <[watermark_key integration the_sensor :=
              [("updated_at", JStr latest_time)]]> (store w))
  /\ (forall a, run.1 = Return a -> a = sensors_triggered).
Proof.
  intros run. unfold run. rewrite process_sensor_eq. cbn zeta.
  destruct (start_date_of _ _ _) as [start_date|e].
  - destruct (generate_date_pairs _ _).
    + destruct (latest_time_of the_sensor) as [latest_time|e].
      * split; [right; eexists; reflexivity|]. intros a [= <-]. reflexivity.
      * split; [left; reflexivity|]. discriminate.
    + split; [left; reflexivity|]. discriminate.
  - split; [left; reflexivity|]. discriminate.
Qed.

(** What is kept by the clock and by the iterations of the kept sensors is
    kept by the action. *)
Lemma action_world_invariant (P : World -> Prop) integration action_config
    catalog w :
  (forall w', P w' ->
     P {| ticks := S (ticks w'); store := store w'; trace := trace w' |}) ->
  (forall now project station_info projects_units sensors_triggered the_sensor w',
     kept_sensor catalog the_sensor -> P w' ->
     P (process_sensor clock integration action_config now project station_info
          projects_units sensors_triggered the_sensor w').2) ->
  P w ->
  P (action_pull_observations clock integration action_config
       (Return (ProjectsParsed catalog)) w).2.
Proof.
  intros Htick Hsensor Hw. unfold action_pull_observations.
  unfold mbind, M_mbind, M_bind, lift, datetime_now. cbn [fst snd].
  apply (for_each_preserves P); [|apply Htick, Hw].
  intros acc project w1 Hproject Hw1.
  apply (for_each_preserves P); [|exact Hw1].
  intros acc2 station w2 Hstation Hw2. unfold process_station.
  apply (for_each_preserves P); [|exact Hw2].
  intros acc3 the_sensor w3 Hin Hw3.
  apply list_elem_of_In, filter_In in Hin as [Hin Hkept].
  apply Hsensor; [|exact Hw3].
  exists project, station. repeat split; try assumption.
  apply list_elem_of_In, Hin.
Qed.

Lemma filter_all_excluded sensors :
  Forall (fun the_sensor => not_excluded the_sensor = false) sensors ->
  List.filter not_excluded sensors = [].
Proof.
  induction 1 as [|the_sensor sensors Hx _ IH]; [reflexivity|].
  cbn [List.filter]. rewrite Hx. exact IH.
Qed.

(** X15. The action makes no call at all when there is nothing to process:
    an exception of [get_projects] leaves as it is, before the clock is
    read; an empty body text gives the count 0; a catalog in which every
    sensor is excluded (or which has no project, station or sensor) gives
    the count 0 after one reading of the clock; and a non-empty body text
    in place of a catalog raises [AttributeError]. *)
Theorem pull_observations_nothing_to_process
    (integration : Integration) (action_config : PullObservationsConfig)
    (stored : gmap (string * string * string) (list (string * json))) :
  (forall e,
      action_pull_observations clock integration action_config (Raise e)
        (initial_world stored)
      = (Raise e, initial_world stored))
  /\ action_pull_observations clock integration action_config
       (Return (ProjectsText "")) (initial_world stored)
     = (Return 0, initial_world stored)
  /\ (forall body, body <> "" ->
        action_pull_observations clock integration action_config
          (Return (ProjectsText body)) (initial_world stored)
        = (Raise AttributeError, initial_world stored))
  /\ (forall catalog, all_excluded catalog ->
        action_pull_observations clock integration action_config
          (Return (ProjectsParsed catalog)) (initial_world stored)
        = (Return 0, {| ticks := 1; store := stored; trace := [] |})).
Proof.
  split; [|split; [|split]].
  - reflexivity.
  - reflexivity.
  - intros body Hbody. destruct body; [contradiction|reflexivity].
  - intros catalog Hall. unfold action_pull_observations.
    unfold mbind, M_mbind, M_bind, lift, datetime_now, initial_world.
    cbn [fst snd ticks store trace].
    apply for_each_skips. intros acc project w Hproject.
    unfold all_excluded in Hall. rewrite Forall_forall in Hall.
    specialize (Hall project Hproject). rewrite Forall_forall in Hall.
    apply for_each_skips. intros acc2 station w2 Hstation.
    unfold process_station.
    rewrite (filter_all_excluded _ (Hall station Hstation)). reflexivity.
Qed.

(** X16. The action changes the state store only under the watermark keys
    [(integration.id, "pull_observations", sensor.id)] of sensors of the
    catalog that the filter keeps: every other key holds after the run
    what it held before, and whatever the run has written is a state with
    the single entry [updated_at], a text. *)
Theorem pull_observations_store_frame
    (integration : Integration) (action_config : PullObservationsConfig)
    (catalog : ProjectResponse)
    (stored : gmap (string * string * string) (list (string * json))) :
  let run :=
    action_pull_observations clock integration action_config
      (Return (ProjectsParsed catalog)) (initial_world stored) in
  (forall key,
      (forall the_sensor, kept_sensor catalog the_sensor ->
                          key <> watermark_key integration the_sensor) ->
      store run.2 !! key = stored !! key)
  /\ (forall key state,
        store run.2 !! key = Some state ->
        stored !! key = Some state
        \/ (watermark_state state
            /\ exists the_sensor, kept_sensor catalog the_sensor
                 /\ key = watermark_key integration the_sensor)).
Proof.
  intros run. unfold run. split.
  - intros key Hkey.
    apply (action_world_invariant (fun w => store w !! key = stored !! key));
      [auto| |reflexivity].
    intros now project station_info projects_units sensors_triggered the_sensor w'
           Hkept Hw'.
    destruct (process_sensor_effect integration action_config now project
                station_info projects_units sensors_triggered the_sensor w')
      as [[-> | (latest_time & ->)] _]; [exact Hw'|].
    rewrite lookup_insert_ne; [exact Hw'|].
    intros Heq. apply (Hkey the_sensor Hkept). symmetry. exact Heq.
  - apply (action_world_invariant
             (fun w => forall key state,
                store w !! key = Some state ->
                stored !! key = Some state
                \/ (watermark_state state
                    /\ exists the_sensor, kept_sensor catalog the_sensor
                         /\ key = watermark_key integration the_sensor)));
      [auto| |auto].
    intros now project station_info projects_units sensors_triggered the_sensor w'
           Hkept Hw' key state.
    destruct (process_sensor_effect integration action_config now project
                station_info projects_units sensors_triggered the_sensor w')
      as [[-> | (latest_time & ->)] _]; [apply Hw'|].
    destruct (decide (key = watermark_key integration the_sensor)) as [->|Hne].
    + rewrite lookup_insert_eq. intros [= <-]. right.
      split; [eexists; reflexivity|]. exists the_sensor. auto.
    + rewrite lookup_insert_ne by congruence. apply Hw'.
Qed.

(** X17. Whatever the catalog, the store and the clock, the action never
    calls [trigger_action]; and when it returns, the count it returns
    under [sensors_triggered] is 0. *)
Theorem pull_observations_dispatches_nothing
    (integration : Integration) (action_config : PullObservationsConfig)
    (projects : result ProjectsReturn)
    (stored : gmap (string * string * string) (list (string * json))) :
  let run :=
    action_pull_observations clock integration action_config projects
      (initial_world stored) in
  Forall (fun e => is_trigger e = false) (trace run.2)
  /\ (forall sensors_triggered, run.1 = Return sensors_triggered ->
        sensors_triggered = 0).
Proof.
  intros run. unfold run. split.
  - apply action_trace_forall; [|constructor]. intros e _ _ Hnot. exact Hnot.
  - intros sensors_triggered.
    unfold action_pull_observations.
    unfold mbind, M_mbind, M_bind, lift.
    destruct projects as [[body|catalog]|e]; cbn [fst snd].
    + destruct body; [intros [= <-]; reflexivity | discriminate].
    + unfold datetime_now. cbn [fst snd].
      match goal with
      | |- (for_each ?body ?xs ?acc ?w).1 = _ -> _ =>
          destruct (for_each body xs acc w) as [[a|e] w'] eqn:Hrun
      end; [|discriminate].
      intros [= <-].
      eapply for_each_keeps_count; [|exact Hrun].
      intros acc project w1 a1 w1' Hproject.
      eapply for_each_keeps_count; [|exact Hproject].
      intros acc2 station w2 a2 w2' Hstation. unfold process_station in Hstation.
      eapply for_each_keeps_count; [|exact Hstation].
      intros acc3 the_sensor w3 a3 w3' Hsensor.
      match type of Hsensor with
      | process_sensor _ ?i ?c ?n ?p ?si ?u _ _ _ = _ =>
          destruct (process_sensor_effect i c n p si u acc3 the_sensor w3)
            as [_ Hcount]
      end.
      apply Hcount. rewrite Hsensor. reflexivity.
    + discriminate.
Qed.

(** X18. A stored watermark that cannot be read ends the sensor's
    iteration right after the lookup, before the clock is read:
    [TypeError] when the state has no [updated_at] or holds something
    else than a text under it, [AttributeError] when [dateparser] makes
    nothing of the text. *)
Theorem unreadable_watermark_raises
    (integration : Integration) (action_config : PullObservationsConfig)
    (now : instant) (project : Project) (station_info : StationInfo)
    (projects_units : list Unit) (sensors_triggered : Z)
    (the_sensor : Sensor) (w : World) (state : list (string * json)) :
  store w !! watermark_key integration the_sensor = Some state ->
  state <> [] ->
  let run :=
    process_sensor clock integration action_config now project station_info
      projects_units sensors_triggered the_sensor w in
  let looked_up :=
    record the_sensor
      (get_state (Integration_id integration) "pull_observations"
         (Sensor_id the_sensor)) w in
  (dict_get state "updated_at" = None -> run = (Raise TypeError, looked_up))
  /\ (forall value, dict_get state "updated_at" = Some value ->
        (forall updated_at, value <> JStr updated_at) ->
        run = (Raise TypeError, looked_up))
  /\ (forall updated_at, dict_get state "updated_at" = Some (JStr updated_at) ->
        dateparser_parse updated_at = None ->
        run = (Raise AttributeError, looked_up)).
Proof.
  intros Hstored Hne run looked_up. unfold run, looked_up.
  rewrite process_sensor_eq. cbn zeta. rewrite Hstored.
  destruct state as [|entry state]; [contradiction|].
  unfold start_date_of.
  change (state_falsy (Some (entry :: state))) with false.
  change (default [] (Some (entry :: state))) with (entry :: state).
  cbv iota. split; [|split].
  - intros ->. reflexivity.
  - intros value -> Hshape. destruct value; try reflexivity.
    destruct (Hshape _ eq_refl).
  - intros updated_at -> ->. reflexivity.
Qed.

(** X19. When a sensor has no window to dispatch, the watermark is saved
    only if its first channel reports a text under [last_reading]:
    a sensor without channels raises [IndexError], a first channel
    without [last_reading] raises [KeyError], and a [last_reading] that
    is not a text raises [AttributeError]; in each case the store is left
    as it was. *)
Theorem missing_last_reading_raises
    (integration : Integration) (action_config : PullObservationsConfig)
    (now : instant) (project : Project) (station_info : StationInfo)
    (projects_units : list Unit) (sensors_triggered : Z)
    (the_sensor : Sensor) (w : World) (start_date : instant) :
  start_date_of action_config now (store w !! watermark_key integration the_sensor)
  = Return start_date ->
  clock (ticks w) <= start_date ->
  let run :=
    process_sensor clock integration action_config now project station_info
      projects_units sensors_triggered the_sensor w in
  (Sensor_channels the_sensor = [] ->
   run.1 = Raise IndexError /\ store run.2 = store w)
  /\ (forall channel channels,
        Sensor_channels the_sensor = channel :: channels ->
        (dict_get (Channel_channel_health channel) "last_reading" = None ->
         run.1 = Raise (KeyError "last_reading") /\ store run.2 = store w)
        /\ (forall value,
              dict_get (Channel_channel_health channel) "last_reading" = Some value ->
              (forall last_reading, value <> JStr last_reading) ->
              run.1 = Raise AttributeError /\ store run.2 = store w)).
Proof.
  intros Hstart Hle run. unfold run. rewrite process_sensor_eq. cbn zeta.
  rewrite Hstart.
  pose proof (generate_date_pairs_partition start_date (clock (ticks w))) as Hpart.
  destruct (generate_date_pairs start_date (clock (ticks w))) as [|[lo hi] rest];
    [|simpl in Hpart; lia].
  unfold latest_time_of. split.
  - intros ->. split; reflexivity.
  - intros channel channels ->. split.
    + intros ->. split; reflexivity.
    + intros value -> Hshape. destruct value; try (split; reflexivity).
      destruct (Hshape _ eq_refl).
Qed.

End MorePullObservations.

Lemma pull_observations_nothing_to_process_witness :
  action_pull_observations (RT := Examples.example_runtime) Examples.example_clock
    Examples.integration Examples.default_config
    (Return (ProjectsParsed
               (Examples.catalog_of [Examples.air "Statistics";
                                     Examples.air "Diagnostic Parameters"])))
    (initial_world ∅)
  = (Return 0, {| ticks := 1; store := ∅; trace := [] |})
  /\ action_pull_observations (RT := Examples.example_runtime) Examples.example_clock
       Examples.integration Examples.default_config
       (Return (ProjectsText "{}")) (initial_world ∅)
     = (Raise AttributeError, initial_world ∅).
Proof.
  destruct (pull_observations_nothing_to_process (RT := Examples.example_runtime)
              Examples.example_clock Examples.integration Examples.default_config ∅)
    as (_ & _ & Htext & Hexcluded).
  split.
  - apply Hexcluded. repeat constructor.
  - apply Htext. discriminate.
Defined.

Lemma unreadable_watermark_raises_witness :
  (process_sensor (RT := Examples.example_runtime) Examples.example_clock
     Examples.integration Examples.default_config (Examples.example_clock 0)
     (Examples.project_of [Examples.air "Air"])
     {| station_name := "Ridge"; station_longitude := Examples.f21_5;
        station_latitude := Examples.f21_5 |}
     [Examples.celsius] 0 (Examples.air "Air")
     {| ticks := 1;
        store := {[ ("int1", "pull_observations", "s-Air")
                    := [("updated_at", JStr "yesterday-ish")] ]};
        trace := [] |}).1
  = Raise AttributeError.
Proof.
  destruct (unreadable_watermark_raises (RT := Examples.example_runtime)
              Examples.example_clock
              Examples.integration Examples.default_config (Examples.example_clock 0)
              (Examples.project_of [Examples.air "Air"])
              {| station_name := "Ridge"; station_longitude := Examples.f21_5;
                 station_latitude := Examples.f21_5 |}
              [Examples.celsius] 0 (Examples.air "Air")
              {| ticks := 1;
                 store := {[ ("int1", "pull_observations", "s-Air")
                             := [("updated_at", JStr "yesterday-ish")] ]};
                 trace := [] |}
              [("updated_at", JStr "yesterday-ish")])
    as (_ & _ & Hunparsed).
  - vm_compute. reflexivity.
  - discriminate.
  - rewrite (Hunparsed "yesterday-ish"); reflexivity.
Defined.

Lemma missing_last_reading_raises_witness :
  (process_sensor (RT := MoreExamples.future_runtime) Examples.example_clock
     Examples.integration Examples.default_config (Examples.example_clock 0)
     (Examples.project_of [MoreExamples.bare_sensor])
     {| station_name := "Ridge"; station_longitude := Examples.f21_5;
        station_latitude := Examples.f21_5 |}
     [Examples.celsius] 0 MoreExamples.bare_sensor MoreExamples.future_world).1
  = Raise IndexError.
Proof.
  destruct (missing_last_reading_raises (RT := MoreExamples.future_runtime)
              Examples.example_clock
              Examples.integration Examples.default_config (Examples.example_clock 0)
              (Examples.project_of [MoreExamples.bare_sensor])
              {| station_name := "Ridge"; station_longitude := Examples.f21_5;
                 station_latitude := Examples.f21_5 |}
              [Examples.celsius] 0 MoreExamples.bare_sensor MoreExamples.future_world
              (utc 2030 1 1 0 0 0))
    as (Hbare & _).
  - vm_compute. reflexivity.
  - vm_compute. discriminate.
  - apply Hbare. reflexivity.
Defined.

(** ** [transform], again *)

Section MoreTransform.

Context `{RT : Runtime}.

Lemma readings_loop_app the_sensor station_units earlier later :
  forall readings_additional,
    readings_loop the_sensor station_units (earlier ++ later) readings_additional
    = (out ← readings_loop the_sensor station_units earlier readings_additional;
       readings_loop the_sensor station_units later out).
Proof.
  induction earlier as [|reading earlier IH]; intros acc; [reflexivity|].
  cbn [app readings_loop].
  destruct (reading_additional the_sensor station_units reading) as [one|e];
    [|reflexivity].
  simpl. apply IH.
Qed.

Lemma health_key_differs (name : string) : name <> name +:+ " Health".
Proof.
  intros Heq. apply (f_equal String.length) in Heq.
  rewrite string_length_app in Heq. simpl in Heq. lia.
Qed.

(** X20. The entries of a channel hold what its last reading gave: after
    [transform], the key of the channel that the last reading resolves to
    holds that reading's value with the unit symbol, and the channel's
    health key holds its health percentage, whatever the earlier readings
    have stored there. *)
Theorem transform_last_reading_wins
    (station_sensor : PullSensorObservationsPerStationConfig)
    (the_sensor : Sensor) (projects_units : list Unit)
    (timestamp : instant) (earlier : list ChannelReading)
    (reading : ChannelReading) (channel_info : Channel) :
  sensor station_sensor = Some the_sensor ->
  units station_sensor = Some projects_units ->
  Forall (fun reading =>
            ChannelReading_channel_id reading ∈ channel_ids the_sensor) earlier ->
  find_channel (Sensor_channels the_sensor) (ChannelReading_channel_id reading)
  = Some channel_info ->
  exists observation,
    transform station_sensor timestamp (earlier ++ [reading]) = Return observation
    /\ dict_get (additional observation) (Channel_name channel_info)
       = Some (value_with_unit projects_units channel_info reading)
    /\ dict_get (additional observation) (Channel_name channel_info +:+ " Health")
       = Some (health_percentage channel_info).
Proof.
  intros Hsensor Hunits Hknown Hfind.
  unfold transform. rewrite Hsensor, Hunits, readings_loop_app.
  destruct (readings_loop_known the_sensor projects_units earlier [] Hknown)
    as (out & -> & _ & _); [apply NoDup_nil_2|].
  simpl. unfold reading_additional. rewrite Hfind. simpl.
  eexists. split; [reflexivity|]. cbn [additional].
  unfold dict_update.
  destruct (decide (Channel_name channel_info +:+ " Health"
                    = Channel_name channel_info)) as [Heq|_];
    [symmetry in Heq; destruct (health_key_differs _ Heq)|].
  cbn [fold_left fst snd].
  rewrite !dict_get_set. split.
  - rewrite decide_False by apply health_key_differs.
    rewrite decide_True by reflexivity. reflexivity.
  - rewrite decide_True by reflexivity. reflexivity.
Qed.

(** X21. The unit symbol is found through the decimal text of the unit's
    number: a channel whose [unit_id] is the decimal text of [n] gets the
    symbol of the first unit numbered [n], and a [unit_id] that is the
    decimal text of no unit's number gets the empty symbol. *)
Theorem unit_symbol_by_decimal_text (projects_units : list Unit) :
  (forall n,
      unit_symbol projects_units (pretty n)
      = default ""
          (Unit_unit <$>
             List.find (fun unit => bool_decide (Unit_id unit = n)) projects_units))
  /\ (forall unit_id,
        (forall unit, unit ∈ projects_units -> pretty (Unit_id unit) <> unit_id) ->
        unit_symbol projects_units unit_id = "").
Proof.
  unfold unit_symbol. split.
  - intros n. induction projects_units as [|unit rest IH]; [reflexivity|].
    cbn [List.find].
    destruct (decide (Unit_id unit = n)) as [Heq|Hne].
    + rewrite !bool_decide_eq_true_2; [reflexivity|exact Heq|congruence].
    + rewrite !bool_decide_eq_false_2; [exact IH|exact Hne|].
      intros Heq. apply Hne. apply (inj pretty). exact Heq.
  - intros unit_id Hnone. induction projects_units as [|unit rest IH]; [reflexivity|].
    cbn [List.find].
    rewrite bool_decide_eq_false_2 by (apply Hnone, list_elem_of_here).
    apply IH. intros u Hu. apply Hnone, list_elem_of_further, Hu.
Qed.

End MoreTransform.

Lemma transform_last_reading_wins_witness :
  exists observation,
    transform (RT := Examples.example_runtime)
      (Examples.task_for Examples.two_channel_sensor) (utc 2024 6 1 11 45 0)
      ([Examples.reading_of "c2"] ++ [Examples.reading_of "c1"])
    = Return observation
    /\ dict_get (additional observation) "Temp" = Some "21.5 degC"
    /\ dict_get (additional observation) "Temp Health" = Some "98%".
Proof.
  apply (transform_last_reading_wins (RT := Examples.example_runtime)
           (Examples.task_for Examples.two_channel_sensor)
           Examples.two_channel_sensor [Examples.celsius]
           (utc 2024 6 1 11 45 0) [Examples.reading_of "c2"]
           (Examples.reading_of "c1") Examples.temperature
           eq_refl eq_refl).
  - repeat constructor.
  - reflexivity.
Defined.

Lemma unit_symbol_by_decimal_text_witness :
  unit_symbol [Examples.celsius] "3" = "degC"
  /\ unit_symbol [Examples.celsius] "03" = "".
Proof.
  destruct (unit_symbol_by_decimal_text [Examples.celsius]) as [Hfound Hnone].
  split.
  - apply (Hfound 3).
  - apply Hnone. intros unit Hin.
    apply list_elem_of_singleton in Hin as ->. vm_compute. discriminate.
Defined.

(** ** [PullSensorObservationsPerStationConfig] *)

(** X22. The task configuration is built exactly when the keywords
    [start], [stop], [project_id], [station] and
    [sensor_featured_properties] are all given and [project_id] reads as
    an integer; [sensor] and [units] may be left out.  In the
    configuration built, [start] always carries a zone and denotes the
    instant it was given with (read as UTC when it had no zone), while
    [stop] is stored as given. *)
Theorem per_station_config_built `{RT : Runtime} (kw : PerStationKeywords) :
  (forall config,
      PullSensorObservationsPerStationConfig_init kw = Return config ->
      exists given_start n,
        kw_start kw = Some given_start
        /\ kw_stop kw = Some (stop config)
        /\ (exists text, kw_project_id kw = Some text /\ int_of_str text = Some n)
        /\ kw_station kw = Some (station config)
        /\ kw_sensor_featured_properties kw = Some (sensor_featured_properties config)
        /\ project_id config = n
        /\ sensor config = kw_sensor kw
        /\ units config = kw_units kw
        /\ tzinfo (start config) <> None
        /\ wall (start config) = wall given_start
        /\ instant_assuming_utc (start config) = instant_assuming_utc given_start)
  /\ (forall given_start given_stop text n given_station featured,
        kw_start kw = Some given_start ->
        kw_stop kw = Some given_stop ->
        kw_project_id kw = Some text ->
        int_of_str text = Some n ->
        kw_station kw = Some given_station ->
        kw_sensor_featured_properties kw = Some featured ->
        exists config, PullSensorObservationsPerStationConfig_init kw = Return config)
  /\ (kw_sensor_featured_properties kw = None ->
      PullSensorObservationsPerStationConfig_init kw = Raise ValidationError).
Proof.
  unfold PullSensorObservationsPerStationConfig_init. split; [|split].
  - intros config.
    destruct (kw_start kw) as [given_start|]; [|discriminate].
    destruct (kw_stop kw) as [given_stop|]; [|discriminate].
    destruct (kw_project_id kw) as [text|]; [|discriminate].
    destruct (kw_station kw) as [given_station|]; [|discriminate].
    destruct (kw_sensor_featured_properties kw) as [featured|]; [|discriminate].
    destruct (int_of_str text) as [n|] eqn:Hn; [|discriminate].
    intros [= <-]. exists given_start, n. cbn.
    repeat split; try reflexivity; eauto.
    + unfold parse_time_string. destruct (tzinfo given_start) eqn:Hz; simpl; congruence.
    + unfold parse_time_string. destruct (tzinfo given_start); reflexivity.
    + unfold parse_time_string, instant_assuming_utc.
      destruct (tzinfo given_start) eqn:Hz; simpl; [rewrite Hz; reflexivity|lia].
  - intros given_start given_stop text n given_station featured
           -> -> -> Hn -> ->. rewrite Hn. eexists. reflexivity.
  - intros ->.
    destruct (kw_start kw), (kw_stop kw), (kw_project_id kw), (kw_station kw);
      reflexivity.
Qed.

Lemma per_station_config_built_witness :
  exists config,
    PullSensorObservationsPerStationConfig_init (RT := Examples.example_runtime)
      MoreExamples.full_keywords = Return config.
Proof.
  destruct (per_station_config_built (RT := Examples.example_runtime)
              MoreExamples.full_keywords) as (_ & Hbuilt & _).
  eapply Hbuilt; reflexivity.
Defined.

(** ** [action_pull_sensor_observations_per_station] *)

Section PerStationAction.

Context `{RT : Runtime}.
Variable generate_batches : list Observation -> Z -> list (list Observation).
Variable send : nat -> list Observation -> result (list json).

Lemma transform_known station_sensor the_sensor projects_units timestamp readings :
  sensor station_sensor = Some the_sensor ->
  units station_sensor = Some projects_units ->
  Forall (fun reading =>
            ChannelReading_channel_id reading ∈ channel_ids the_sensor) readings ->
  exists observation,
    transform station_sensor timestamp readings = Return observation
    /\ recorded_at observation = timestamp.
Proof.
  intros Hsensor Hunits Hknown. unfold transform. rewrite Hsensor, Hunits.
  destruct (readings_loop_known the_sensor projects_units readings [] Hknown)
    as (out & -> & _); [apply NoDup_nil_2|].
  eexists. split; reflexivity.
Qed.

Lemma transform_unknown station_sensor the_sensor projects_units timestamp readings :
  sensor station_sensor = Some the_sensor ->
  units station_sensor = Some projects_units ->
  ~ Forall (fun reading =>
              ChannelReading_channel_id reading ∈ channel_ids the_sensor) readings ->
  transform station_sensor timestamp readings = Raise TypeError.
Proof.
  intros Hsensor Hunits Hunknown. unfold transform. rewrite Hsensor, Hunits.
  apply not_Forall_Exists in Hunknown; [|intros x; apply _].
  rewrite (readings_loop_unknown the_sensor projects_units readings []);
    [reflexivity|].
  eapply Exists_impl; [exact Hunknown|]. intros reading Hr. exact Hr.
Qed.

Lemma transform_all_known action_config the_sensor projects_units groups :
  sensor action_config = Some the_sensor ->
  units action_config = Some projects_units ->
  Forall (fun group =>
            Forall (fun reading =>
                      ChannelReading_channel_id reading ∈ channel_ids the_sensor)
              group.2) groups ->
  exists transformed_data,
    transform_all action_config groups = Return transformed_data
    /\ recorded_at <$> transformed_data = groups.*1.
Proof.
  intros Hsensor Hunits. induction 1 as [|[timestamp readings] groups Hg _ IH].
  - exists []. split; reflexivity.
  - destruct IH as (rest & Hrest & Htimes).
    destruct (transform_known action_config the_sensor projects_units timestamp
                readings Hsensor Hunits Hg) as (observation & Hobs & Hat).
    exists (observation :: rest). cbn [transform_all].
    unfold sensor_name_of. rewrite Hsensor. simpl.
    rewrite Hobs. simpl. rewrite Hrest. simpl.
    split; [reflexivity|]. simpl. f_equal; [exact Hat|exact Htimes].
Qed.

Lemma transform_all_unknown action_config the_sensor projects_units groups :
  sensor action_config = Some the_sensor ->
  units action_config = Some projects_units ->
  Exists (fun group =>
            Exists (fun reading =>
                      ChannelReading_channel_id reading ∉ channel_ids the_sensor)
              group.2) groups ->
  transform_all action_config groups = Raise TypeError.
Proof.
  intros Hsensor Hunits. induction groups as [|[timestamp readings] groups IH].
  - intros Hex. inversion Hex.
  - intros Hex. cbn [transform_all]. unfold sensor_name_of. rewrite Hsensor. simpl.
    destruct (decide (Forall (fun reading =>
                ChannelReading_channel_id reading ∈ channel_ids the_sensor) readings))
      as [Hknown|Hunknown].
    + destruct (transform_known action_config the_sensor projects_units timestamp
                  readings Hsensor Hunits Hknown) as (observation & -> & _).
      simpl. rewrite IH; [reflexivity|].
      apply Exists_cons in Hex as [Hhere|Hlater]; [|exact Hlater].
      simpl in Hhere. apply Exists_exists in Hhere as (reading & Hin & Hr).
      rewrite Forall_forall in Hknown. destruct (Hr (Hknown _ Hin)).
    + rewrite (transform_unknown _ _ _ _ _ Hsensor Hunits Hunknown). reflexivity.
Qed.

Lemma send_batches_all responses batches : forall i observations_extracted,
  (forall j batch, batches !! j = Some batch ->
                   send (i + j)%nat batch = Return (responses (i + j)%nat)) ->
  send_batches send i batches observations_extracted
  = (Return (observations_extracted
             + Z.of_nat (sum_list ((fun j => length (responses j))
                                     <$> seq i (length batches)))),
     batches).
Proof.
  induction batches as [|batch batches IH]; intros i acc Hsend.
  - simpl. f_equal. f_equal. lia.
  - cbn [send_batches].
    pose proof (Hsend O batch eq_refl) as Hfirst. rewrite Nat.add_0_r in Hfirst.
    rewrite Hfirst, IH.
    + cbn [length seq]. rewrite sum_list_fmap_cons. f_equal. f_equal. lia.
    + intros j b Hj. replace (S i + j)%nat with (i + S j)%nat by lia.
      apply Hsend. exact Hj.
Qed.

Lemma send_batches_fails batches : forall k i observations_extracted batch e,
  batches !! k = Some batch ->
  send (i + k)%nat batch = Raise e ->
  (forall j b, (j < k)%nat -> batches !! j = Some b ->
               exists response, send (i + j)%nat b = Return response) ->
  send_batches send i batches observations_extracted
  = (Raise e, take (S k) batches).
Proof.
  induction batches as [|first batches IH]; intros k i acc batch e Hk Hfail Hbefore.
  - discriminate.
  - destruct k as [|k].
    + injection Hk as ->. rewrite Nat.add_0_r in Hfail.
      cbn [send_batches]. rewrite Hfail. reflexivity.
    + destruct (Hbefore O first) as (response & Hfirst); [lia|reflexivity|].
      rewrite Nat.add_0_r in Hfirst.
      cbn [send_batches]. rewrite Hfirst.
      rewrite (IH k (S i) _ batch e); [reflexivity|exact Hk| |].
      * replace (S i + k)%nat with (i + S k)%nat by lia. exact Hfail.
      * intros j b Hj Hb. replace (S i + j)%nat with (i + S j)%nat by lia.
        apply Hbefore; [lia|exact Hb].
Qed.

(** X23. The per-station action hands nothing to the sink unless every
    group of readings has been transformed: an exception of
    [get_sensor_readings] leaves as it is; a non-empty body text in place
    of the mapping raises [AttributeError]; an empty text or an empty
    mapping gives the count 0; and one reading, in any group, whose
    [channel_id] the sensor snapshot does not know raises [TypeError]
    before the first batch is sent. *)
Theorem per_station_sends_nothing_on_failure
    (action_config : PullSensorObservationsPerStationConfig) :
  (forall e,
      action_pull_sensor_observations_per_station generate_batches send
        action_config (Raise e) = (Raise e, []))
  /\ (forall body, body <> "" ->
        action_pull_sensor_observations_per_station generate_batches send
          action_config (Return (BodyText body)) = (Raise AttributeError, []))
  /\ (forall the_sensor, sensor action_config = Some the_sensor ->
        action_pull_sensor_observations_per_station generate_batches send
          action_config (Return (BodyText "")) = (Return 0, [])
        /\ action_pull_sensor_observations_per_station generate_batches send
             action_config (Return (Grouped [])) = (Return 0, []))
  /\ (forall the_sensor projects_units groups,
        sensor action_config = Some the_sensor ->
        units action_config = Some projects_units ->
        Exists (fun group =>
                  Exists (fun reading =>
                            ChannelReading_channel_id reading
                            ∉ channel_ids the_sensor) group.2) groups ->
        action_pull_sensor_observations_per_station generate_batches send
          action_config (Return (Grouped groups)) = (Raise TypeError, [])).
Proof.
  split; [|split; [|split]].
  - reflexivity.
  - intros body Hbody. destruct body; [contradiction|reflexivity].
  - intros the_sensor Hsensor.
    unfold action_pull_sensor_observations_per_station, sensor_name_of.
    rewrite Hsensor. split; reflexivity.
  - intros the_sensor projects_units groups Hsensor Hunits Hex.
    unfold action_pull_sensor_observations_per_station.
    destruct groups as [|group groups]; [inversion Hex|].
    rewrite (transform_all_unknown _ _ _ _ Hsensor Hunits Hex). reflexivity.
Qed.

(** X24. When every reading of every group is known to the sensor
    snapshot, the per-station action makes one observation per group, in
    the order of the groups and stamped with the group's timestamp, and
    hands their batches to the sink in order.  It returns the sum of the
    lengths of the sink's responses when every call of the sink returns;
    when the sink raises on a batch, the exception leaves, the batches up
    to that one have been handed over, and no count is returned. *)
Theorem per_station_counts_sink_responses
    (action_config : PullSensorObservationsPerStationConfig)
    (the_sensor : Sensor) (projects_units : list Unit)
    (groups : list (instant * list ChannelReading)) :
  sensor action_config = Some the_sensor ->
  units action_config = Some projects_units ->
  groups <> [] ->
  Forall (fun group =>
            Forall (fun reading =>
                      ChannelReading_channel_id reading ∈ channel_ids the_sensor)
              group.2) groups ->
  exists transformed_data,
    transform_all action_config groups = Return transformed_data
    /\ recorded_at <$> transformed_data = groups.*1
    /\ (forall responses,
          (forall i batch,
              generate_batches transformed_data 200 !! i = Some batch ->
              send i batch = Return (responses i)) ->
          action_pull_sensor_observations_per_station generate_batches send
            action_config (Return (Grouped groups))
          = (Return (Z.of_nat
                       (sum_list
                          ((fun i => length (responses i))
                             <$> seq 0 (length (generate_batches transformed_data 200))))),
             generate_batches transformed_data 200))
    /\ (forall k batch e,
          generate_batches transformed_data 200 !! k = Some batch ->
          send k batch = Raise e ->
          (forall i b, (i < k)%nat ->
             generate_batches transformed_data 200 !! i = Some b ->
             exists response, send i b = Return response) ->
          action_pull_sensor_observations_per_station generate_batches send
            action_config (Return (Grouped groups))
          = (Raise e, take (S k) (generate_batches transformed_data 200))).
Proof.
  intros Hsensor Hunits Hne Hknown.
  destruct (transform_all_known action_config the_sensor projects_units groups
              Hsensor Hunits Hknown) as (transformed_data & Hall & Htimes).
  exists transformed_data. split; [exact Hall|]. split; [exact Htimes|].
  unfold action_pull_sensor_observations_per_station.
  destruct groups as [|group groups]; [contradiction|]. rewrite Hall.
  split.
  - intros responses Hsend.
    rewrite (send_batches_all responses); [reflexivity|].
    intros j batch Hj. apply Hsend. exact Hj.
  - intros k batch e Hk Hfail Hbefore.
    apply (send_batches_fails _ k O 0 batch e Hk Hfail).
    intros j b Hj Hb. apply (Hbefore j b Hj Hb).
Qed.

End PerStationAction.

Lemma per_station_sends_nothing_on_failure_witness :
  action_pull_sensor_observations_per_station (RT := Examples.example_runtime)
    MoreExamples.batches_of_two MoreExamples.accepting_sink
    (Examples.task_for (Examples.air "Air")) (Return (BodyText "{}"))
  = (Raise AttributeError, [])
  /\ action_pull_sensor_observations_per_station (RT := Examples.example_runtime)
       MoreExamples.batches_of_two MoreExamples.accepting_sink
       (Examples.task_for (Examples.air "Air"))
       (Return (Grouped [ (utc 2024 6 1 11 45 0,
                           [Examples.reading_of "c1"; Examples.reading_of "c9"]) ]))
     = (Raise TypeError, []).
Proof.
  destruct (per_station_sends_nothing_on_failure (RT := Examples.example_runtime)
              MoreExamples.batches_of_two MoreExamples.accepting_sink
              (Examples.task_for (Examples.air "Air")))
    as (_ & Htext & _ & Hunknown).
  split.
  - apply Htext. discriminate.
  - apply (Hunknown (Examples.air "Air") [Examples.celsius]); [reflexivity|reflexivity|].
    apply Exists_cons_hd. apply Exists_cons_tl, Exists_cons_hd.
    vm_compute. intros Hin.
    apply list_elem_of_singleton in Hin. discriminate.
Defined.

Lemma per_station_counts_sink_responses_witness :
  action_pull_sensor_observations_per_station (RT := Examples.example_runtime)
    MoreExamples.batches_of_two MoreExamples.accepting_sink
    (Examples.task_for (Examples.air "Air"))
    (Return (Grouped MoreExamples.three_groups))
  = (Return 3,
     MoreExamples.batches_of_two MoreExamples.three_observations 200).
Proof.
  destruct (per_station_counts_sink_responses (RT := Examples.example_runtime)
              MoreExamples.batches_of_two MoreExamples.accepting_sink
              (Examples.task_for (Examples.air "Air"))
              (Examples.air "Air") [Examples.celsius] MoreExamples.three_groups
              eq_refl eq_refl)
    as (transformed_data & Hall & _ & Hcount & _).
  - discriminate.
  - repeat constructor.
  - assert (transformed_data = MoreExamples.three_observations) as ->.
    { vm_compute in Hall. injection Hall as <-. reflexivity. }
    rewrite (Hcount (fun i => match i with
                              | O => [JNull; JNull]
                              | _ => [JNull]
                              end)).
    + reflexivity.
    + intros [|[|i]] batch; vm_compute; intros [= <-]; reflexivity.
Defined.
